(** * twitchModTools: ingestion, identity and deduplication pipeline

    A shallow embedding of the Python sources [utils.py],
    [chatterino_parser.py], [deduplication_manager.py],
    [message_processor.py] and [realtime_moderator.py], and the
    properties of the pipeline proved over it.

    Conventions of the embedding:
    - a Python [dict] with string keys is a [gmap string pyval], a
      Python [set] a [gset];
    - a function that mutates a dict in place takes the dict and
      returns it as it is afterwards, also when it raises; the dicts of
      a batch are distinct objects;
    - an exception is the [Raise] outcome of [result]; a [try] is a
      match on the outcome;
    - [datetime.now()] is an argument of the function that reads it:
      [now] for one reading, a [clock] indexed by the position of the
      reading for the functions that loop;
    - the services outside (classifier, embedding service, the two
      stores) are parameters of a [Section]: functions of their
      arguments and of a state [world] that they may change;
    - [print] and the calls to the stores are events of a log;
    - a Python [str] is a [string] of ASCII characters: [lower] and
      [strip] act on ASCII letters and ASCII white space, the UTF-8
      bytes of a string are its characters, and an offset in a file
      counts characters;
    - a [datetime] has no [tzinfo];
    - a Python [float] is a binary64 [float]. *)

From Stdlib Require Import ZArith NArith String Ascii List Bool Lia.
From Stdlib Require Import Numbers.DecimalString.
From Stdlib Require Import Floats.PrimFloat.
From Stdlib Require Import Floats.
From Stdlib Require Import Sorting.Sorted.
From stdpp Require Import base decidable option list gmap strings.

Set Warnings "-inexact-float,-clear-no-such-hyp".
Open Scope string_scope.

(** ** Python values and outcomes *)

Module Py.

(** [datetime.datetime] (naive: no [tzinfo]). *)
Record datetime := mk_datetime {
  year : N; month : N; day : N;
  hour : N; minute : N; second : N; microsecond : N }.

Inductive pyval :=
| PNone
| PInt (z : Z)
| PStr (s : string)
| PDatetime (d : datetime).

Inductive exn :=
| AttributeError
| KeyError
| TypeError
| ValueError
| StoreError.

Inductive result (A : Type) :=
| Ok (a : A)
| Raise (e : exn).
Arguments Ok {A} a.
Arguments Raise {A} e.

Definition bind {A B} (r : result A) (k : A -> result B) : result B :=
  match r with
  | Ok a => k a
  | Raise e => Raise e
  end.

#[global] Instance datetime_eq_dec : EqDecision datetime.
Proof. solve_decision. Defined.
#[global] Instance pyval_eq_dec : EqDecision pyval.
Proof. solve_decision. Defined.
#[global] Instance exn_eq_dec : EqDecision exn.
Proof. solve_decision. Defined.

Definition datetime_to_tuple (d : datetime) : N * N * N * N * N * N * N :=
  (year d, month d, day d, hour d, minute d, second d, microsecond d).
Definition datetime_of_tuple (t : N * N * N * N * N * N * N) : datetime :=
  let '(y, mo, dd, h, mi, s, us) := t in mk_datetime y mo dd h mi s us.

#[global] Instance datetime_countable : Countable datetime.
Proof.
  apply (inj_countable' datetime_to_tuple datetime_of_tuple).
  intros []; reflexivity.
Defined.

Definition pyval_to_sum (v : pyval) : unit + Z + string + datetime :=
  match v with
  | PNone => inl (inl (inl tt))
  | PInt z => inl (inl (inr z))
  | PStr s => inl (inr s)
  | PDatetime d => inr d
  end.
Definition pyval_of_sum (x : unit + Z + string + datetime) : pyval :=
  match x with
  | inl (inl (inl _)) => PNone
  | inl (inl (inr z)) => PInt z
  | inl (inr s) => PStr s
  | inr d => PDatetime d
  end.

#[global] Instance pyval_countable : Countable pyval.
Proof.
  apply (inj_countable' pyval_to_sum pyval_of_sum).
  intros []; reflexivity.
Defined.

(** Truth value of a Python object ([bool(v)]). *)
Definition truthy (v : pyval) : bool :=
  match v with
  | PNone => false
  | PInt z => negb (Z.eqb z 0)
  | PStr s => negb (String.eqb s "")
  | PDatetime _ => true
  end.

(** [bool(d.get(k))]: a missing key gives [None], which is false. *)
Definition truthy_get (o : option pyval) : bool :=
  match o with
  | Some v => truthy v
  | None => false
  end.

(** *** Strings *)

Definition is_upper (c : ascii) : bool :=
  let n := nat_of_ascii c in (65 <=? n)%nat && (n <=? 90)%nat.

Definition lower_char (c : ascii) : ascii :=
  if is_upper c then ascii_of_nat (nat_of_ascii c + 32) else c.

(** [s.lower()]. *)
Fixpoint lower (s : string) : string :=
  match s with
  | EmptyString => EmptyString
  | String c s' => String (lower_char c) (lower s')
  end.

(** [c.isspace()] on ASCII: tab, line feed, vertical tab, form feed,
    carriage return, the four separators 28..31 and the space. *)
Definition is_space (c : ascii) : bool :=
  let n := nat_of_ascii c in
  ((9 <=? n)%nat && (n <=? 13)%nat) || ((28 <=? n)%nat && (n <=? 32)%nat).

Fixpoint lstrip (s : string) : string :=
  match s with
  | EmptyString => EmptyString
  | String c s' => if is_space c then lstrip s' else s
  end.

Fixpoint rstrip (s : string) : string :=
  match s with
  | EmptyString => EmptyString
  | String c s' =>
      match rstrip s' with
      | EmptyString => if is_space c then EmptyString else String c EmptyString
      | r => String c r
      end
  end.

(** [s.strip()]. *)
Definition strip (s : string) : string := rstrip (lstrip s).

(** [c in s] for a one-character [c]. *)
Fixpoint contains_char (c : ascii) (s : string) : bool :=
  match s with
  | EmptyString => false
  | String c' s' => Ascii.eqb c c' || contains_char c s'
  end.

Fixpoint repeat_char (c : ascii) (n : nat) : string :=
  match n with
  | O => EmptyString
  | S n' => String c (repeat_char c n')
  end.

Definition dec (n : N) : string := NilZero.string_of_uint (N.to_uint n).

(** ["%0wd" % n]. *)
Definition zpad (w : nat) (n : N) : string :=
  let s := dec n in repeat_char "0" (w - String.length s) +:+ s.

(** [d.isoformat(sep)]: the fractional part is printed only when the
    microsecond is not zero. *)
Definition isoformat_sep (sep : string) (d : datetime) : string :=
  zpad 4 (year d) +:+ "-" +:+ zpad 2 (month d) +:+ "-" +:+ zpad 2 (day d) +:+ sep
  +:+ zpad 2 (hour d) +:+ ":" +:+ zpad 2 (minute d) +:+ ":" +:+ zpad 2 (second d)
  +:+ (if N.eqb (microsecond d) 0 then "" else "." +:+ zpad 6 (microsecond d)).

Definition isoformat (d : datetime) : string := isoformat_sep "T" d.

(** [str(v)], which is also what an f-string substitutes for [{v}]. *)
Definition str (v : pyval) : string :=
  match v with
  | PNone => "None"
  | PInt z => if (z <? 0)%Z then "-" +:+ dec (Z.to_N (- z)) else dec (Z.to_N z)
  | PStr s => s
  | PDatetime d => isoformat_sep " " d
  end.

(** [f.readlines()] of a text file opened with universal newlines: the
    lines of [s], each with its line end, written as a line feed
    whether it was a line feed, a carriage return or both. [cur] holds
    the characters of the line being read. *)
Fixpoint readlines_from (cur : string) (s : string) : list string :=
  match s with
  | EmptyString => if String.eqb cur "" then nil else cons cur nil
  | String c s' =>
      if Ascii.eqb c "010" then (cur +:+ String "010" "") :: readlines_from "" s'
      else if Ascii.eqb c "013" then
        match s' with
        | String c' s'' =>
            if Ascii.eqb c' "010" then (cur +:+ String "010" "") :: readlines_from "" s''
            else (cur +:+ String "010" "") :: readlines_from "" s'
        | EmptyString => cons (cur +:+ String "010" "") nil
        end
      else readlines_from (cur +:+ String c "") s'
  end.

Definition readlines (s : string) : list string := readlines_from "" s.

(** [Path(filepath).name], for a path that does not end in a
    separator: what follows the last [/]. *)
Fixpoint name_from (cur : string) (s : string) : string :=
  match s with
  | EmptyString => cur
  | String c s' =>
      if Ascii.eqb c "/" then name_from "" s' else name_from (cur +:+ String c "") s'
  end.

Definition path_name (filepath : string) : string := name_from "" filepath.

End Py.
Export Py.

(** ** [hashlib.md5] *)

Module MD5.
Local Open Scope Z_scope.

Definition mask32 : Z := 4294967295.
Definition add32 (a b : Z) : Z := Z.land (a + b) mask32.
Definition not32 (a : Z) : Z := Z.lxor a mask32.
Definition rotl32 (x n : Z) : Z :=
  Z.land (Z.lor (Z.shiftl x n) (Z.shiftr x (32 - n))) mask32.

Definition shifts : list Z :=
  [7; 12; 17; 22; 7; 12; 17; 22; 7; 12; 17; 22; 7; 12; 17; 22;
   5; 9; 14; 20; 5; 9; 14; 20; 5; 9; 14; 20; 5; 9; 14; 20;
   4; 11; 16; 23; 4; 11; 16; 23; 4; 11; 16; 23; 4; 11; 16; 23;
   6; 10; 15; 21; 6; 10; 15; 21; 6; 10; 15; 21; 6; 10; 15; 21].

(** [floor(2^32 * abs(sin(i + 1)))] for [i] in [0..63]. *)
Definition sines : list Z :=
  [3614090360; 3905402710; 606105819; 3250441966; 4118548399; 1200080426;
   2821735955; 4249261313; 1770035416; 2336552879; 4294925233; 2304563134;
   1804603682; 4254626195; 2792965006; 1236535329; 4129170786; 3225465664;
   643717713; 3921069994; 3593408605; 38016083; 3634488961; 3889429448;
   568446438; 3275163606; 4107603335; 1163531501; 2850285829; 4243563512;
   1735328473; 2368359562; 4294588738; 2272392833; 1839030562; 4259657740;
   2763975236; 1272893353; 4139469664; 3200236656; 681279174; 3936430074;
   3572445317; 76029189; 3654602809; 3873151461; 530742520; 3299628645;
   4096336452; 1126891415; 2878612391; 4237533241; 1700485571; 2399980690;
   4293915773; 2240044497; 1873313359; 4264355552; 2734768916; 1309151649;
   4149444226; 3174756917; 718787259; 3951481745].

Definition at_ (l : list Z) (i : nat) : Z := default 0 (l !! i).

(** [n] bytes of [x], least significant first. *)
Fixpoint le_bytes (n : nat) (x : Z) : list Z :=
  match n with
  | O => []
  | S n' => Z.land x 255 :: le_bytes n' (Z.shiftr x 8)
  end.

(** The bytes of [s.encode('utf-8')] for an ASCII [s]. *)
Definition bytes_of_string (s : string) : list Z :=
  (fun c => Z.of_nat (nat_of_ascii c)) <$> list_ascii_of_string s.

Definition pad (msg : list Z) : list Z :=
  let len := length msg in
  let zeros := ((119 - len mod 64) mod 64)%nat in
  msg ++ [128] ++ replicate zeros 0 ++ le_bytes 8 (8 * Z.of_nat len).

Fixpoint words (n : nat) (bs : list Z) : list Z :=
  match n with
  | O => []
  | S n' =>
      (at_ bs 0 + Z.shiftl (at_ bs 1) 8 + Z.shiftl (at_ bs 2) 16 + Z.shiftl (at_ bs 3) 24)
      :: words n' (drop 4 bs)
  end.

Definition state : Type := Z * Z * Z * Z.

Definition step (M : list Z) (st : state) (i : nat) : state :=
  let '(A, B, C, D) := st in
  let '(F, g) :=
    if (i <? 16)%nat then (Z.lor (Z.land B C) (Z.land (not32 B) D), i)
    else if (i <? 32)%nat then (Z.lor (Z.land D B) (Z.land (not32 D) C), ((5 * i + 1) mod 16)%nat)
    else if (i <? 48)%nat then (Z.lxor (Z.lxor B C) D, ((3 * i + 5) mod 16)%nat)
    else (Z.lxor C (Z.lor B (not32 D)), ((7 * i) mod 16)%nat) in
  let F' := add32 (add32 (add32 F A) (at_ sines i)) (at_ M g) in
  (D, add32 B (rotl32 F' (at_ shifts i)), B, C).

Definition block (st : state) (bs : list Z) : state :=
  let '(a0, b0, c0, d0) := st in
  let '(A, B, C, D) := foldl (step (words 16 bs)) st (seq 0 64) in
  (add32 a0 A, add32 b0 B, add32 c0 C, add32 d0 D).

Fixpoint blocks (n : nat) (st : state) (bs : list Z) : state :=
  match n with
  | O => st
  | S n' => blocks n' (block st (take 64 bs)) (drop 64 bs)
  end.

Definition init : state := (1732584193, 4023233417, 2562383102, 271733878).

Definition digest (msg : list Z) : list Z :=
  let bs := pad msg in
  let '(a, b, c, d) := blocks (length bs / 64) init bs in
  le_bytes 4 a ++ le_bytes 4 b ++ le_bytes 4 c ++ le_bytes 4 d.

Definition hex_digit (x : Z) : ascii :=
  if x <? 10 then ascii_of_nat (48 + Z.to_nat x) else ascii_of_nat (87 + Z.to_nat x).

Fixpoint hex (bs : list Z) : string :=
  match bs with
  | [] => EmptyString
  | b :: bs' => String (hex_digit (Z.shiftr b 4)) (String (hex_digit (Z.land b 15)) (hex bs'))
  end.

(** [hashlib.md5(s.encode('utf-8')).hexdigest()]. *)
Definition hexdigest (s : string) : string := hex (digest (bytes_of_string s)).

End MD5.

(** ** [utils.py] *)

Module Utils.

(** The user name as it enters the id: stripped, lower-cased, and
    collapsed to the sentinel when empty or one of the placeholders. *)
Definition normalize_username (message : gmap string pyval) : string :=
  let raw_username := lower (strip (str (default (PStr "") (message !! "username")))) in
  if String.eqb raw_username ""
     || String.eqb raw_username "unknown"
     || String.eqb raw_username "none"
     || String.eqb raw_username "null"
  then "bot_or_unknown"
  else raw_username.

(** The string form of the time stamp as it enters the id. *)
Definition timestamp_form (now : datetime) (message : gmap string pyval) : string :=
  match message !! "timestamp" with
  | Some (PDatetime d) => isoformat d
  | ts =>
      if truthy_get (message !! "timestamp_str")
      then str (default PNone (message !! "timestamp_str"))
      else match ts with
           | Some (PStr s) => s
           | _ => isoformat now
           end
  end.

(** [hashlib.md5(text.encode('utf-8')).hexdigest()[:8]]. *)
Definition text_hash (text : string) : string :=
  String.substring 0 8 (MD5.hexdigest text).

(** [generate_message_id(message)]. The text must be a [str]: any other
    value has no [encode] and raises [AttributeError]. *)
Definition generate_message_id (now : datetime) (message : gmap string pyval) : result string :=
  let timestamp_str := timestamp_form now message in
  match default (PStr "") (message !! "text") with
  | PStr text =>
      let username := normalize_username message in
      Ok (username +:+ "_" +:+ timestamp_str +:+ "_" +:+ text_hash text)
  | _ => Raise AttributeError
  end.

Section enrich.

(** [dateutil.parser.parse]; [None] stands for any exception it raises. *)
Variable parse_date : string -> option datetime.

(** The first block of [enrich_message]: normalise the time stamp. *)
Definition normalize_timestamp (now : datetime) (message : gmap string pyval)
  : gmap string pyval :=
  match message !! "timestamp" with
  | None => <["timestamp" := PDatetime now]> message
  | Some v =>
      if negb (truthy v) then <["timestamp" := PDatetime now]> message
      else match v with
           | PStr s =>
               match parse_date s with
               | Some d => <["timestamp" := PDatetime d]> message
               | None => <["timestamp" := PDatetime now]> message
               end
           | _ => message
           end
  end.

(** [enrich_message(message, file_source)]: the dict is mutated in
    place, so the function returns the dict as it is at the end (or at
    the raise) with the outcome. *)
Definition enrich_message (now : datetime) (file_source : string)
    (message : gmap string pyval) : gmap string pyval * result unit :=
  let message1 := normalize_timestamp now message in
  match message1 !! "timestamp" with
  | Some (PDatetime d) =>
      let message2 := <["timestamp_str" := PStr (isoformat d)]> message1 in
      let message3 :=
        if truthy_get (message2 !! "username") then message2
        else <["username" := PStr "unknown"]> message2 in
      let message4 :=
        <["file_source" := PStr (if String.eqb file_source "" then "unknown" else file_source)]>
          message3 in
      match generate_message_id now message4 with
      | Ok id => (<["message_id" := PStr id]> message4, Ok tt)
      | Raise e => (message4, Raise e)
      end
  | _ => (message1, Raise AttributeError)
  end.

(** [enrich_message(message)] with the default [file_source]. *)
Definition enrich (now : datetime) (message : gmap string pyval)
  : gmap string pyval * result unit :=
  enrich_message now "unknown" message.

End enrich.

(** A message in the shape that enrichment gives it. *)
Definition enriched_shape (fs : string) (m : gmap string pyval) : Prop :=
  exists d,
    m !! "timestamp" = Some (PDatetime d)
    /\ m !! "timestamp_str" = Some (PStr (isoformat d))
    /\ truthy_get (m !! "username") = true
    /\ m !! "file_source" = Some (PStr (if String.eqb fs "" then "unknown" else fs)).

(** The text that enters the id. *)
Definition text_of (m : gmap string pyval) : string :=
  match default (PStr "") (m !! "text") with
  | PStr text => text
  | _ => ""
  end.

End Utils.

(** ** [re.match] for the patterns of the parser *)

Module Regex.
Local Open Scope list_scope.

Inductive charclass :=
| Digit            (* [0-9] *)
| IsChar (c : ascii)   (* c, for a quantified literal *)
| NotChar (c : ascii)  (* [^c] *)
| NotSpace         (* [^\s] *)
| Dot.             (* . : any character but a line feed *)

Definition in_class (p : charclass) (c : ascii) : bool :=
  match p with
  | Digit => let n := nat_of_ascii c in (48 <=? n)%nat && (n <=? 57)%nat
  | IsChar x => Ascii.eqb c x
  | NotChar x => negb (Ascii.eqb c x)
  | NotSpace => negb (is_space c)
  | Dot => negb (Ascii.eqb c "010")
  end.

(** A literal character, or a greedy repetition [p{min,max}] of a class
    ([None] is no upper bound: [p+] is [Class p 1 None]). *)
Inductive atom :=
| Lit (c : ascii)
| Class (p : charclass) (min : nat) (max : option nat).

(** The patterns have no nested groups. *)
Inductive node :=
| Atom (a : atom)
| Group (body : list atom).

Definition regex := list node.

Fixpoint drop_chars (n : nat) (s : string) : string :=
  match n, s with
  | S n', String _ s' => drop_chars n' s'
  | _, _ => s
  end.

Fixpoint take_chars (n : nat) (s : string) : string :=
  match n, s with
  | S n', String c s' => String c (take_chars n' s')
  | _, _ => EmptyString
  end.

(** Length of the longest prefix of [s] in the class, at most [cap]. *)
Fixpoint run (p : charclass) (cap : option nat) (s : string) : nat :=
  match s with
  | EmptyString => 0
  | String c s' =>
      match cap with
      | Some 0 => 0
      | _ => if in_class p c then S (run p (pred <$> cap) s') else 0
      end
  end.

(** [f (lo + d)], then [f (lo + d - 1)], ... down to [f lo]: the first
    success. *)
Fixpoint try_down {A} (f : nat -> option A) (lo d : nat) : option A :=
  match f (lo + d) with
  | Some r => Some r
  | None =>
      match d with
      | O => None
      | S d' => try_down f lo d'
      end
  end.

(** Backtracking match of a sequence of atoms at the start of [s]; [k]
    is what follows and receives the rest of the string. *)
Fixpoint match_atoms {A} (atoms : list atom) (s : string) (k : string -> option A)
  : option A :=
  match atoms with
  | [] => k s
  | Lit c :: rest =>
      match s with
      | String c' s' => if Ascii.eqb c c' then match_atoms rest s' k else None
      | EmptyString => None
      end
  | Class p mn mx :: rest =>
      let n := run p mx s in
      if (n <? mn)%nat then None
      else try_down (fun i => match_atoms rest (drop_chars i s) k) mn (n - mn)
  end.

Fixpoint match_nodes (ns : regex) (s : string) (groups : list string)
  : option (list string) :=
  match ns with
  | [] => Some groups
  | Atom a :: rest =>
      match_atoms [a] s (fun s' => match_nodes rest s' groups)
  | Group body :: rest =>
      match_atoms body s (fun s' =>
        match_nodes rest s'
          (groups ++ [take_chars (String.length s - String.length s') s]))
  end.

(** [re.match(pattern, line)] followed by [.groups()]. *)
Definition re_match (pattern : regex) (line : string) : option (list string) :=
  match_nodes pattern line [].

Definition lit (s : string) : list atom := Lit <$> list_ascii_of_string s.
Definition lits (s : string) : regex := (fun c => Atom (Lit c)) <$> list_ascii_of_string s.
Definition digits (n : nat) : list atom := [Class Digit n (Some n)].

(** [[0-9]{4}-[0-9]{2}-[0-9]{2}] *)
Definition re_date : list atom :=
  digits 4 ++ lit "-" ++ digits 2 ++ lit "-" ++ digits 2.
(** [[0-9]{2}:[0-9]{2}:[0-9]{2}] *)
Definition re_time : list atom :=
  digits 2 ++ lit ":" ++ digits 2 ++ lit ":" ++ digits 2.
(** [[0-9]{4}-[0-9]{2}-[0-9]{2} [0-9]{2}:[0-9]{2}:[0-9]{2}] *)
Definition re_datetime : list atom := re_date ++ lit " " ++ re_time.

End Regex.

(** ** [chatterino_parser.py] *)

Module Parser.
Import Regex.
Local Open Scope list_scope.

(** [self.patterns], in the order of the source. *)
Definition patterns : list regex :=
  [ (* \[(date time)\] <([^>]+)> (.+) *)
    lits "[" ++ [Group re_datetime] ++ lits "] <" ++ [Group [Class (NotChar ">") 1 None]]
      ++ lits "> " ++ [Group [Class Dot 1 None]];
    (* (date time) \[([^\]]+)\]: (.+) *)
    [Group re_datetime] ++ lits " [" ++ [Group [Class (NotChar "]") 1 None]]
      ++ lits "]: " ++ [Group [Class Dot 1 None]];
    (* (date time) ([^:]+): (.+) *)
    [Group re_datetime] ++ lits " " ++ [Group [Class (NotChar ":") 1 None]]
      ++ lits ": " ++ [Group [Class Dot 1 None]];
    (* \[(date time)\] ([^:]+): (.+) *)
    lits "[" ++ [Group re_datetime] ++ lits "] " ++ [Group [Class (NotChar ":") 1 None]]
      ++ lits ": " ++ [Group [Class Dot 1 None]];
    (* \[(dateTtimeZ?)\] ([^:]+): (.+) *)
    lits "[" ++ [Group (re_date ++ lit "T" ++ re_time ++ [Class (IsChar "Z") 0 (Some 1)])]
      ++ lits "] " ++ [Group [Class (NotChar ":") 1 None]]
      ++ lits ": " ++ [Group [Class Dot 1 None]];
    (* \[(time)\] ([^:]+): (.+) *)
    lits "[" ++ [Group re_time] ++ lits "] " ++ [Group [Class (NotChar ":") 1 None]]
      ++ lits ": " ++ [Group [Class Dot 1 None]];
    (* \[(date time\.[0-9]+)\] ([^:]+): (.+) *)
    lits "[" ++ [Group (re_datetime ++ lit "." ++ [Class Digit 1 None])] ++ lits "] "
      ++ [Group [Class (NotChar ":") 1 None]] ++ lits ": " ++ [Group [Class Dot 1 None]];
    (* (date time) ([^\s]+) (.+) *)
    [Group re_datetime] ++ lits " " ++ [Group [Class NotSpace 1 None]]
      ++ lits " " ++ [Group [Class Dot 1 None]] ].

(** [self.timestamp_formats]. *)
Definition timestamp_formats : list string :=
  [ "%Y-%m-%d %H:%M:%S";
    "%Y-%m-%dT%H:%M:%S";
    "%Y-%m-%dT%H:%M:%SZ";
    "%H:%M:%S";
    "%Y-%m-%d %H:%M:%S.%f" ].

(** [self.debug_stats] ([unknown_format_lines] holds line numbers and
    the first hundred characters of the lines). *)
Record debug_stats := mk_debug_stats {
  total_lines : nat;
  parsed_lines : nat;
  unknown_format_lines : list (nat * string);
  pattern_matches : gmap nat nat }.

Definition fresh_debug_stats : debug_stats :=
  mk_debug_stats 0 0 [] (list_to_map ((fun i => (i, 0)) <$> seq 0 (length patterns))).

Definition count_match (i : nat) (st : debug_stats) : debug_stats :=
  mk_debug_stats (total_lines st) (parsed_lines st) (unknown_format_lines st)
    (<[i := S (default 0 (pattern_matches st !! i))]> (pattern_matches st)).

(** [line.split(':', 1)[1]] for a line that holds a colon. *)
Fixpoint after_colon (line : string) : string :=
  match line with
  | EmptyString => EmptyString
  | String c s' => if Ascii.eqb c ":" then s' else after_colon s'
  end.

Section parser.

(** [datetime.strptime(s, fmt)]: it raises when [s] does not match
    [fmt] or names no valid date. *)
Variable strptime : string -> string -> result datetime.

(** [_parse_timestamp]: the first format that parses wins; for the
    hour-only format the date is today's. A [ValueError] moves on to
    the next format, any other exception is not caught. *)
Fixpoint parse_timestamp_with (now : datetime) (formats : list string)
    (timestamp_str : string) : result (option datetime) :=
  match formats with
  | [] => Ok None
  | fmt :: rest =>
      match strptime timestamp_str fmt with
      | Ok t =>
          if String.eqb fmt "%H:%M:%S"
          then Ok (Some (mk_datetime (year now) (month now) (day now)
                           (hour t) (minute t) (second t) (microsecond t)))
          else Ok (Some t)
      | Raise ValueError => parse_timestamp_with now rest timestamp_str
      | Raise e => Raise e
      end
  end.

Definition _parse_timestamp (now : datetime) (timestamp_str : string)
  : result (option datetime) :=
  parse_timestamp_with now timestamp_formats timestamp_str.

Definition parsed_message (timestamp : datetime) (timestamp_str username text line : string)
    (i : Z) : gmap string pyval :=
  <["timestamp" := PDatetime timestamp]>
    (<["timestamp_str" := PStr timestamp_str]>
      (<["username" := PStr username]>
        (<["text" := PStr text]>
          (<["raw_line" := PStr line]>
            (<["pattern_used" := PInt i]> ∅))))).

(** The loop of [_parse_line] over [enumerate(self.patterns)], from
    index [i] on: the pattern that wins and the message it gives. *)
Fixpoint try_patterns (now : datetime) (i : nat) (pats : list regex) (line : string)
  : result (option (nat * gmap string pyval)) :=
  match pats with
  | [] => Ok None
  | pattern :: rest =>
      match re_match pattern line with
      | Some (timestamp_str :: username :: text :: _) =>
          match _parse_timestamp now timestamp_str with
          | Ok (Some timestamp) =>
              Ok (Some (i, parsed_message timestamp timestamp_str (strip username)
                             (strip text) line (Z.of_nat i)))
          | Ok None => try_patterns now (S i) rest line
          | Raise e => Raise e
          end
      | _ => try_patterns now (S i) rest line
      end
  end.

(** The low-confidence message of [_parse_line] for a line that holds
    a colon. *)
Definition fallback_message (now : datetime) (line : string) : gmap string pyval :=
  parsed_message now "unknown" "bot_or_unknown" (strip (after_colon line)) line (-1).

(** [_parse_line(line, line_num, debug_mode)]: the message, [None] or
    the exception, and the statistics afterwards. *)
Definition _parse_line (now : datetime) (line : string) (debug_mode : bool)
    (st : debug_stats) : result (option (gmap string pyval)) * debug_stats :=
  match try_patterns now 0 patterns line with
  | Raise e => (Raise e, st)
  | Ok (Some (i, message)) => (Ok (Some message), count_match i st)
  | Ok None =>
      if debug_mode then (Ok None, st)
      else if contains_char ":" line then (Ok (Some (fallback_message now line)), st)
      else (Ok None, st)
  end.

(** [parse_file]'s loop over [enumerate(f, 1)]; [clock line_num] is the
    time read for the line of that number. *)
Fixpoint parse_lines (clock : nat -> datetime) (debug_mode : bool) (name : string)
    (line_num : nat) (lines : list string) (st : debug_stats)
  : result (list (gmap string pyval)) * debug_stats :=
  match lines with
  | [] => (Ok [], st)
  | line0 :: rest =>
      let line := strip line0 in
      if String.eqb line "" then parse_lines clock debug_mode name (S line_num) rest st
      else
        let st1 := mk_debug_stats (S (total_lines st)) (parsed_lines st)
                     (unknown_format_lines st) (pattern_matches st) in
        match _parse_line (clock line_num) line debug_mode st1 with
        | (Raise e, st2) => (Raise e, st2)
        | (Ok (Some parsed), st2) =>
            let parsed' :=
              <["file_source" := PStr name]>
                (<["line_number" := PInt (Z.of_nat line_num)]> parsed) in
            let st3 := mk_debug_stats (total_lines st2) (S (parsed_lines st2))
                         (unknown_format_lines st2) (pattern_matches st2) in
            match parse_lines clock debug_mode name (S line_num) rest st3 with
            | (Ok messages, st4) => (Ok (parsed' :: messages), st4)
            | (Raise e, st4) => (Raise e, st4)
            end
        | (Ok None, st2) =>
            let st3 :=
              if debug_mode && (length (unknown_format_lines st2) <? 10)%nat
              then mk_debug_stats (total_lines st2) (parsed_lines st2)
                     (unknown_format_lines st2
                      ++ [(line_num,
                           String.substring 0 100 line
                           +:+ (if (100 <? String.length line)%nat then "..." else ""))])
                     (pattern_matches st2)
              else st2 in
            parse_lines clock debug_mode name (S line_num) rest st3
        end
  end.

(** [parse_file(filepath, debug_mode)] on the files [fs]: the messages,
    and the statistics afterwards. *)
Definition parse_file (fs : gmap string string) (clock : nat -> datetime)
    (filepath : string) (debug_mode : bool) (st : debug_stats)
  : result (list (gmap string pyval)) * debug_stats :=
  match fs !! filepath with
  | None => (Ok [], st)
  | Some content =>
      parse_lines clock debug_mode (path_name filepath) 1 (readlines content)
        fresh_debug_stats
  end.

End parser.

(** A [strptime] for the five formats of the parser, on the strings
    that its patterns capture (fields of fixed width): it rejects what
    is out of range or no day of the calendar. *)
Module Strptime.

Local Open Scope N_scope.

Definition digit_val (c : ascii) : option N :=
  let n := N_of_ascii c in
  if (48 <=? n) && (n <=? 57) then Some (n - 48) else None.

Fixpoint number_acc (acc : N) (s : string) : option N :=
  match s with
  | EmptyString => Some acc
  | String c s' =>
      match digit_val c with
      | Some d => number_acc (10 * acc + d) s'
      | None => None
      end
  end.

(** The number written by [s], all of whose [w] characters are digits. *)
Definition field (w : nat) (s : string) : option N :=
  if Nat.eqb (String.length s) w then number_acc 0 s else None.

Definition leap (y : N) : bool :=
  (N.eqb (y mod 4) 0 && negb (N.eqb (y mod 100) 0)) || N.eqb (y mod 400) 0.

Definition days_in_month (y m : N) : N :=
  match m with
  | 2 => if leap y then 29 else 28
  | 4 | 6 | 9 | 11 => 30
  | _ => 31
  end.

Definition valid_date (y m d : N) : bool :=
  (1 <=? y) && (1 <=? m) && (m <=? 12) && (1 <=? d) && (d <=? days_in_month y m).

Definition valid_time (h mi s : N) : bool :=
  (h <=? 23) && (mi <=? 59) && (s <=? 59).

(** ["YYYY-MM-DD"] *)
Definition date_fields (s : string) : option (N * N * N) :=
  y ← field 4 (String.substring 0 4 s);
  m ← field 2 (String.substring 5 2 s);
  d ← field 2 (String.substring 8 2 s);
  if String.eqb (String.substring 4 1 s) "-" && String.eqb (String.substring 7 1 s) "-"
     && Nat.eqb (String.length s) 10 && valid_date y m d
  then Some (y, m, d) else None.

(** ["HH:MM:SS"] *)
Definition time_fields (s : string) : option (N * N * N) :=
  h ← field 2 (String.substring 0 2 s);
  mi ← field 2 (String.substring 3 2 s);
  se ← field 2 (String.substring 6 2 s);
  if String.eqb (String.substring 2 1 s) ":" && String.eqb (String.substring 5 1 s) ":"
     && Nat.eqb (String.length s) 8 && valid_time h mi se
  then Some (h, mi, se) else None.

(** [%f]: one to six digits, read as a fraction of a second. *)
Definition fraction (s : string) : option N :=
  let n := String.length s in
  if (1 <=? n)%nat && (n <=? 6)%nat
  then v ← number_acc 0 s; Some (v * 10 ^ N.of_nat (6 - n))
  else None.

Definition date_sep_time (sep : string) (s : string) : option datetime :=
  '(y, m, d) ← date_fields (String.substring 0 10 s);
  '(h, mi, se) ← time_fields (String.substring 11 8 s);
  if String.eqb (String.substring 10 1 s) sep
  then Some (mk_datetime y m d h mi se 0) else None.

Definition parse (s fmt : string) : option datetime :=
  if String.eqb fmt "%Y-%m-%d %H:%M:%S" then
    if Nat.eqb (String.length s) 19 then date_sep_time " " s else None
  else if String.eqb fmt "%Y-%m-%dT%H:%M:%S" then
    if Nat.eqb (String.length s) 19 then date_sep_time "T" s else None
  else if String.eqb fmt "%Y-%m-%dT%H:%M:%SZ" then
    if Nat.eqb (String.length s) 20 && String.eqb (String.substring 19 1 s) "Z"
    then date_sep_time "T" (String.substring 0 19 s) else None
  else if String.eqb fmt "%H:%M:%S" then
    '(h, mi, se) ← time_fields s; Some (mk_datetime 1900 1 1 h mi se 0)
  else if String.eqb fmt "%Y-%m-%d %H:%M:%S.%f" then
    t ← date_sep_time " " (String.substring 0 19 s);
    us ← fraction (String.substring 20 (String.length s - 20)%nat s);
    if String.eqb (String.substring 19 1 s) "."
    then Some (mk_datetime (year t) (month t) (day t) (hour t) (minute t) (second t) us)
    else None
  else None.

Definition strptime (s fmt : string) : result datetime :=
  match parse s fmt with
  | Some d => Ok d
  | None => Raise ValueError
  end.

End Strptime.

End Parser.

(** ** [deduplication_manager.py] *)

Module Dedup.
Local Open Scope list_scope.

(** What the manager prints. *)
Inductive log_event :=
| LogChecking (n : nat)
| LogFreshCollection
| LogInternalDuplicates (removed : nat)
| LogInconsistencies (postgres_only qdrant_only : nat)
| LogExternalDetails (duplicate_details : gmap string nat)
| LogFilterError (e : exn)
| LogSimpleFilter.

(** [message_id in ids] for a set of the ids of a store, which are
    strings. *)
Definition id_in (message_id : pyval) (ids : gset string) : bool :=
  match message_id with
  | PStr s => bool_decide (s ∈ ids)
  | _ => false
  end.

(** The ids of the messages of a batch. *)
Definition ids_of (messages : list (gmap string pyval)) : gset pyval :=
  list_to_set (omap (fun m : gmap string pyval => m !! "message_id") messages).

Definition has_id (m : gmap string pyval) : Prop := is_Some (m !! "message_id").

(** The id of the message is in none of the ids a store reported. *)
Definition is_new (existing : gset string) (m : gmap string pyval) : bool :=
  negb (id_in (default PNone (m !! "message_id")) existing).

(** The loop of [_remove_internal_duplicates]: [seen_ids] is the set
    built so far. *)
Fixpoint unique_from (seen_ids : gset pyval) (messages : list (gmap string pyval))
  : result (list (gmap string pyval)) :=
  match messages with
  | [] => Ok []
  | msg :: rest =>
      match msg !! "message_id" with
      | None => Raise KeyError
      | Some msg_id =>
          if bool_decide (msg_id ∈ seen_ids) then unique_from seen_ids rest
          else bind (unique_from ({[msg_id]} ∪ seen_ids) rest) (fun u => Ok (msg :: u))
      end
  end.

Definition _remove_internal_duplicates (messages : list (gmap string pyval))
  : result (list (gmap string pyval)) * list log_event :=
  match unique_from ∅ messages with
  | Ok unique_messages =>
      (Ok unique_messages, [LogInternalDuplicates (length messages - length unique_messages)])
  | Raise e => (Raise e, [])
  end.

Definition _debug_inconsistencies (postgres_ids qdrant_ids : gset string) : list log_event :=
  let postgres_only := postgres_ids ∖ qdrant_ids in
  let qdrant_only := qdrant_ids ∖ postgres_ids in
  if bool_decide (postgres_only ≠ ∅) || bool_decide (qdrant_only ≠ ∅)
  then [LogInconsistencies (size postgres_only) (size qdrant_only)]
  else [].

Definition incr (k : string) (d : gmap string nat) : gmap string nat :=
  <[k := S (default 0 (d !! k))]> d.

(** The filtering loop of [_remove_external_duplicates]. *)
Fixpoint external_loop (existing_ids_postgres existing_ids_qdrant : gset string)
    (messages : list (gmap string pyval)) (duplicate_details : gmap string nat)
  : result (list (gmap string pyval) * gmap string nat) :=
  match messages with
  | [] => Ok ([], duplicate_details)
  | message :: rest =>
      match message !! "message_id" with
      | None => Raise KeyError
      | Some message_id =>
          if negb (id_in message_id (existing_ids_postgres ∪ existing_ids_qdrant))
          then bind (external_loop existing_ids_postgres existing_ids_qdrant rest duplicate_details)
                 (fun '(new_messages, dd) => Ok (message :: new_messages, dd))
          else
            let dd1 := if id_in message_id existing_ids_postgres
                       then incr "postgres" duplicate_details else duplicate_details in
            let dd2 := if id_in message_id existing_ids_qdrant
                       then incr "qdrant" dd1 else dd1 in
            external_loop existing_ids_postgres existing_ids_qdrant rest dd2
      end
  end.

Section manager.

Variable parse_date : string -> option datetime.

(** The two stores: [self.db.get_existing_message_ids] and
    [self.vector_store.get_existing_message_ids], and the attribute
    [self.vector_store.is_fresh_collection]. *)
Variable db_get_existing_message_ids : list (gmap string pyval) -> result (gset string).
Variable vs_get_existing_message_ids : list (gmap string pyval) -> result (gset string).
Variable is_fresh_collection : bool.

(** [_remove_external_duplicates]: both queries are submitted to the
    pool, and their results read in this order. *)
Definition _remove_external_duplicates (messages : list (gmap string pyval))
  : result (list (gmap string pyval)) * list log_event :=
  match db_get_existing_message_ids messages, vs_get_existing_message_ids messages with
  | Ok existing_ids_postgres, Ok existing_ids_qdrant =>
      let log := _debug_inconsistencies existing_ids_postgres existing_ids_qdrant in
      match external_loop existing_ids_postgres existing_ids_qdrant messages ∅ with
      | Ok (new_messages, duplicate_details) =>
          (Ok new_messages, log ++ [LogExternalDetails duplicate_details])
      | Raise e => (Raise e, log)
      end
  | Raise e, _ => (Raise e, [])
  | Ok _, Raise e => (Raise e, [])
  end.

(** [[enrich_message(msg) for msg in messages]]: the dicts are enriched
    in place one after the other; at a raise the list is left with the
    messages enriched so far. [clock (t + i)] is the time read for the
    message at position [i]. *)
Fixpoint enrich_all (clock : nat -> datetime) (t : nat) (messages : list (gmap string pyval))
  : list (gmap string pyval) * result unit :=
  match messages with
  | [] => ([], Ok tt)
  | msg :: rest =>
      match Utils.enrich parse_date (clock t) msg with
      | (msg', Ok _) =>
          let '(rest', r) := enrich_all clock (S t) rest in (msg' :: rest', r)
      | (msg', Raise e) => (msg' :: rest, Raise e)
      end
  end.

(** The loop of [_simple_duplicate_filter]. *)
Fixpoint simple_loop (clock : nat -> datetime) (t : nat) (seen_ids : gset pyval)
    (messages : list (gmap string pyval)) : result (list (gmap string pyval)) :=
  match messages with
  | [] => Ok []
  | message :: rest =>
      match Utils.enrich parse_date (clock t) message with
      | (message', Ok _) =>
          match message' !! "message_id" with
          | None => Raise KeyError
          | Some message_id =>
              if bool_decide (message_id ∈ seen_ids) then simple_loop clock (S t) seen_ids rest
              else bind (simple_loop clock (S t) ({[message_id]} ∪ seen_ids) rest)
                     (fun new_messages => Ok (message' :: new_messages))
          end
      | (_, Raise e) => Raise e
      end
  end.

Definition _simple_duplicate_filter (clock : nat -> datetime) (t : nat)
    (messages : list (gmap string pyval))
  : result (list (gmap string pyval)) * list log_event :=
  (simple_loop clock t ∅ messages, [LogSimpleFilter]).

(** [filter_new_messages]: the [try] block, and the fallback of its
    [except], which runs on the messages as the [try] block left them
    and whose own exceptions are not caught. The fallback reads the
    clock from [length messages] on. *)
Definition filter_new_messages (clock : nat -> datetime) (messages : list (gmap string pyval))
  : result (list (gmap string pyval)) * list log_event :=
  let log0 := [LogChecking (length messages)] in
  let fallback e log messages' :=
    let '(r, log') := _simple_duplicate_filter clock (length messages) messages' in
    (r, log ++ [LogFilterError e] ++ log') in
  match enrich_all clock 0 messages with
  | (messages', Raise e) => fallback e log0 messages'
  | (enriched_messages, Ok _) =>
      if is_fresh_collection then (Ok enriched_messages, log0 ++ [LogFreshCollection])
      else
        match _remove_internal_duplicates enriched_messages with
        | (Raise e, log1) => fallback e (log0 ++ log1) enriched_messages
        | (Ok unique_messages, log1) =>
            match _remove_external_duplicates unique_messages with
            | (Raise e, log2) => fallback e (log0 ++ log1 ++ log2) enriched_messages
            | (Ok new_messages, log2) => (Ok new_messages, log0 ++ log1 ++ log2)
            end
        end
  end.

End manager.

End Dedup.

(** ** [message_processor.py] *)

Module Processor.
Local Open Scope list_scope.

(** The verdict of the classifier: [_finalize_analysis] and
    [_default_analysis] of the analyzer give every analysis these keys,
    the two scores as floats. *)
Record analysis := mk_analysis {
  toxicity_score : float;
  spam_probability : float;
  sentiment : string;
  categories : list string;
  requires_action : bool;
  action_type : string;
  reasoning : string;
  message_id : pyval }.

Definition set_message_id (a : analysis) (id : pyval) : analysis :=
  mk_analysis (toxicity_score a) (spam_probability a) (sentiment a) (categories a)
    (requires_action a) (action_type a) (reasoning a) id.

Record alert := mk_alert {
  alert_message_id : pyval;
  alert_username : pyval;
  alert_text : pyval;
  alert_timestamp : pyval;
  alert_toxicity : float;
  alert_spam_probability : float;
  alert_action : string;
  alert_reason : string;
  alert_categories : list string;
  alert_severity : string }.

(** The calls to the two stores, and what the processor prints. *)
Inductive event :=
| VectorAdd (message_id : pyval)
| DbSave (message_id : pyval) (point_id : string)
| LogInconsistency
| LogSaveError (e : exn)
| LogNoUsername
| LogProcessError (e : exn).

(** A call that writes to one of the two stores. *)
Definition is_write (ev : event) : bool :=
  match ev with
  | VectorAdd _ | DbSave _ _ => true
  | _ => false
  end.

(** The shapes that the store calls of one message can take. *)
Inductive writes_shape : list event -> Prop :=
| writes_none : writes_shape []
| writes_vector id : writes_shape [VectorAdd id]
| writes_both id p : p <> "" -> writes_shape [VectorAdd id; DbSave id p].

(** [self.streamer_username]. *)
Definition streamer_username : string := "niaghtmares".

(** [_calculate_severity]. *)
Definition _calculate_severity (a : analysis) : string :=
  let toxicity := toxicity_score a in
  let spam := spam_probability a in
  if PrimFloat.leb 0.8 toxicity || PrimFloat.leb 0.9 spam then "CRITICAL"
  else if PrimFloat.leb 0.6 toxicity || PrimFloat.leb 0.7 spam then "HIGH"
  else if PrimFloat.leb 0.4 toxicity || PrimFloat.leb 0.5 spam then "MEDIUM"
  else "LOW".

Definition getitem (message : gmap string pyval) (k : string) : result pyval :=
  match message !! k with
  | Some v => Ok v
  | None => Raise KeyError
  end.

(** [_create_alert]. *)
Definition _create_alert (message : gmap string pyval) (a : analysis) : result alert :=
  bind (getitem message "username") (fun username =>
  bind (getitem message "text") (fun text =>
  bind (getitem message "timestamp_str") (fun timestamp_str =>
  Ok (mk_alert (message_id a) username text timestamp_str (toxicity_score a)
        (spam_probability a) (action_type a) (reasoning a) (categories a)
        (_calculate_severity a))))).

(** The condition under [# Check for alerts]; [and] evaluates its
    operands from left to right and stops at the first false one. *)
Definition alert_condition (message : gmap string pyval) (a : analysis)
    (alert_ids : gset pyval) : result bool :=
  if requires_action a then
    if bool_decide (message_id a ∈ alert_ids) then Ok false
    else
      bind (getitem message "username") (fun username =>
      match username with
      | PStr u => Ok (negb (String.eqb (lower u) streamer_username))
      | _ => Raise AttributeError
      end)
  else Ok false.

Section processor.

Variable parse_date : string -> option datetime.

(** The state of the services outside (classifier, embedding service,
    vector store, relational store) and the calls the processor makes
    to them. *)
Variable world : Type.
Variable analyze_message : gmap string pyval -> world -> analysis * world.
Variable get_embedding : pyval -> world -> option (list float) * world.
Variable vs_add_message :
  gmap string pyval -> analysis -> list float -> world -> result string * world.
Variable db_save_analysis :
  gmap string pyval -> analysis -> string -> world -> result bool * world.

(** [_save_with_verification]. *)
Definition _save_with_verification (message : gmap string pyval) (a : analysis)
    (embedding : list float) (w : world) : string * world * list event :=
  match vs_add_message message a embedding w with
  | (Ok point_id, w1) =>
      if negb (String.eqb point_id "") then
        match db_save_analysis message a point_id w1 with
        | (Ok postgres_success, w2) =>
            (point_id, w2,
             [VectorAdd (message_id a); DbSave (message_id a) point_id]
             ++ (if postgres_success then [] else [LogInconsistency]))
        | (Raise e, w2) =>
            ("", w2, [VectorAdd (message_id a); DbSave (message_id a) point_id; LogSaveError e])
        end
      else ("", w1, [VectorAdd (message_id a)])
  | (Raise e, w1) => ("", w1, [VectorAdd (message_id a); LogSaveError e])
  end.

(** [if embedding:] *)
Definition has_embedding (embedding : option (list float)) : option (list float) :=
  match embedding with
  | Some (x :: l) => Some (x :: l)
  | _ => None
  end.

(** The body of the loop of [_process_single_batch] for one message:
    the alert if there is one, [alert_ids], the world and the events
    afterwards. *)
Definition process_message (now : datetime) (message0 : gmap string pyval)
    (alert_ids : gset pyval) (w : world)
  : option alert * gset pyval * world * list event :=
  match Utils.enrich parse_date now message0 with
  | (_, Raise e) => (None, alert_ids, w, [LogProcessError e])
  | (message, Ok _) =>
      match message !! "message_id" with
      | None => (None, alert_ids, w, [LogProcessError KeyError])
      | Some id =>
          if negb (truthy_get (message !! "username"))
          then (None, alert_ids, w, [LogNoUsername])
          else
            let '(a0, w1) := analyze_message message w in
            let a := set_message_id a0 id in
            match message !! "text" with
            | None => (None, alert_ids, w1, [LogProcessError KeyError])
            | Some text =>
                let '(embedding, w2) := get_embedding text w1 in
                match has_embedding embedding with
                | Some vector =>
                    let '(_, w3, tr) := _save_with_verification message a vector w2 in
                    match bind (alert_condition message a alert_ids)
                            (fun c => if c then bind (_create_alert message a) (fun al => Ok (Some al))
                                      else Ok None) with
                    | Ok (Some al) => (Some al, {[message_id a]} ∪ alert_ids, w3, tr)
                    | Ok None => (None, alert_ids, w3, tr)
                    | Raise e => (None, alert_ids, w3, tr ++ [LogProcessError e])
                    end
                | None => (None, alert_ids, w2, [])
                end
            end
      end
  end.

(** [_process_single_batch]; [clock (t + i)] is the time read for the
    message at position [i]. *)
Fixpoint _process_single_batch (clock : nat -> datetime) (t : nat)
    (batch : list (gmap string pyval)) (alert_ids : gset pyval) (w : world)
  : list alert * gset pyval * world * list event :=
  match batch with
  | [] => ([], alert_ids, w, [])
  | message :: rest =>
      let '(al, alert_ids1, w1, tr1) := process_message (clock t) message alert_ids w in
      let '(batch_alerts, alert_ids2, w2, tr2) :=
        _process_single_batch clock (S t) rest alert_ids1 w1 in
      (match al with Some x => x :: batch_alerts | None => batch_alerts end,
       alert_ids2, w2, tr1 ++ tr2)
  end.

(** The loop of [process_messages_batch] over the chunks of
    [BATCH_SIZE] messages, from the message at position [t] on. *)
Fixpoint process_chunks (fuel : nat) (batch_size : nat) (clock : nat -> datetime) (t : nat)
    (messages : list (gmap string pyval)) (alert_ids : gset pyval) (w : world)
  : list alert * gset pyval * world * list event :=
  match fuel, messages with
  | S fuel', _ :: _ =>
      let batch := take batch_size messages in
      let '(batch_alerts, alert_ids1, w1, tr1) :=
        _process_single_batch clock t batch alert_ids w in
      let '(alerts, alert_ids2, w2, tr2) :=
        process_chunks fuel' batch_size clock (t + length batch)
          (drop batch_size messages) alert_ids1 w1 in
      (batch_alerts ++ alerts, alert_ids2, w2, tr1 ++ tr2)
  | _, _ => ([], alert_ids, w, [])
  end.

(** [process_messages_batch], for a positive [BATCH_SIZE]. *)
Definition process_messages_batch (batch_size : nat) (clock : nat -> datetime)
    (messages : list (gmap string pyval)) (w : world) : list alert * world * list event :=
  let '(alerts, _, w', tr) :=
    process_chunks (length messages) batch_size clock 0 messages ∅ w in
  (alerts, w', tr).

End processor.

End Processor.

(** ** [realtime_moderator.py] *)

Module Realtime.
Import Processor.
Local Open Scope list_scope.

(** A line holds neither a line feed nor a carriage return. *)
Definition one_line (l : string) : Prop :=
  contains_char "010" l = false /\ contains_char "013" l = false.

(** The text of the lines, each ended by a line feed. *)
Fixpoint join_lines (lines : list string) : string :=
  match lines with
  | [] => ""
  | l :: rest => l +:+ String "010" (join_lines rest)
  end.

Definition with_line_feed (l : string) : string := l +:+ String "010" "".

(** An alert of the real-time path ([_create_alert]). *)
Record alert := mk_alert {
  alert_id : string;
  alert_timestamp : datetime;
  alert_username : pyval;
  alert_text : pyval;
  alert_toxicity : float;
  alert_spam_prob : float;
  alert_sentiment : string;
  alert_action : string;
  alert_reason : string;
  alert_categories : list string;
  alert_priority : string }.

(** The calls to the services outside, and what the moderator prints. *)
Inductive event :=
| DbQuery (n : nat)
| VectorAdd (message_id : pyval)
| DbSave (message_id : pyval) (point_id : string)
| AlertCallbacks (a : alert)
| CriticalAlerts (critical : list alert)
| LogNewLines (n : nat) (name : string)
| LogAllProcessed (n : nat)
| LogProcessing (n total : nat)
| LogAllInDb
| LogMessageError (e : exn)
| LogNewLinesError (e : exn).

(** The attributes of [OptimizedModeradorSemantico] that change, with
    the state of the services outside and the events so far. The
    running total of elapsed time is left out. *)
Record moderator (world : Type) := mk_moderator {
  processed_message_cache : gset string;
  file_positions : gmap string nat;
  message_hashes : gset string;
  active_alerts : list alert;
  messages_processed : nat;
  messages_skipped : nat;
  alerts_generated : nat;
  parser_stats : Parser.debug_stats;
  services : world;
  events : list event }.
Arguments mk_moderator {world}.
Arguments processed_message_cache {world}.
Arguments file_positions {world}.
Arguments message_hashes {world}.
Arguments active_alerts {world}.
Arguments messages_processed {world}.
Arguments messages_skipped {world}.
Arguments alerts_generated {world}.
Arguments parser_stats {world}.
Arguments services {world}.
Arguments events {world}.

Section updates.
Context {world : Type}.
Implicit Type st : moderator world.

Definition set_cache (c : gset string) st :=
  mk_moderator c (file_positions st) (message_hashes st) (active_alerts st)
    (messages_processed st) (messages_skipped st) (alerts_generated st)
    (parser_stats st) (services st) (events st).
Definition set_positions (p : gmap string nat) st :=
  mk_moderator (processed_message_cache st) p (message_hashes st) (active_alerts st)
    (messages_processed st) (messages_skipped st) (alerts_generated st)
    (parser_stats st) (services st) (events st).
Definition set_hashes (h : gset string) st :=
  mk_moderator (processed_message_cache st) (file_positions st) h (active_alerts st)
    (messages_processed st) (messages_skipped st) (alerts_generated st)
    (parser_stats st) (services st) (events st).
Definition set_active_alerts (a : list alert) st :=
  mk_moderator (processed_message_cache st) (file_positions st) (message_hashes st) a
    (messages_processed st) (messages_skipped st) (alerts_generated st)
    (parser_stats st) (services st) (events st).
Definition set_stats (processed skipped generated : nat) st :=
  mk_moderator (processed_message_cache st) (file_positions st) (message_hashes st)
    (active_alerts st) processed skipped generated
    (parser_stats st) (services st) (events st).
Definition set_parser_stats (d : Parser.debug_stats) st :=
  mk_moderator (processed_message_cache st) (file_positions st) (message_hashes st)
    (active_alerts st) (messages_processed st) (messages_skipped st) (alerts_generated st)
    d (services st) (events st).
Definition set_services (w : world) st :=
  mk_moderator (processed_message_cache st) (file_positions st) (message_hashes st)
    (active_alerts st) (messages_processed st) (messages_skipped st) (alerts_generated st)
    (parser_stats st) w (events st).
Definition emit (evs : list event) st :=
  mk_moderator (processed_message_cache st) (file_positions st) (message_hashes st)
    (active_alerts st) (messages_processed st) (messages_skipped st) (alerts_generated st)
    (parser_stats st) (services st) (events st ++ evs).

End updates.

(** [f"{message['username']}_{message['timestamp'].isoformat()}"]: the
    key of the real-time path. *)
Definition realtime_key (message : gmap string pyval) : result string :=
  bind (getitem message "username") (fun username =>
  bind (getitem message "timestamp") (fun timestamp =>
  match timestamp with
  | PDatetime d => Ok (str username +:+ "_" +:+ isoformat d)
  | _ => Raise AttributeError
  end)).

(** The content hash of [_quick_message_check]. *)
Definition content_hash (message : gmap string pyval) : result string :=
  bind (getitem message "username") (fun username =>
  bind (getitem message "text") (fun text =>
  bind (getitem message "timestamp_str") (fun timestamp_str =>
  Ok (MD5.hexdigest (str username +:+ "_" +:+ str text +:+ "_" +:+ str timestamp_str))))).

(** [_calculate_priority]. *)
Definition _calculate_priority (a : analysis) : string :=
  let toxicity := toxicity_score a in
  let spam := spam_probability a in
  if PrimFloat.ltb 0.8 toxicity || PrimFloat.ltb 0.9 spam then "CRITICAL"
  else if PrimFloat.ltb 0.6 toxicity || PrimFloat.ltb 0.7 spam then "HIGH"
  else if PrimFloat.ltb 0.4 toxicity || PrimFloat.ltb 0.5 spam then "MEDIUM"
  else "LOW".

(** [_create_alert] of the real-time path. *)
Definition _create_alert (now : datetime) (message : gmap string pyval) (a : analysis)
  : result alert :=
  bind (getitem message "username") (fun username =>
  bind (getitem message "timestamp") (fun timestamp =>
  bind (getitem message "text") (fun text =>
  Ok (mk_alert
        (String.substring 0 8 (MD5.hexdigest (str username +:+ "_" +:+ str timestamp)))
        now username text (toxicity_score a) (spam_probability a) (sentiment a)
        (action_type a) (reasoning a) (categories a) (_calculate_priority a))))).

(** [deque(maxlen=100).append]. *)
Definition deque_append (q : list alert) (a : alert) : list alert :=
  let q' := q ++ [a] in drop (length q' - 100) q'.

Section moderator.

Variable strptime : string -> string -> result datetime.

Variable world : Type.
Variable analyze_message : gmap string pyval -> world -> analysis * world.
Variable get_embedding : pyval -> world -> option (list float) * world.
Variable vs_add_message :
  gmap string pyval -> analysis -> list float -> world -> result string * world.
Variable db_save_analysis :
  gmap string pyval -> analysis -> string -> world -> result bool * world.
Variable db_get_existing_message_ids :
  list (gmap string pyval) -> world -> result (gset string) * world.

Implicit Type st : moderator world.

(** [_quick_message_check]. *)
Definition _quick_message_check (message : gmap string pyval) st
  : result bool * moderator world :=
  match realtime_key message with
  | Raise e => (Raise e, st)
  | Ok message_id =>
      if bool_decide (message_id ∈ processed_message_cache st) then (Ok true, st)
      else
        match content_hash message with
        | Raise e => (Raise e, st)
        | Ok h =>
            if bool_decide (h ∈ message_hashes st) then (Ok true, st)
            else (Ok false, set_hashes ({[h]} ∪ message_hashes st) st)
        end
  end.

(** The pre-filter loop of [_process_message_batch_optimized]. *)
Fixpoint prefilter (messages : list (gmap string pyval)) st
  : result (list (gmap string pyval)) * moderator world :=
  match messages with
  | [] => (Ok [], st)
  | msg :: rest =>
      match _quick_message_check msg st with
      | (Raise e, st1) => (Raise e, st1)
      | (Ok false, st1) =>
          match prefilter rest st1 with
          | (Ok unprocessed, st2) => (Ok (msg :: unprocessed), st2)
          | (Raise e, st2) => (Raise e, st2)
          end
      | (Ok true, st1) =>
          prefilter rest
            (set_stats (messages_processed st1) (S (messages_skipped st1))
               (alerts_generated st1) st1)
      end
  end.

(** The final check against the ids that the relational store reports. *)
Fixpoint final_check (existing_ids : gset string) (unprocessed : list (gmap string pyval))
  : result (list (gmap string pyval)) :=
  match unprocessed with
  | [] => Ok []
  | msg :: rest =>
      bind (realtime_key msg) (fun message_id =>
      bind (final_check existing_ids rest) (fun final_messages =>
      Ok (if bool_decide (message_id ∈ existing_ids) then final_messages
          else msg :: final_messages)))
  end.

(** The [try] block of the processing loop for one message. *)
Definition process_final_try (now : datetime) (message : gmap string pyval) st
  : result (option alert) * moderator world :=
  match realtime_key message with
  | Raise e => (Raise e, st)
  | Ok message_id =>
      let '(a, w1) := analyze_message message (services st) in
      match getitem message "text" with
      | Raise e => (Raise e, set_services w1 st)
      | Ok text =>
          let '(embedding, w2) := get_embedding text w1 in
          match has_embedding embedding with
          | None => (Ok None, set_services w2 st)
          | Some vector =>
              match vs_add_message message a vector w2 with
              | (Raise e, w3) =>
                  (Raise e, emit [VectorAdd (Processor.message_id a)] (set_services w3 st))
              | (Ok point_id, w3) =>
                  match db_save_analysis message a point_id w3 with
                  | (Raise e, w4) =>
                      (Raise e,
                       emit [VectorAdd (Processor.message_id a); DbSave (Processor.message_id a) point_id]
                         (set_services w4 st))
                  | (Ok _, w4) =>
                      let st1 :=
                        set_cache ({[message_id]} ∪ processed_message_cache st)
                          (emit [VectorAdd (Processor.message_id a); DbSave (Processor.message_id a) point_id]
                             (set_services w4 st)) in
                      let counted st' :=
                        set_stats (S (messages_processed st')) (messages_skipped st')
                          (alerts_generated st') st' in
                      if requires_action a then
                        match getitem message "username" with
                        | Ok (PStr u) =>
                            if negb (String.eqb (lower u) streamer_username) then
                              match _create_alert now message a with
                              | Ok al =>
                                  (Ok (Some al),
                                   counted
                                     (emit [AlertCallbacks al]
                                        (set_active_alerts
                                           (deque_append (active_alerts st1) al) st1)))
                              | Raise e => (Raise e, st1)
                              end
                            else (Ok None, counted st1)
                        | Ok _ => (Raise AttributeError, st1)
                        | Raise e => (Raise e, st1)
                        end
                      else (Ok None, counted st1)
                  end
              end
          end
      end
  end.

(** The processing loop; [clock (t + i)] is the time read for the
    message at position [i]. *)
Fixpoint process_final (clock : nat -> datetime) (t : nat)
    (final_messages : list (gmap string pyval)) st : list alert * moderator world :=
  match final_messages with
  | [] => ([], st)
  | message :: rest =>
      match process_final_try (clock t) message st with
      | (Ok al, st1) =>
          let '(alerts, st2) := process_final clock (S t) rest st1 in
          (match al with Some x => x :: alerts | None => alerts end, st2)
      | (Raise e, st1) => process_final clock (S t) rest (emit [LogMessageError e] st1)
      end
  end.

(** [_handle_realtime_alerts]: the critical alerts are printed and
    handed to the webhook. *)
Definition _handle_realtime_alerts (alerts : list alert) st : moderator world :=
  emit [CriticalAlerts
          (filter (fun a => alert_priority a = "CRITICAL") alerts)] st.

(** [_process_message_batch_optimized]. *)
Definition _process_message_batch_optimized (clock : nat -> datetime) (t : nat)
    (messages : list (gmap string pyval)) st : result unit * moderator world :=
  match messages with
  | [] => (Ok tt, st)
  | _ =>
      match prefilter messages st with
      | (Raise e, st1) => (Raise e, st1)
      | (Ok [], st1) => (Ok tt, emit [LogAllProcessed (length messages)] st1)
      | (Ok unprocessed_messages, st1) =>
          let st2 :=
            emit [LogProcessing (length unprocessed_messages) (length messages)] st1 in
          match db_get_existing_message_ids unprocessed_messages (services st2) with
          | (Raise e, w) =>
              (Raise e, emit [DbQuery (length unprocessed_messages)] (set_services w st2))
          | (Ok existing_ids, w) =>
              let st3 := emit [DbQuery (length unprocessed_messages)] (set_services w st2) in
              match final_check existing_ids unprocessed_messages with
              | Raise e => (Raise e, st3)
              | Ok [] => (Ok tt, emit [LogAllInDb] st3)
              | Ok final_messages =>
                  let '(alerts, st4) := process_final clock t final_messages st3 in
                  match alerts with
                  | [] => (Ok tt, st4)
                  | _ =>
                      (Ok tt,
                       _handle_realtime_alerts alerts
                         (set_stats (messages_processed st4) (messages_skipped st4)
                            (alerts_generated st4 + length alerts) st4))
                  end
              end
          end
      end
  end.

(** What [process_new_lines] reads: [f.seek(current_pos)],
    [f.readlines()], [f.tell()]. *)
Definition read_new_lines (content : string) (current_pos : nat) : list string * nat :=
  (readlines (Regex.drop_chars current_pos content),
   Nat.max current_pos (String.length content)).

(** The parsing loop of [process_new_lines]; [clock (t + i)] is the
    time read for the line at position [i]. *)
Fixpoint parse_new_lines (clock : nat -> datetime) (t : nat) (name : string)
    (new_lines : list string) (d : Parser.debug_stats)
  : result (list (gmap string pyval)) * Parser.debug_stats :=
  match new_lines with
  | [] => (Ok [], d)
  | line0 :: rest =>
      let line := strip line0 in
      if String.eqb line "" then parse_new_lines clock (S t) name rest d
      else
        match Parser._parse_line strptime (clock t) line false d with
        | (Raise e, d1) => (Raise e, d1)
        | (Ok (Some parsed), d1) =>
            match parse_new_lines clock (S t) name rest d1 with
            | (Ok new_messages, d2) =>
                (Ok (<["file_source" := PStr name]> parsed :: new_messages), d2)
            | (Raise e, d2) => (Raise e, d2)
            end
        | (Ok None, d1) => parse_new_lines clock (S t) name rest d1
        end
  end.

(** [process_new_lines(filepath)] on the files [fs] (a file that
    exists opens and reads without error): the lines are read at the
    times [clock 0 ...], the messages processed at the times from
    [clock (length new_lines)] on. *)
Definition process_new_lines (fs : gmap string string) (clock : nat -> datetime)
    (filepath : string) st : moderator world :=
  match fs !! filepath with
  | None => st
  | Some content =>
      let current_pos := default 0 (file_positions st !! filepath) in
      let '(new_lines, pos) := read_new_lines content current_pos in
      let st1 := set_positions (<[filepath := pos]> (file_positions st)) st in
      match new_lines with
      | [] => st1
      | _ =>
          let st2 := emit [LogNewLines (length new_lines) (path_name filepath)] st1 in
          match parse_new_lines clock 0 (path_name filepath) new_lines (parser_stats st2) with
          | (Raise e, d) => emit [LogNewLinesError e] (set_parser_stats d st2)
          | (Ok [], d) => set_parser_stats d st2
          | (Ok new_messages, d) =>
              match _process_message_batch_optimized clock (length new_lines)
                      new_messages (set_parser_stats d st2) with
              | (Ok _, st4) => st4
              | (Raise e, st4) => emit [LogNewLinesError e] st4
              end
          end
      end
  end.

End moderator.

End Realtime.

(** ** Sample data *)

Module Samples.
Local Open Scope list_scope.

Definition line_feed : string := String "010" "".

(** A [parse_date] that reads the format of the logs. *)
Definition parse_date (s : string) : option datetime :=
  Parser.Strptime.parse s "%Y-%m-%d %H:%M:%S".

Definition clock (n : nat) : datetime := mk_datetime 2026 1 1 12 0 0 (N.of_nat n).

(** A log file whose two lines are the same. *)
Definition chat_log : string :=
  "[2025-05-30 19:31:23] <alice> hello world" +:+ line_feed
  +:+ "[2025-05-30 19:31:23] <alice> hello world" +:+ line_feed.

Definition files : gmap string string := {[ "data/logs/chat.log" := chat_log ]}.

(** The messages that [parse_file] gives for it. *)
Definition parsed : list (gmap string pyval) :=
  match fst (Parser.parse_file Parser.Strptime.strptime files clock "data/logs/chat.log"
               false Parser.fresh_debug_stats) with
  | Ok messages => messages
  | Raise _ => []
  end.

Definition hello : gmap string pyval := default ∅ (parsed !! 0).

(** The two lines as [enrich_message] leaves them. *)
Definition enriched : list (gmap string pyval) :=
  fst (Dedup.enrich_all parse_date clock 0 parsed).
Definition hello_enriched : gmap string pyval :=
  fst (Utils.enrich parse_date (clock 0) hello).

Definition message (username text : string) : gmap string pyval :=
  <["username" := PStr username]>
    (<["text" := PStr text]>
      (<["timestamp" := PDatetime (mk_datetime 2025 5 30 19 31 23 0)]> ∅)).

(** Stores that hold nothing, and stores that hold the id of [hello]. *)
Definition no_ids (messages : list (gmap string pyval)) : result (gset string) := Ok ∅.
Definition hello_id : string := "alice_2025-05-30T19:31:23_5eb63bbb".
Definition hello_ids (messages : list (gmap string pyval)) : result (gset string) :=
  Ok {[ hello_id ]}.

(** Services outside with no state: a classifier that asks for action,
    an embedding service that answers or not, stores that accept or
    refuse. *)
Definition toxic : Processor.analysis :=
  Processor.mk_analysis 0.85 0.1 "negative" ["harassment"] true "timeout" "insult" PNone.
Definition analyze (m : gmap string pyval) (w : unit) : Processor.analysis * unit :=
  (Processor.set_message_id toxic
     (match Utils.generate_message_id (clock 0) m with
      | Ok id => PStr id
      | Raise _ => PNone
      end), w).
Definition embedding : list float := [0.25%float; 0.5%float].
Definition embed (text : pyval) (w : unit) : option (list float) * unit :=
  (Some embedding, w).
Definition no_embedding (text : pyval) (w : unit) : option (list float) * unit := (None, w).
Definition vs_add (m : gmap string pyval) (a : Processor.analysis) (v : list float)
    (w : unit) : result string * unit := (Ok "point-1", w).
Definition db_refuses (m : gmap string pyval) (a : Processor.analysis) (p : string)
    (w : unit) : result bool * unit := (Ok false, w).
Definition db_ids (messages : list (gmap string pyval)) (w : unit)
  : result (gset string) * unit := (Ok ∅, w).

(** A moderator that has read [old_log] to its end. *)
Definition old_log : string := "[2025-05-30 19:31:23] <alice> hello world" +:+ line_feed.
Definition appended : list string :=
  ["[2025-05-30 19:31:24] <bob> hi"; "[2025-05-30 19:31:25] <carol> hey"; "no message here"].
Definition moderator : Realtime.moderator unit :=
  Realtime.mk_moderator ∅ {[ "data/logs/chat.log" := String.length old_log ]} ∅ []
    0 0 0 Parser.fresh_debug_stats tt [].
Definition grown_files : gmap string string :=
  {[ "data/logs/chat.log" := old_log +:+ "[2025-05-30 19:31:24] <bob> hi" +:+ line_feed
       +:+ "[2025-05-30 19:31:25] <carol> hey" +:+ line_feed
       +:+ "no message here" +:+ line_feed ]}.

End Samples.

(** ** Notions used to state the properties of the pipeline *)

Module Notions.
Local Open Scope list_scope.

(** The ids of the messages of a batch, in order. *)
Definition id_list (messages : list (gmap string pyval)) : list pyval :=
  omap (fun m : gmap string pyval => m !! "message_id") messages.

(** A message that [enrich_message] leaves as it is, whatever the
    time. *)
Definition enrich_fixed (parse_date : string -> option datetime)
    (m : gmap string pyval) : Prop :=
  forall now, Utils.enrich parse_date now m = (m, Ok tt).

End Notions.

Module Counting.
Import Processor.
Local Open Scope list_scope.

(** The calls to the vector store, and to the relational store. *)
Definition is_vector_add (ev : event) : bool :=
  match ev with VectorAdd _ => true | _ => false end.
Definition is_db_save (ev : event) : bool :=
  match ev with DbSave _ _ => true | _ => false end.

(** The severities in the order of their gravity. *)
Definition rank (severity : string) : nat :=
  if String.eqb severity "CRITICAL" then 3
  else if String.eqb severity "HIGH" then 2
  else if String.eqb severity "MEDIUM" then 1
  else 0.

End Counting.

Module History.
Import Realtime.
Local Open Scope list_scope.

(** What a moderator keeps from an earlier state: the keys and the
    hashes it remembered, whatever its counters counted and whatever it
    printed or called; and the bound of its queue of alerts. *)
Record evolves {world : Type} (st st' : moderator world) : Prop := mk_evolves {
  cache_kept : processed_message_cache st ⊆ processed_message_cache st';
  hashes_kept : message_hashes st ⊆ message_hashes st';
  processed_kept : messages_processed st <= messages_processed st';
  skipped_kept : messages_skipped st <= messages_skipped st';
  generated_kept : alerts_generated st <= alerts_generated st';
  events_kept : events st `prefix_of` events st';
  queue_bounded : length (active_alerts st) <= 100 -> length (active_alerts st') <= 100 }.

End History.

Module Shapes.
Import Regex.
Local Open Scope list_scope.

(** A string of white space only. *)
Fixpoint all_space (s : string) : bool :=
  match s with
  | EmptyString => true
  | String c s' => is_space c && all_space s'
  end.

(** The literal character [c] is one of the atoms. *)
Definition atoms_mention (c : ascii) (atoms : list atom) : bool :=
  existsb (fun a => match a with Lit c' => Ascii.eqb c c' | Class _ _ _ => false end) atoms.

(** The pattern holds the literal character [c], in a group or not. *)
Definition mentions (c : ascii) (pattern : regex) : bool :=
  existsb (fun n => match n with
                    | Atom a => atoms_mention c [a]
                    | Group body => atoms_mention c body
                    end) pattern.

(** The line numbers of the messages of a file. *)
Definition line_numbers (messages : list (gmap string pyval)) : list pyval :=
  omap (fun m : gmap string pyval => m !! "line_number") messages.

(** A message with a [datetime] as time stamp and a string as text,
    as the parser gives them. *)
Definition parsed_shape (m : gmap string pyval) : Prop :=
  (exists d, m !! "timestamp" = Some (PDatetime d))
  /\ (exists t, m !! "text" = Some (PStr t)).

End Shapes.

(** ** [realtime_moderator.py]: the catch-up at start *)

Module Catchup.
Import Processor Realtime.
Local Open Scope list_scope.

(** The number of carriage returns of [s] that a line feed follows. *)
Fixpoint crlf_pairs (s : string) : nat :=
  match s with
  | EmptyString => 0
  | String c s' =>
      (match s' with
       | String c' _ => if Ascii.eqb c "013" && Ascii.eqb c' "010" then 1 else 0
       | EmptyString => 0
       end) + crlf_pairs s'
  end.

(** The number of characters of the lines. *)
Fixpoint total_length (lines : list string) : nat :=
  match lines with
  | [] => 0
  | l :: rest => String.length l + total_length rest
  end.

(** [lines[-100:] if len(lines) > 100 else lines]. *)
Definition recent_lines (lines : list string) : list string :=
  if (100 <? length lines)%nat then drop (length lines - 100) lines else lines.

Section catchup.

Variable strptime : string -> string -> result datetime.
Variable world : Type.
Variable analyze_message : gmap string pyval -> world -> analysis * world.
Variable get_embedding : pyval -> world -> option (list float) * world.
Variable vs_add_message :
  gmap string pyval -> analysis -> list float -> world -> result string * world.
Variable db_save_analysis :
  gmap string pyval -> analysis -> string -> world -> result bool * world.
Variable db_get_existing_message_ids :
  list (gmap string pyval) -> world -> result (gset string) * world.

Implicit Type st : moderator world.

(** The parsing loop of the catch-up: every line is stripped and
    handed to the parser, the blank ones too; [clock (t + i)] is the
    time read for the line at position [i]. *)
Fixpoint parse_recent_lines (clock : nat -> datetime) (t : nat) (name : string)
    (lines : list string) (d : Parser.debug_stats)
  : result (list (gmap string pyval)) * Parser.debug_stats :=
  match lines with
  | [] => (Ok [], d)
  | line :: rest =>
      match Parser._parse_line strptime (clock t) (strip line) false d with
      | (Raise e, d1) => (Raise e, d1)
      | (Ok (Some parsed), d1) =>
          match parse_recent_lines clock (S t) name rest d1 with
          | (Ok messages, d2) => (Ok (<["file_source" := PStr name]> parsed :: messages), d2)
          | (Raise e, d2) => (Raise e, d2)
          end
      | (Ok None, d1) => parse_recent_lines clock (S t) name rest d1
      end
  end.

(** The body of the loop of [_initial_catchup] for a file that opens
    and reads without error: the moderator afterwards, and the
    exception that the [except] printed, if any. The key of the cursor
    is the path of the file as the watcher reports it. *)
Definition catchup_file (clock : nat -> datetime) (filepath content : string) st
  : moderator world * option exn :=
  let lines := readlines content in
  let recent := recent_lines lines in
  let st1 :=
    set_positions (<[filepath := String.length (String.concat "" lines)]> (file_positions st))
      st in
  match parse_recent_lines clock 0 (path_name filepath) recent (parser_stats st1) with
  | (Raise e, d) => (set_parser_stats d st1, Some e)
  | (Ok [], d) => (set_parser_stats d st1, None)
  | (Ok messages, d) =>
      match _process_message_batch_optimized world analyze_message get_embedding
              vs_add_message db_save_analysis db_get_existing_message_ids
              clock (length recent) messages (set_parser_stats d st1) with
      | (Ok _, st4) => (st4, None)
      | (Raise e, st4) => (st4, Some e)
      end
  end.

(** [_initial_catchup] over the files that the directory holds, with
    their contents and the clock of each. *)
Fixpoint _initial_catchup (log_files : list (string * string * (nat -> datetime))) st
  : moderator world * list (string * exn) :=
  match log_files with
  | [] => (st, [])
  | (filepath, content, clock) :: rest =>
      let '(st1, err) := catchup_file clock filepath content st in
      let '(st2, errs) := _initial_catchup rest st1 in
      (st2, match err with
            | Some e => (path_name filepath, e) :: errs
            | None => errs
            end)
  end.

End catchup.

End Catchup.

(** ** [vector_store_qdrant.py] and [database_manager.py]: the two stores *)

Module Stores.
Import Processor.
Local Open Scope list_scope.

(** What the two stores hold, for the pipeline: the points of the
    collection, each with its id and the [message_id] of its payload;
    the rows of [moderation_logs], each with its [message_id] and its
    [qdrant_point_id]; and the number of calls made to the two clients
    so far. An id is kept as the value that was written; the pipeline
    writes strings. *)
Record store := mk_store {
  points : list (string * pyval);
  rows : list (pyval * string);
  calls : nat }.

(** The ids that the vector store holds, and those of the relational
    store. *)
Definition point_message_ids (w : store) : list pyval := snd <$> points w.
Definition row_message_ids (w : store) : list pyval := fst <$> rows w.

Definition tick (w : store) : store := mk_store (points w) (rows w) (S (calls w)).

(** [message_ids = [generate_message_id(msg) for msg in messages]], as
    the loops of the two [get_existing_message_ids] build it;
    [clock (t + i)] is the time read for the message at position [i]. *)
Fixpoint message_ids (clock : nat -> datetime) (t : nat) (messages : list (gmap string pyval))
  : result (list string) :=
  match messages with
  | [] => Ok []
  | msg :: rest =>
      bind (Utils.generate_message_id (clock t) msg) (fun message_id =>
      bind (message_ids clock (S t) rest) (fun ids => Ok (message_id :: ids)))
  end.

(** The ids of the points among [results], added to [existing_ids]:
    every point of a store has a payload with a [message_id]. *)
Definition add_payload_ids (results : list (string * pyval)) (existing_ids : gset string)
  : gset string :=
  foldl (fun acc (p : string * pyval) =>
           match snd p with
           | PStr s => {[s]} ∪ acc
           | _ => acc
           end) existing_ids results.

Section clients.

(** The clients of the two stores: a call may raise, and then it has
    changed nothing (a transaction that is not committed is rolled
    back); [fault n] tells whether the call number [n] raises.
    [uuid4 n] is the id drawn at that call. *)
Variable fault : nat -> bool.
Variable uuid4 : nat -> string.

(** [QdrantVectorStore.add_message]: it returns the id of the new
    point, or the empty string. The line printed after the upsert
    slices the id, which raises for an id that is no string: the point
    is in the collection then, and the empty string is returned. *)
Definition add_message (message : gmap string pyval) (a : analysis) (embedding : list float)
    (w : store) : result string * store :=
  let message_id := Processor.message_id a in
  if negb (truthy message_id) then (Ok "", w)
  else if fault (calls w) then (Ok "", tick w)
  else
    let w1 := tick w in
    if bool_decide (message_id ∈ point_message_ids w1) then (Ok "", w1)
    else
      let point_id := uuid4 (calls w1) in
      if fault (calls w1) then (Ok "", tick w1)
      else
        let w2 := mk_store (points w1 ++ [(point_id, message_id)]) (rows w1) (S (calls w1)) in
        match message_id with
        | PStr _ => (Ok point_id, w2)
        | _ => (Ok "", w2)
        end.

(** [DatabaseManager.save_analysis]: whether the row was inserted.
    After the insert the user name is stripped and lower-cased for the
    statistics of the user, which raises for a user name that is no
    string: the transaction is not committed then. *)
Definition save_analysis (message : gmap string pyval) (a : analysis) (point_id : string)
    (w : store) : result bool * store :=
  let message_id := Processor.message_id a in
  if negb (truthy message_id) then (Ok false, w)
  else if fault (calls w) then (Ok false, tick w)
  else
    let w1 := tick w in
    if bool_decide (message_id ∈ row_message_ids w1) then (Ok false, w1)
    else if fault (calls w1) then (Ok false, tick w1)
    else
      match default (PStr "") (message !! "username") with
      | PStr _ =>
          (Ok true,
           mk_store (points w1) (rows w1 ++ [(message_id, point_id)]) (S (calls w1)))
      | _ => (Ok false, tick w1)
      end.

End clients.

Section queries.

(** The queries of the filter read the stores and change nothing:
    [db_down] tells whether the query of the relational store raises,
    [scroll_fails i] whether the scroll for the chunk number [i]
    does. *)
Variable db_down : bool.
Variable scroll_fails : nat -> bool.

(** [DatabaseManager.get_existing_message_ids]. *)
Definition db_get_existing_message_ids (w : store) (clock : nat -> datetime) (t : nat)
    (messages : list (gmap string pyval)) : result (gset string) :=
  match messages with
  | [] => Ok ∅
  | _ =>
      bind (message_ids clock t messages) (fun ids =>
      match ids with
      | [] => Ok ∅
      | _ =>
          if db_down then Ok ∅
          else Ok (list_to_set
                     (filter (fun s => PStr s ∈ row_message_ids w) ids))
      end)
  end.

(** [client.scroll] with a [MatchAny] filter on [message_id] and a
    limit: the first [limit] points whose [message_id] is one of
    [batch_ids]. *)
Definition scroll (w : store) (batch_ids : list string) (limit : nat)
  : list (string * pyval) :=
  take limit (filter (fun p : string * pyval => snd p ∈ (PStr <$> batch_ids)) (points w)).

(** The loop of [QdrantVectorStore.get_existing_message_ids] over the
    chunks of fifty ids, from the chunk number [i] on. *)
Fixpoint scroll_chunks (fuel : nat) (w : store) (i : nat) (ids : list string)
    (existing_ids : gset string) : gset string :=
  match fuel, ids with
  | S fuel', _ :: _ =>
      let batch_ids := take 50 ids in
      let existing_ids' :=
        if scroll_fails i then existing_ids
        else add_payload_ids (scroll w batch_ids (length batch_ids)) existing_ids in
      scroll_chunks fuel' w (S i) (drop 50 ids) existing_ids'
  | _, _ => existing_ids
  end.

(** [QdrantVectorStore.get_existing_message_ids]. *)
Definition vs_get_existing_message_ids (w : store) (clock : nat -> datetime) (t : nat)
    (messages : list (gmap string pyval)) : result (gset string) :=
  match messages with
  | [] => Ok ∅
  | _ =>
      bind (message_ids clock t messages) (fun ids =>
      match ids with
      | [] => Ok ∅
      | _ => Ok (scroll_chunks (length ids) w 0 ids ∅)
      end)
  end.

End queries.

(** The message processor with the two stores as its collaborators;
    the classifier and the embedding service have a state of their own
    and no hand in the stores. *)
Section pipeline.

Variable parse_date : string -> option datetime.
Variable fault : nat -> bool.
Variable uuid4 : nat -> string.
Variable services : Type.
Variable analyze_message : gmap string pyval -> services -> analysis * services.
Variable get_embedding : pyval -> services -> option (list float) * services.

Definition analyze_in (message : gmap string pyval) (w : services * store)
  : analysis * (services * store) :=
  let '(a, s) := analyze_message message (fst w) in (a, (s, snd w)).

Definition embed_in (text : pyval) (w : services * store)
  : option (list float) * (services * store) :=
  let '(e, s) := get_embedding text (fst w) in (e, (s, snd w)).

Definition add_in (message : gmap string pyval) (a : analysis) (embedding : list float)
    (w : services * store) : result string * (services * store) :=
  let '(r, st) := add_message fault uuid4 message a embedding (snd w) in (r, (fst w, st)).

Definition save_in (message : gmap string pyval) (a : analysis) (point_id : string)
    (w : services * store) : result bool * (services * store) :=
  let '(r, st) := save_analysis fault message a point_id (snd w) in (r, (fst w, st)).

Definition process_message :=
  Processor.process_message parse_date (services * store) analyze_in embed_in add_in save_in.

Definition _process_single_batch :=
  Processor._process_single_batch parse_date (services * store) analyze_in embed_in add_in
    save_in.

End pipeline.

(** The stores are consistent: no two points and no two rows have one
    [message_id], and every row names a point of its [message_id]. *)
Definition consistent (w : store) : Prop :=
  NoDup (point_message_ids w)
  /\ NoDup (row_message_ids w)
  /\ (forall id p, (id, p) ∈ rows w -> (p, id) ∈ points w).

(** What a message can do to the stores: nothing; or a new point for
    an id that had none, and then perhaps a new row for that id and
    that point, when the id had no row. *)
Inductive step (id : pyval) (w w' : store) : Prop :=
| step_none : points w' = points w -> rows w' = rows w -> step id w w'
| step_point p :
    id ∉ point_message_ids w -> points w' = points w ++ [(p, id)] -> rows w' = rows w ->
    step id w w'
| step_both p :
    id ∉ point_message_ids w -> points w' = points w ++ [(p, id)] ->
    id ∉ row_message_ids w -> rows w' = rows w ++ [(id, p)] ->
    step id w w'.

(** The message has an id that is in neither store. *)
Definition in_neither (w : store) (m : gmap string pyval) : Prop :=
  match m !! "message_id" with
  | Some id => (id ∉ row_message_ids w) /\ (id ∉ point_message_ids w)
  | None => False
  end.

#[global] Instance in_neither_dec (w : store) (m : gmap string pyval) :
  Decision (in_neither w m).
Proof. unfold in_neither. destruct (m !! "message_id"); apply _. Defined.

End Stores.

(** ** [analyzer_ollama.py]: the analysis of a message *)

Module Analyzer.
Local Open Scope list_scope.

(** The values of a decoded JSON text. *)
#[warnings="-register-all"]
Inductive jval :=
| JNull
| JBool (b : bool)
| JInt (z : Z)
| JFloat (f : float)
| JStr (s : string)
| JList (l : list jval)
| JDict (d : list (string * jval)).

(** What [json.loads] gave for a candidate text: a dict, or another
    value that is true. *)
Inductive candidate :=
| CDict (d : gmap string jval)
| COther (v : jval).

(** [d.setdefault(k, v)]. *)
Definition setdefault (k : string) (v : jval) (d : gmap string jval) : gmap string jval :=
  match d !! k with
  | Some _ => d
  | None => <[k := v]> d
  end.

(** [max(0.0, min(1.0, x))]: [min] keeps its first argument unless
    the second is less, [max] keeps its first unless the second is
    greater. *)
Definition clamp (x : float) : float :=
  let y := if PrimFloat.ltb x 1%float then x else 1%float in
  if PrimFloat.ltb 0%float y then y else 0%float.

(** [v in strings] for a list of strings. *)
Definition is_one_of (v : jval) (strings : list string) : bool :=
  match v with
  | JStr s => bool_decide (s ∈ strings)
  | _ => false
  end.

Definition is_list (v : jval) : bool :=
  match v with
  | JList _ => true
  | _ => false
  end.

Definition streamer_suffix : string :=
  " | Mensaje del streamer: priorizar visibilidad y registro completo.".

(** [_enhance_streamer_analysis]; [+=] with a string appends it to a
    string, and extends a list by its characters. *)
Definition _enhance_streamer_analysis (analysis : gmap string jval)
  : result (gmap string jval) :=
  let a1 := <["requires_action" := JBool true]> analysis in
  let a2 := <["action_type" := JStr "protect"]> a1 in
  match a2 !! "reasoning" with
  | None => Raise KeyError
  | Some (JStr r) => Ok (<["reasoning" := JStr (r +:+ streamer_suffix)]> a2)
  | Some (JList l) =>
      Ok (<["reasoning" :=
              JList (l ++ ((fun c => JStr (String c "")) <$> list_ascii_of_string
                                                                 streamer_suffix))]> a2)
  | Some _ => Raise TypeError
  end.

Section analyzer.

(** [float(s)] for a string and [float(n)] for an integer. *)
Variable float_of_str : string -> result float.
Variable float_of_int : Z -> result float.

(** [self.config.OLLAMA_MODEL]. *)
Variable ollama_model : jval.

(** [float(v)]. *)
Definition float_of (v : jval) : result float :=
  match v with
  | JFloat f => Ok f
  | JInt z => float_of_int z
  | JBool b => Ok (if b then 1%float else 0%float)
  | JStr s => float_of_str s
  | JNull | JList _ | JDict _ => Raise TypeError
  end.

Definition getitem (d : gmap string jval) (k : string) : result jval :=
  match d !! k with
  | Some v => Ok v
  | None => Raise KeyError
  end.

(** The eight [setdefault] calls of [_finalize_analysis]. *)
Definition with_defaults (analysis : gmap string jval) : gmap string jval :=
  setdefault "keywords_detected" (JList [])
    (setdefault "reasoning" (JStr "Sin análisis específico")
      (setdefault "action_type" (JStr "ignore")
        (setdefault "requires_action" (JBool false)
          (setdefault "categories" (JList [])
            (setdefault "sentiment" (JStr "neutral")
              (setdefault "spam_probability" (JFloat 0%float)
                (setdefault "toxicity_score" (JFloat 0%float) analysis))))))).

(** [analysis[k] = max(0.0, min(1.0, float(analysis[k])))]. *)
Definition clamp_key (k : string) (analysis : gmap string jval) : result (gmap string jval) :=
  bind (getitem analysis k) (fun v =>
  bind (float_of v) (fun x => Ok (<[k := JFloat (clamp x)]> analysis))).

(** [if analysis[k] not in valid: analysis[k] = v]. *)
Definition validate_key (k : string) (valid : list string) (v : string)
    (analysis : gmap string jval) : result (gmap string jval) :=
  bind (getitem analysis k) (fun x =>
  Ok (if negb (is_one_of x valid) then <[k := JStr v]> analysis else analysis)).

(** [if not isinstance(analysis['categories'], list): ...]. *)
Definition validate_categories (analysis : gmap string jval) : result (gmap string jval) :=
  bind (getitem analysis "categories") (fun x =>
  Ok (if negb (is_list x) then <["categories" := JList []]> analysis else analysis)).

(** [_finalize_analysis(analysis, original_message)]; [now] is the
    time at which the id is computed, [now'] the time written as
    [analyzed_at]. *)
Definition _finalize_analysis (now now' : datetime) (analysis : gmap string jval)
    (original_message : gmap string pyval) : result (gmap string jval) :=
  bind (clamp_key "toxicity_score" (with_defaults analysis)) (fun a1 =>
  bind (clamp_key "spam_probability" a1) (fun a2 =>
  bind (validate_key "sentiment" ["positive"; "neutral"; "negative"] "neutral" a2) (fun a3 =>
  bind (validate_key "action_type" ["ignore"; "warn"; "timeout"; "ban"] "ignore" a3) (fun a4 =>
  bind (validate_categories a4) (fun a5 =>
  bind (Utils.generate_message_id now original_message) (fun message_id =>
  Ok (<["model_used" := ollama_model]>
        (<["analyzed_at" := JStr (isoformat now')]>
           (<["message_id" := JStr message_id]> a5))))))))).

(** [_default_analysis(message, reason)]. *)
Definition _default_analysis (now now' : datetime) (message : gmap string pyval)
    (reason : string) : result (gmap string jval) :=
  bind (Utils.generate_message_id now message) (fun message_id =>
  Ok (<["toxicity_score" := JFloat 0%float]>
     (<["spam_probability" := JFloat 0%float]>
     (<["sentiment" := JStr "neutral"]>
     (<["categories" := JList []]>
     (<["requires_action" := JBool false]>
     (<["action_type" := JStr "ignore"]>
     (<["reasoning" := JStr ("Análisis automático falló: " +:+ reason)]>
     (<["keywords_detected" := JList []]>
     (<["message_id" := JStr message_id]>
     (<["analyzed_at" := JStr (isoformat now')]>
     (<["model_used" := JStr "fallback"]> ∅)))))))))))).

(** The classifier: [_make_ollama_request], which returns the
    response or [None] and raises nothing; the prompt, a fixed text
    around the user name and the text; the first value that is true
    among those that the strategies of [_parse_analysis_result] decode
    from a response; and the text of an exception. *)
Variable world : Type.
Variable _make_ollama_request : string -> world -> option string * world.
Variable _create_analysis_prompt : pyval -> string -> string.
Variable first_candidate : string -> option candidate.
Variable exception_text : exn -> string.

(** [_parse_analysis_result(result, original_message)]. *)
Definition _parse_analysis_result (now now' : datetime) (response : string)
    (original_message : gmap string pyval) : result (gmap string jval) :=
  match first_candidate response with
  | Some (CDict analysis) => _finalize_analysis now now' analysis original_message
  | Some (COther _) => Raise AttributeError
  | None => _default_analysis now now' original_message "Error de parsing JSON"
  end.

(** [analyze_message(message)]. *)
Definition analyze_message (now now' : datetime) (message : gmap string pyval) (w : world)
  : result (gmap string jval) * world :=
  let username := default (PStr "unknown") (message !! "username") in
  match default (PStr "") (message !! "text") with
  | PStr text =>
      if String.eqb (strip text) "" then (_default_analysis now now' message "Mensaje vacío", w)
      else
        let '(response, w1) := _make_ollama_request (_create_analysis_prompt username text) w in
        let attempt :=
          match response with
          | Some r =>
              if negb (String.eqb r "") then
                bind (_parse_analysis_result now now' r message) (fun analysis =>
                match username with
                | PStr u =>
                    if String.eqb (lower u) "niaghtmares"
                    then _enhance_streamer_analysis analysis
                    else Ok analysis
                | _ => Raise AttributeError
                end)
              else _default_analysis now now' message "Error en respuesta de Ollama"
          | None => _default_analysis now now' message "Error en respuesta de Ollama"
          end in
        (match attempt with
         | Ok analysis => Ok analysis
         | Raise e =>
             _default_analysis now now' message ("Excepción: " +:+ exception_text e)
         end, w1)
  | _ => (Raise AttributeError, w)
  end.

End analyzer.

(** A score of an analysis: a float from 0 to 1. *)
Definition is_score (v : option jval) : Prop :=
  exists x, v = Some (JFloat x)
            /\ PrimFloat.leb 0%float x = true /\ PrimFloat.leb x 1%float = true.

(** An analysis as the analyzer returns them. *)
Definition well_formed (a : gmap string jval) : Prop :=
  is_score (a !! "toxicity_score")
  /\ is_score (a !! "spam_probability")
  /\ (exists s, a !! "sentiment" = Some (JStr s) /\ s ∈ ["positive"; "neutral"; "negative"])
  /\ (exists s, a !! "action_type" = Some (JStr s)
                /\ s ∈ ["ignore"; "warn"; "timeout"; "ban"; "protect"])
  /\ (exists l, a !! "categories" = Some (JList l))
  /\ is_Some (a !! "requires_action")
  /\ is_Some (a !! "reasoning")
  /\ is_Some (a !! "keywords_detected")
  /\ is_Some (a !! "analyzed_at")
  /\ is_Some (a !! "model_used").

End Analyzer.

(** ** [alert_manager.py]: the alerts of a run, written to a file *)

Module Alerts.
Import Processor.
Local Open Scope list_scope.

(** The index of the last character [c] of [s], counting from [i]
    ([s.rfind(c)]). *)
Fixpoint rfind_from (c : ascii) (i : nat) (s : string) (last : option nat) : option nat :=
  match s with
  | EmptyString => last
  | String x s' => rfind_from c (S i) s' (if Ascii.eqb x c then Some i else last)
  end.

(** [Path(p).stem]: the name without its last suffix; a dot at the
    start or at the end of the name begins no suffix. *)
Definition path_stem (p : string) : string :=
  let name := path_name p in
  match rfind_from "." 0 name None with
  | Some i =>
      if (0 <? i)%nat && (i <? String.length name - 1)%nat
      then Regex.take_chars i name else name
  | None => name
  end.

(** [now.strftime("%Y%m%d_%H%M%S")]. *)
Definition strftime_compact (d : datetime) : string :=
  zpad 4 (year d) +:+ zpad 2 (month d) +:+ zpad 2 (day d) +:+ "_"
  +:+ zpad 2 (hour d) +:+ zpad 2 (minute d) +:+ zpad 2 (second d).

Record metadata := mk_metadata {
  generated_at : string;
  source_file : string;
  total_alerts : nat;
  severity_breakdown : gmap string nat }.

(** What [save_alerts] hands to [json.dump]. *)
Record output_data := mk_output_data {
  output_metadata : metadata;
  alerts_by_severity : gmap string (list alert);
  all_alerts : list alert }.

(** The loop that fills [severity_groups], a [defaultdict(list)]. *)
Definition group_by_severity (alerts : list alert) : gmap string (list alert) :=
  foldl (fun groups al =>
           <[alert_severity al := default [] (groups !! alert_severity al) ++ [al]]> groups)
    ∅ alerts.

(** [_print_alert_summary]: the severities that it prints, each with
    its number of alerts. *)
Definition _print_alert_summary (severity_groups : gmap string (list alert))
  : list (string * nat) :=
  omap (fun severity =>
          let count := length (default [] (severity_groups !! severity)) in
          if (0 <? count)%nat then Some (severity, count) else None)
    ["CRITICAL"; "HIGH"; "MEDIUM"; "LOW"].

(** [save_alerts(alerts, source_file)]: the name of the file written
    in the output directory with what is written to it, if a file is
    written, and the summary printed; [now] is the time read for the
    name of the file, [now'] the time written in the metadata. *)
Definition save_alerts (now now' : datetime) (alerts : list alert) (source_file : string)
  : option (string * output_data) * list (string * nat) :=
  match alerts with
  | [] => (None, [])
  | _ =>
      let filename :=
        "alertas_" +:+ path_stem source_file +:+ "_" +:+ strftime_compact now +:+ ".json" in
      let severity_groups := group_by_severity alerts in
      (Some (filename,
             mk_output_data
               (mk_metadata (isoformat now') source_file (length alerts)
                  (length <$> severity_groups))
               severity_groups alerts),
       _print_alert_summary severity_groups)
  end.

End Alerts.

(** ** [session_tracker.py] and [moderador_semantico.py]: a run on a file *)

Module Session.
Local Open Scope list_scope.

(** [reset_session]: the statistics of a new session. *)
Definition reset_session : gmap string pyval :=
  <["start_time" := PNone]>
    (<["processed_count" := PInt 0]>
      (<["duplicate_count" := PInt 0]>
        (<["alert_count" := PInt 0]>
          (<["error_count" := PInt 0]> ∅)))).

(** [start_session]. *)
Definition start_session (now : datetime) (stats : gmap string pyval) : gmap string pyval :=
  <["start_time" := PDatetime now]> stats.

(** [update_stats] with its keyword arguments in order: the keys that
    the session does not hold are passed over. *)
Definition update_stats (kwargs : list (string * pyval)) (stats : gmap string pyval)
  : gmap string pyval :=
  foldl (fun st (kv : string * pyval) =>
           match st !! fst kv with
           | Some _ => <[fst kv := snd kv]> st
           | None => st
           end) stats kwargs.

(** [increment_stat(stat_name, increment)]: [+=] on a value that is
    not a number raises [TypeError]. *)
Definition increment_stat (stat_name : string) (increment : Z) (stats : gmap string pyval)
  : gmap string pyval * result unit :=
  match stats !! stat_name with
  | None => (stats, Ok tt)
  | Some (PInt z) => (<[stat_name := PInt (z + increment)]> stats, Ok tt)
  | Some _ => (stats, Raise TypeError)
  end.

End Session.

Module Moderador.
Import Session.
Local Open Scope list_scope.

Section moderador.

Variable strptime : string -> string -> result datetime.
Variable parse_date : string -> option datetime.
Variable db_get_existing_message_ids : list (gmap string pyval) -> result (gset string).
Variable vs_get_existing_message_ids : list (gmap string pyval) -> result (gset string).
Variable is_fresh_collection : bool.
Variable world : Type.
Variable analyze_message : gmap string pyval -> world -> Processor.analysis * world.
Variable get_embedding : pyval -> world -> option (list float) * world.
Variable vs_add_message :
  gmap string pyval -> Processor.analysis -> list float -> world -> result string * world.
Variable db_save_analysis :
  gmap string pyval -> Processor.analysis -> string -> world -> result bool * world.

(** [config.BATCH_SIZE], positive. *)
Variable batch_size : nat.

(** The clocks of a run: the time at which the session starts, the
    times read by the parser, by the filter and by the processor, and
    the two times read by [save_alerts]. *)
Record clocks := mk_clocks {
  at_start : datetime;
  of_parser : nat -> datetime;
  of_filter : nat -> datetime;
  of_processor : nat -> datetime;
  at_save : datetime;
  at_save' : datetime }.

(** [process_log_file(filepath)] up to the alerts: the statistics of
    the session afterwards, and the alerts with the file written for
    them and the state of the services, or the exception that the
    parser or the filter raised. The analyses that follow read the
    messages and the stores and leave the session as it is. *)
Definition process_log_file (c : clocks) (fs : gmap string string) (filepath : string)
    (session : gmap string pyval) (w : world)
  : gmap string pyval
    * result (list Processor.alert * option (string * Alerts.output_data) * world) :=
  let session1 := start_session (at_start c) session in
  match Parser.parse_file strptime fs (of_parser c) filepath false Parser.fresh_debug_stats with
  | (Raise e, _) => (session1, Raise e)
  | (Ok [], _) => (session1, Ok ([], None, w))
  | (Ok messages, _) =>
      match fst (Dedup.filter_new_messages parse_date db_get_existing_message_ids
                   vs_get_existing_message_ids is_fresh_collection (of_filter c) messages) with
      | Raise e => (session1, Raise e)
      | Ok new_messages =>
          let session2 :=
            update_stats
              [("duplicate_count",
                PInt (Z.of_nat (length messages) - Z.of_nat (length new_messages)))]
              session1 in
          match new_messages with
          | [] => (session2, Ok ([], None, w))
          | _ =>
              let '(alerts, w', _) :=
                Processor.process_messages_batch parse_date world analyze_message
                  get_embedding vs_add_message db_save_analysis batch_size
                  (of_processor c) new_messages w in
              (session2,
               Ok (alerts,
                   match alerts with
                   | [] => None
                   | _ => fst (Alerts.save_alerts (at_save c) (at_save' c) alerts filepath)
                   end,
                   w'))
          end
      end
  end.

End moderador.

End Moderador.

(** ** The messages of the lines that the tailer reads *)

Module Tailing.
Local Open Scope list_scope.

Section tailing.
Variable strptime : string -> string -> result datetime.

(** The message that a line gives when it is read at [now] from the
    file [name]: none for a blank line and for a line in which the
    parser finds no message. *)
Definition message_of_line (now : datetime) (name : string) (line : string)
  : option (gmap string pyval) :=
  if String.eqb (strip line) "" then None
  else
    match fst (Parser._parse_line strptime now (strip line) false Parser.fresh_debug_stats) with
    | Ok (Some parsed) => Some (<["file_source" := PStr name]> parsed)
    | _ => None
    end.

(** The messages of the lines, in their order; [clock (t + i)] is the
    time read for the line at position [i]. *)
Definition messages_of_lines (clock : nat -> datetime) (t : nat) (name : string)
    (lines : list string) : list (gmap string pyval) :=
  omap id (imap (fun i line => message_of_line (clock (t + i)) name line) lines).

End tailing.

End Tailing.

(** ** A log with the line ends of Windows *)

Module CatchupSamples.
Import Samples.
Local Open Scope list_scope.

Definition crlf : string := String "013" (String "010" "").

(** A log of four lines that is in the directory at start. *)
Definition windows_log : string :=
  "[2025-05-30 19:31:23] <alice> hello world" +:+ crlf
  +:+ "[2025-05-30 19:31:24] <bob> hi" +:+ crlf
  +:+ "[2025-05-30 19:31:25] <carol> hey" +:+ crlf
  +:+ "[2025-05-30 19:31:26] <dave> nice :)" +:+ crlf.

(** The line that is appended to it afterwards. *)
Definition windows_line : string := "[2025-05-30 19:31:27] <erin> hello" +:+ crlf.

(** A classifier that asks for no action. *)
Definition calm : Processor.analysis :=
  Processor.mk_analysis 0.1 0.05 "neutral" [] false "ignore" "" PNone.
Definition analyze_calm (m : gmap string pyval) (w : unit) : Processor.analysis * unit :=
  (Processor.set_message_id calm
     (match Utils.generate_message_id (clock 0) m with
      | Ok id => PStr id
      | Raise _ => PNone
      end), w).

Definition fresh_moderator : Realtime.moderator unit :=
  Realtime.mk_moderator ∅ ∅ ∅ [] 0 0 0 Parser.fresh_debug_stats tt [].

(** The moderator after the catch-up on the log. *)
Definition caught_up : Realtime.moderator unit :=
  fst (Catchup.catchup_file Parser.Strptime.strptime unit analyze_calm embed vs_add
         db_refuses db_ids clock "data/logs/chat.log" windows_log fresh_moderator).

(** The moderator after the line was appended and the watcher
    reported the change. *)
Definition after_event : Realtime.moderator unit :=
  Realtime.process_new_lines Parser.Strptime.strptime unit analyze_calm embed vs_add
    db_refuses db_ids {[ "data/logs/chat.log" := windows_log +:+ windows_line ]} clock
    "data/logs/chat.log" caught_up.

End CatchupSamples.

(** ** More sample data *)

Module MoreSamples.
Import Samples.
Local Open Scope list_scope.

(** A relational store whose query raises. *)
Definition db_raises (messages : list (gmap string pyval)) : result (gset string) :=
  Raise StoreError.

(** The first line of the log with another text. *)
Definition hello_again : gmap string pyval := <["text" := PStr "bye"]> hello.

(** A file that has become shorter than the cursor of [moderator]. *)
Definition shrunk_files : gmap string string := {[ "data/logs/chat.log" := "[2025" ]}.

(** The two stores: empty, and holding the first line of the log. *)
Definition empty_store : Stores.store := Stores.mk_store [] [] 0.
Definition hello_store : Stores.store :=
  Stores.mk_store [("point-0", PStr hello_id)] [(PStr hello_id, "point-0")] 2.

(** Clients that never fail, and the ids that are drawn. *)
Definition no_fault (n : nat) : bool := false.
Definition always_fault (n : nat) : bool := true.
Definition uuid4 (n : nat) : string := "point-" +:+ dec (N.of_nat n).

(** What a classifier answered: a toxicity above 1, no spam
    probability, a sentiment that is not one of the three. *)
Definition raw_analysis : gmap string Analyzer.jval :=
  <["toxicity_score" := Analyzer.JFloat 1.5]>
    (<["sentiment" := Analyzer.JStr "angry"]>
      (<["requires_action" := Analyzer.JBool true]> ∅)).

Definition float_of_str (s : string) : result float := Raise ValueError.
Definition float_of_int (z : Z) : result float := Ok (PrimFloat.of_uint63 (Uint63.of_Z z)).

(** A classifier that gives no response. *)
Definition no_response (prompt : string) (w : unit) : option string * unit := (None, w).
Definition prompt (username : pyval) (text : string) : string := text.
Definition no_candidate (response : string) : option Analyzer.candidate := None.
Definition exception_text (e : exn) : string := "error".

(** What [_finalize_analysis] makes of it for the first line of the
    log. *)
Definition finalized : gmap string Analyzer.jval :=
  match Analyzer._finalize_analysis float_of_str float_of_int (Analyzer.JStr "llama3")
          (clock 0) (clock 1) raw_analysis hello with
  | Ok a => a
  | Raise _ => ∅
  end.

(** The alerts of a run on two messages. *)
Definition sample_alerts : list Processor.alert :=
  fst (fst (Processor.process_messages_batch parse_date unit analyze embed vs_add db_refuses
              1 clock [hello; hello_again] tt)).

End MoreSamples.

(** * Properties *)

(** ** Strings *)

Module StringFacts.

Lemma append_nil_l (b : string) : "" +:+ b = b.
Proof. reflexivity. Qed.

Lemma append_cons (x : ascii) (a b : string) : String x a +:+ b = String x (a +:+ b).
Proof. reflexivity. Qed.

Ltac app_simpl := rewrite ?append_cons, ?append_nil_l in *.

Lemma append_assoc (a b c : string) : (a +:+ b) +:+ c = a +:+ (b +:+ c).
Proof. induction a as [ | x a IH]; app_simpl; [reflexivity | rewrite IH; reflexivity]. Qed.

Lemma length_append (a b : string) :
  String.length (a +:+ b) = String.length a + String.length b.
Proof.
  induction a as [ | x a IH]; app_simpl; simpl; [reflexivity | rewrite IH; reflexivity].
Qed.

(** Two concatenations with tails of one length agree part by part. *)
Lemma append_inj_tail (a b c d : string) :
  String.length c = String.length d -> a +:+ c = b +:+ d -> a = b /\ c = d.
Proof.
  revert b. induction a as [ | x a IH]; intros [ | y b] Hlen H; app_simpl.
  - done.
  - subst c. simpl in Hlen. rewrite length_append in Hlen. lia.
  - subst d. simpl in Hlen. rewrite length_append in Hlen. lia.
  - injection H as -> H. destruct (IH b Hlen H) as [-> ->]. done.
Qed.

Lemma contains_char_append (c : ascii) (a b : string) :
  contains_char c (a +:+ b) = contains_char c a || contains_char c b.
Proof.
  induction a as [ | x a IH]; app_simpl; simpl; [reflexivity | ].
  rewrite IH. destruct (Ascii.eqb c x); reflexivity.
Qed.

(** A string is cut in one way at its last separator. *)
Lemma split_at_last (c : ascii) (u1 u2 t1 t2 : string) :
  contains_char c t1 = false -> contains_char c t2 = false ->
  u1 +:+ String c t1 = u2 +:+ String c t2 -> u1 = u2 /\ t1 = t2.
Proof.
  intros H1 H2. revert u2. induction u1 as [ | x u1 IH]; intros [ | y u2] H; app_simpl.
  - injection H as ->. done.
  - injection H as <- ->.
    rewrite contains_char_append in H1. simpl in H1.
    rewrite Ascii.eqb_refl in H1. simpl in H1.
    destruct (contains_char c u2); discriminate.
  - injection H as -> <-.
    rewrite contains_char_append in H2. simpl in H2.
    rewrite Ascii.eqb_refl in H2. simpl in H2.
    destruct (contains_char c u1); discriminate.
  - injection H as -> H. destruct (IH u2 H) as [-> ->]. done.
Qed.

(** The id, cut before the separator of the hash. *)
Lemma id_shape (u i h : string) :
  u +:+ "_" +:+ i +:+ "_" +:+ h = (u +:+ String "_" i) +:+ String "_" h.
Proof. rewrite append_assoc. reflexivity. Qed.

Lemma length_substring_0 (n : nat) (s : string) :
  n <= String.length s -> String.length (String.substring 0 n s) = n.
Proof.
  revert s. induction n as [ | n IH]; intros [ | x s] H; simpl in *; try lia; try reflexivity.
  rewrite IH by lia. reflexivity.
Qed.

Lemma contains_char_repeat (c x : ascii) (n : nat) :
  Ascii.eqb c x = false -> contains_char c (repeat_char x n) = false.
Proof. intros H. induction n as [ | n IH]; simpl; [reflexivity | rewrite H, IH; reflexivity]. Qed.

Lemma contains_char_uint (d : Decimal.uint) :
  contains_char "_" (NilEmpty.string_of_uint d) = false.
Proof. induction d; simpl; auto. Qed.

Lemma contains_char_dec (n : N) : contains_char "_" (dec n) = false.
Proof.
  unfold dec, NilZero.string_of_uint.
  destruct (N.to_uint n) eqn:E; try reflexivity; rewrite <- E; apply contains_char_uint.
Qed.

Lemma contains_char_zpad (w : nat) (n : N) : contains_char "_" (zpad w n) = false.
Proof.
  unfold zpad. rewrite contains_char_append, contains_char_repeat by reflexivity.
  apply contains_char_dec.
Qed.

(** No underscore in the ISO form of a time stamp. *)
Lemma contains_char_isoformat (d : datetime) : contains_char "_" (isoformat d) = false.
Proof.
  unfold isoformat, isoformat_sep.
  repeat (rewrite contains_char_append; rewrite ?contains_char_zpad; simpl).
  destruct (N.eqb (microsecond d) 0); simpl; [reflexivity | apply contains_char_zpad].
Qed.

Lemma length_hex (bs : list Z) : String.length (MD5.hex bs) = 2 * length bs.
Proof. induction bs as [ | b bs IH]; simpl; [reflexivity | rewrite IH; lia]. Qed.

Lemma length_le_bytes (n : nat) (x : Z) : length (MD5.le_bytes n x) = n.
Proof. revert x. induction n as [ | n IH]; intros x; simpl; [reflexivity | rewrite IH; reflexivity]. Qed.

Lemma length_hexdigest (s : string) : String.length (MD5.hexdigest s) = 32.
Proof.
  unfold MD5.hexdigest, MD5.digest. rewrite length_hex.
  destruct (MD5.blocks _ _ _) as [[[a b] c] d].
  rewrite !length_app, !length_le_bytes. reflexivity.
Qed.

Lemma length_text_hash (text : string) : String.length (Utils.text_hash text) = 8.
Proof. unfold Utils.text_hash. apply length_substring_0. rewrite length_hexdigest. lia. Qed.

End StringFacts.

(** ** Identity and enrichment *)

Module UtilsFacts.
Import Utils.

(** The id reads four keys of the message and nothing else. *)
Lemma generate_message_id_reads (now : datetime) (m m' : gmap string pyval) :
  m !! "timestamp" = m' !! "timestamp" ->
  m !! "timestamp_str" = m' !! "timestamp_str" ->
  m !! "text" = m' !! "text" ->
  m !! "username" = m' !! "username" ->
  generate_message_id now m = generate_message_id now m'.
Proof.
  intros Hts Hstr Htext Huser.
  unfold generate_message_id, timestamp_form, normalize_username.
  rewrite Hts, Hstr, Htext, Huser. reflexivity.
Qed.

(** With a [datetime] time stamp the clock is not read. *)
Lemma generate_message_id_clock (now now' : datetime) (m : gmap string pyval) (d : datetime) :
  m !! "timestamp" = Some (PDatetime d) ->
  generate_message_id now m = generate_message_id now' m.
Proof.
  intros Hts. unfold generate_message_id, timestamp_form. rewrite Hts. reflexivity.
Qed.

Section enrich_facts.
Variable parse_date : string -> option datetime.

(** After [normalize_timestamp] the time stamp is a [datetime], or it
    is the value it was, which is no [datetime] and no string. *)
Lemma normalize_timestamp_cases (now : datetime) (m : gmap string pyval) :
  (exists d, normalize_timestamp parse_date now m !! "timestamp" = Some (PDatetime d)
             /\ (m !! "timestamp" = Some (PDatetime d) -> normalize_timestamp parse_date now m = m))
  \/ (exists z, m !! "timestamp" = Some (PInt z) /\ z <> 0%Z
                /\ normalize_timestamp parse_date now m = m).
Proof.
  unfold normalize_timestamp.
  destruct (m !! "timestamp") as [[ | z | s | d] | ] eqn:Hts; simpl.
  - left. exists now. rewrite lookup_insert_eq. split; [done | congruence].
  - destruct (Z.eqb_spec z 0) as [-> | Hz]; simpl.
    + left. exists now. rewrite lookup_insert_eq. split; [done | congruence].
    + right. exists z. done.
  - destruct (String.eqb s ""); simpl.
    + left. exists now. rewrite lookup_insert_eq. split; [done | congruence].
    + destruct (parse_date s) as [d | ].
      * left. exists d. rewrite lookup_insert_eq. split; [done | congruence].
      * left. exists now. rewrite lookup_insert_eq. split; [done | congruence].
  - left. exists d. split; [done | done].
  - left. exists now. rewrite lookup_insert_eq. split; [done | congruence].
Qed.

(** On a message of that shape only the id is written. *)
Lemma enrich_message_on_shape (now : datetime) (fs : string) (m : gmap string pyval) :
  enriched_shape fs m ->
  enrich_message parse_date now fs m =
    match generate_message_id now m with
    | Ok id => (<["message_id" := PStr id]> m, Ok tt)
    | Raise e => (m, Raise e)
    end.
Proof.
  intros (d & Hts & Hstr & Huser & Hfs).
  unfold enrich_message, normalize_timestamp. rewrite Hts. simpl. rewrite Hts.
  rewrite (insert_id m "timestamp_str") by done.
  rewrite Huser.
  rewrite (insert_id m "file_source") by done.
  reflexivity.
Qed.

Lemma enrich_message_shape (now : datetime) (fs : string) (m : gmap string pyval) :
  (exists m4,
      enriched_shape fs m4
      /\ enrich_message parse_date now fs m =
           match generate_message_id now m4 with
           | Ok id => (<["message_id" := PStr id]> m4, Ok tt)
           | Raise e => (m4, Raise e)
           end)
  \/ (exists z, m !! "timestamp" = Some (PInt z) /\ z <> 0%Z
                /\ enrich_message parse_date now fs m = (m, Raise AttributeError)).
Proof.
  unfold enrich_message.
  destruct (normalize_timestamp_cases now m) as [(d & Hd & _) | (z & Hz & Hnz & Hm)].
  - left. rewrite Hd.
    set (m2 := <["timestamp_str" := PStr (isoformat d)]> (normalize_timestamp parse_date now m)).
    assert (Hts2 : m2 !! "timestamp" = Some (PDatetime d))
      by (unfold m2; rewrite lookup_insert_ne by done; exact Hd).
    assert (Hstr2 : m2 !! "timestamp_str" = Some (PStr (isoformat d)))
      by (unfold m2; apply lookup_insert_eq).
    eexists. split; [ | reflexivity].
    exists d.
    destruct (truthy_get (m2 !! "username")) eqn:Hu;
      rewrite ?lookup_insert_eq, ?lookup_insert_ne by done;
      rewrite ?lookup_insert_eq, ?lookup_insert_ne by done; done.
  - right. exists z. split_and!; [done | done | ].
    rewrite Hm, Hz. reflexivity.
Qed.

Lemma enriched_shape_insert_id (fs : string) (m : gmap string pyval) (v : pyval) :
  enriched_shape fs m -> enriched_shape fs (<["message_id" := v]> m).
Proof.
  intros (d & ? & ? & ? & ?). exists d.
  rewrite !lookup_insert_ne by done. done.
Qed.

(** C2: enriching an enriched message changes nothing: the dict that a
    first call of [enrich_message] leaves, whatever the clock and
    whether it returned or raised, is left as it is by a second call,
    which has the same outcome; so [message_id] is the same. *)
Theorem enrich_message_idempotent (now1 now2 : datetime) (fs : string)
    (m : gmap string pyval) :
  enrich_message parse_date now2 fs (fst (enrich_message parse_date now1 fs m))
  = enrich_message parse_date now1 fs m.
Proof.
  destruct (enrich_message_shape now1 fs m) as [(m4 & Hshape & ->) | (z & Hz & Hnz & ->)].
  - destruct (generate_message_id now1 m4) as [id | e] eqn:Hid; simpl.
    + rewrite enrich_message_on_shape by (apply enriched_shape_insert_id, Hshape).
      destruct Hshape as (d & Hts & ?).
      rewrite (generate_message_id_reads now2 _ m4) by (rewrite lookup_insert_ne; done).
      rewrite (generate_message_id_clock now2 now1 m4 d Hts), Hid.
      rewrite insert_insert_eq. reflexivity.
    + rewrite enrich_message_on_shape by exact Hshape.
      destruct Hshape as (d & Hts & ?).
      rewrite (generate_message_id_clock now2 now1 m4 d Hts), Hid. reflexivity.
  - simpl. unfold enrich_message, normalize_timestamp. rewrite Hz. simpl.
    destruct (Z.eqb_spec z 0); [done | ]. simpl. rewrite Hz. reflexivity.
Qed.

(** What a successful enrichment leaves in the dict. *)
Lemma enrich_message_ok (now : datetime) (fs : string) (m e : gmap string pyval) :
  enrich_message parse_date now fs m = (e, Ok tt) ->
  exists d text,
    e !! "timestamp" = Some (PDatetime d)
    /\ e !! "timestamp_str" = Some (PStr (isoformat d))
    /\ default (PStr "") (e !! "text") = PStr text
    /\ truthy_get (e !! "username") = true
    /\ e !! "file_source" = Some (PStr (if String.eqb fs "" then "unknown" else fs))
    /\ e !! "message_id"
       = Some (PStr (normalize_username e +:+ "_" +:+ isoformat d +:+ "_" +:+ text_hash text)).
Proof.
  intros H.
  destruct (enrich_message_shape now fs m) as [(m4 & Hshape & Heq) | (z & _ & _ & Heq)];
    rewrite Heq in H; [ | discriminate].
  destruct (generate_message_id now m4) as [id | err] eqn:Hid; [ | discriminate].
  injection H as <-.
  destruct Hshape as (d & Hts & Hstr & Huser & Hfs).
  unfold generate_message_id, timestamp_form in Hid. rewrite Hts in Hid.
  destruct (default (PStr "") (m4 !! "text")) as [ | | text | ] eqn:Htext; try discriminate.
  injection Hid as <-.
  exists d, text. rewrite !lookup_insert_ne by done. rewrite lookup_insert_eq.
  split_and!; try done.
  unfold normalize_username. rewrite lookup_insert_ne by done. reflexivity.
Qed.

(** An enriched message is left as it is by a new enrichment. *)
Lemma enrich_enriched (now now' : datetime) (fs : string) (m e : gmap string pyval) :
  enrich_message parse_date now fs m = (e, Ok tt) ->
  enrich_message parse_date now' fs e = (e, Ok tt).
Proof.
  intros H.
  destruct (enrich_message_shape now fs m)
    as [(m4 & Hshape & Heq) | (z & _ & _ & Heq)]; rewrite Heq in H; [ | discriminate].
  destruct (generate_message_id now m4) as [id | err] eqn:Hid; [ | discriminate].
  injection H as <-.
  rewrite enrich_message_on_shape
    by (apply enriched_shape_insert_id, Hshape).
  destruct Hshape as (d & Hts & _).
  rewrite (generate_message_id_reads now' _ m4) by (rewrite lookup_insert_ne; done).
  rewrite (generate_message_id_clock now' now m4 d Hts), Hid.
  rewrite insert_insert_eq. reflexivity.
Qed.

End enrich_facts.

(** C1 (amended): the key of the batch pipeline is the [message_id] that
    enrichment stores; computing it again from the enriched message
    gives the same id whatever the clock; and two enriched messages
    have one id exactly when they agree on the normalized user name, on
    the string form of the time stamp and on the first eight hex digits
    of the MD5 digest of the text. *)
Theorem message_id_canonical (parse_date : string -> option datetime)
    (now1 now2 : datetime) (m1 m2 e1 e2 : gmap string pyval) :
  enrich parse_date now1 m1 = (e1, Ok tt) ->
  enrich parse_date now2 m2 = (e2, Ok tt) ->
  (exists id1, e1 !! "message_id" = Some (PStr id1)
               /\ forall now, generate_message_id now e1 = Ok id1)
  /\ (e1 !! "message_id" = e2 !! "message_id" <->
        normalize_username e1 = normalize_username e2
        /\ e1 !! "timestamp_str" = e2 !! "timestamp_str"
        /\ text_hash (text_of e1) = text_hash (text_of e2)).
Proof.
  intros H1 H2.
  apply enrich_message_ok in H1 as (d1 & t1 & Hts1 & Hstr1 & Htext1 & _ & _ & Hid1).
  apply enrich_message_ok in H2 as (d2 & t2 & Hts2 & Hstr2 & Htext2 & _ & _ & Hid2).
  split.
  - eexists. split; [exact Hid1 | ].
    intros now. unfold generate_message_id, timestamp_form.
    rewrite Hts1, Htext1. reflexivity.
  - unfold text_of. rewrite Hid1, Hid2, Hstr1, Hstr2, Htext1, Htext2. split.
    + intros H. injection H as H.
      rewrite !StringFacts.id_shape in H.
      apply StringFacts.append_inj_tail in H as [H Hh];
        [ | simpl; rewrite !StringFacts.length_text_hash; reflexivity].
      injection Hh as Hh.
      apply StringFacts.split_at_last in H as [Hu Hi];
        try apply StringFacts.contains_char_isoformat.
      rewrite Hu, Hi, Hh. done.
    + intros (-> & H & ->). injection H as ->. reflexivity.
Qed.

(** C10: whatever [file_source] the message carried, a successful
    [enrich_message(message)] leaves ["unknown"] in it. *)
Theorem enrich_overwrites_file_source (parse_date : string -> option datetime)
    (now : datetime) (m e : gmap string pyval) :
  enrich parse_date now m = (e, Ok tt) ->
  e !! "file_source" = Some (PStr "unknown").
Proof.
  intros H. apply enrich_message_ok in H as (d & t & _ & _ & _ & _ & Hfs & _).
  exact Hfs.
Qed.

End UtilsFacts.

(** ** Deduplication *)

Module DedupFacts.
Import Dedup.
Local Open Scope list_scope.

Lemma ids_of_cons (m : gmap string pyval) (id : pyval) (l : list (gmap string pyval)) :
  m !! "message_id" = Some id -> ids_of (m :: l) = {[id]} ∪ ids_of l.
Proof. intros H. unfold ids_of. simpl. rewrite H. reflexivity. Qed.

(** Tier 1 keeps one message for each id that was not seen before. *)
Lemma unique_from_count (seen : gset pyval) (l : list (gmap string pyval)) :
  Forall has_id l ->
  exists u, unique_from seen l = Ok u /\ length u = size (ids_of l ∖ seen).
Proof.
  intros Hl. revert seen. induction Hl as [ | m l [id Hid] _ IH]; intros seen; simpl.
  - exists []. split; [reflexivity | ].
    replace (ids_of [] ∖ seen) with (∅ : gset pyval) by (unfold ids_of; set_solver).
    rewrite size_empty. reflexivity.
  - rewrite Hid, (ids_of_cons m id l Hid).
    destruct (bool_decide (id ∈ seen)) eqn:Hseen.
    + apply bool_decide_eq_true in Hseen.
      destruct (IH seen) as (u & -> & Hlen). exists u. split; [reflexivity | ].
      rewrite Hlen. f_equal. generalize (ids_of l). intros X. set_solver.
    + apply bool_decide_eq_false in Hseen.
      destruct (IH ({[id]} ∪ seen)) as (u & -> & Hlen). exists (m :: u).
      split; [reflexivity | ]. simpl. rewrite Hlen.
      generalize (ids_of l). intros X.
      replace (({[id]} ∪ X) ∖ seen) with ({[id]} ∪ X ∖ ({[id]} ∪ seen))
        by (set_unfold; intros x; destruct (decide (x = id)); naive_solver).
      rewrite (size_union ({[id]} : gset pyval) (X ∖ ({[id]} ∪ seen))) by set_solver.
      rewrite size_singleton. reflexivity.
Qed.

Lemma unique_from_has_id (seen : gset pyval) (l u : list (gmap string pyval)) :
  unique_from seen l = Ok u -> Forall has_id u.
Proof.
  revert seen u. induction l as [ | m l IH]; intros seen u H; simpl in H.
  - injection H as <-. constructor.
  - destruct (m !! "message_id") as [id | ] eqn:Hid; [ | discriminate].
    destruct (bool_decide (id ∈ seen)); [exact (IH _ _ H) | ].
    destruct (unique_from _ l) as [u' | ] eqn:Hu; [ | discriminate].
    injection H as <-. constructor; [exists id; exact Hid | exact (IH _ _ Hu)].
Qed.

(** Tier 2 keeps the messages whose id is in neither set, in order. *)
Lemma external_loop_filter (pg q : gset string) (l : list (gmap string pyval))
    (dd : gmap string nat) :
  Forall has_id l ->
  exists dd', external_loop pg q l dd = Ok (filter (fun m => is_new (pg ∪ q) m) l, dd').
Proof.
  intros Hl. revert dd. induction Hl as [ | m l [id Hid] _ IH]; intros dd; simpl.
  - eexists. reflexivity.
  - rewrite Hid. rewrite filter_cons.
    assert (Hnew : is_new (pg ∪ q) m = negb (id_in id (pg ∪ q)))
      by (unfold is_new; rewrite Hid; reflexivity).
    destruct (id_in id (pg ∪ q)); simpl in *.
    + rewrite decide_False by (rewrite Hnew; intros []). apply IH.
    + rewrite decide_True by (rewrite Hnew; exact I).
      destruct (IH dd) as (dd' & ->). eexists. reflexivity.
Qed.

Section tier_2_facts.
Variable db_get_existing_message_ids : list (gmap string pyval) -> result (gset string).
Variable vs_get_existing_message_ids : list (gmap string pyval) -> result (gset string).

(** C4: Tier 2 reads the ids that the two stores report, keeps in
    order the messages whose id is in neither of the two sets and
    drops every message whose id is in one of them, and returns; when
    some id is in one set only, it prints the divergence with the
    number of such ids on either side, and not otherwise. *)
Theorem remove_external_union (messages : list (gmap string pyval)) (pg q : gset string) :
  db_get_existing_message_ids messages = Ok pg ->
  vs_get_existing_message_ids messages = Ok q ->
  Forall has_id messages ->
  (exists dd,
      _remove_external_duplicates db_get_existing_message_ids vs_get_existing_message_ids
        messages
      = (Ok (filter (fun m => is_new (pg ∪ q) m) messages),
         _debug_inconsistencies pg q ++ [LogExternalDetails dd]))
  /\ (forall m s, m !! "message_id" = Some (PStr s) ->
        (m ∈ filter (fun m => is_new (pg ∪ q) m) messages
         <-> (m ∈ messages) /\ (s ∉ pg) /\ (s ∉ q)))
  /\ ((exists s, ((s ∈ pg) /\ (s ∉ q)) \/ ((s ∈ q) /\ (s ∉ pg)))
      <-> LogInconsistencies (size (pg ∖ q)) (size (q ∖ pg)) ∈ _debug_inconsistencies pg q).
Proof.
  intros Hpg Hq Hids. split_and!.
  - unfold _remove_external_duplicates. rewrite Hpg, Hq.
    destruct (external_loop_filter pg q messages ∅ Hids) as (dd & ->).
    exists dd. reflexivity.
  - intros m s Hid. rewrite list_elem_of_filter. unfold is_new. rewrite Hid. simpl.
    destruct (bool_decide_reflect (s ∈ pg ∪ q)) as [Hin | Hin]; simpl; set_solver.
  - unfold _debug_inconsistencies.
    destruct (bool_decide_reflect (pg ∖ q ≠ ∅)) as [H1 | H1];
      destruct (bool_decide_reflect (q ∖ pg ≠ ∅)) as [H2 | H2]; simpl.
    + split; [intros _; apply list_elem_of_singleton; reflexivity | intros _].
      apply set_choose_L in H1 as [s Hs]. exists s. set_solver.
    + split; [intros _; apply list_elem_of_singleton; reflexivity | intros _].
      apply set_choose_L in H1 as [s Hs]. exists s. set_solver.
    + split; [intros _; apply list_elem_of_singleton; reflexivity | intros _].
      apply set_choose_L in H2 as [s Hs]. exists s. set_solver.
    + split; [ | intros H; inversion H].
      intros [s Hs]. exfalso. apply dec_stable in H1, H2. set_solver.
Qed.

End tier_2_facts.

Section manager_facts.
Variable parse_date : string -> option datetime.
Variable db_get_existing_message_ids : list (gmap string pyval) -> result (gset string).
Variable vs_get_existing_message_ids : list (gmap string pyval) -> result (gset string).
Variable is_fresh_collection : bool.

Lemma enrich_all_has_id (clock : nat -> datetime) (t : nat)
    (messages enriched : list (gmap string pyval)) :
  enrich_all parse_date clock t messages = (enriched, Ok tt) -> Forall has_id enriched.
Proof.
  revert t enriched. induction messages as [ | m l IH]; intros t enriched H; simpl in H.
  - injection H as <-. constructor.
  - destruct (Utils.enrich parse_date (clock t) m) as [m' [[] | e]] eqn:Hm.
    + destruct (enrich_all parse_date clock (S t) l) as [l' r] eqn:Hl.
      injection H as <- ->. constructor; [ | exact (IH _ _ Hl)].
      apply UtilsFacts.enrich_message_ok in Hm as (d & text & _ & _ & _ & _ & _ & Hid).
      eexists. exact Hid.
    + discriminate.
Qed.

(** C3 (amended): once the batch is enriched, Tier 1 leaves as many
    messages as the batch has distinct ids; when the collection is not
    fresh, Tier 2 is applied to what Tier 1 left and its result is the
    result of the filter; when the collection is fresh, neither tier is
    applied and every enriched message is the result. *)
Theorem filter_new_messages_tiers (clock : nat -> datetime)
    (messages enriched : list (gmap string pyval)) :
  enrich_all parse_date clock 0 messages = (enriched, Ok tt) ->
  exists unique,
    fst (_remove_internal_duplicates enriched) = Ok unique
    /\ length unique = size (ids_of enriched)
    /\ (is_fresh_collection = true ->
        fst (filter_new_messages parse_date db_get_existing_message_ids
               vs_get_existing_message_ids is_fresh_collection clock messages)
        = Ok enriched)
    /\ (is_fresh_collection = false ->
        forall new_messages,
          fst (_remove_external_duplicates db_get_existing_message_ids
                 vs_get_existing_message_ids unique) = Ok new_messages ->
          fst (filter_new_messages parse_date db_get_existing_message_ids
                 vs_get_existing_message_ids is_fresh_collection clock messages)
          = Ok new_messages).
Proof.
  intros Henrich.
  destruct (unique_from_count ∅ enriched (enrich_all_has_id _ _ _ _ Henrich))
    as (unique & Hu & Hlen).
  exists unique. split_and!.
  - unfold _remove_internal_duplicates. rewrite Hu. reflexivity.
  - rewrite Hlen. f_equal. generalize (ids_of enriched). intros X. set_solver.
  - intros ->. unfold filter_new_messages. rewrite Henrich. reflexivity.
  - intros -> new_messages Hnew. unfold filter_new_messages. rewrite Henrich.
    unfold _remove_internal_duplicates. rewrite Hu.
    destruct (_remove_external_duplicates _ _ unique) as [[new' | e] log2];
      simpl in Hnew; [ | discriminate].
    injection Hnew as ->. reflexivity.
Qed.

Lemma enrich_all_enriched (clock : nat -> datetime) (t : nat)
    (messages enriched : list (gmap string pyval)) :
  enrich_all parse_date clock t messages = (enriched, Ok tt) ->
  Forall (fun e => forall now, Utils.enrich parse_date now e = (e, Ok tt)) enriched.
Proof.
  revert t enriched. induction messages as [ | m l IH]; intros t enriched H; simpl in H.
  - injection H as <-. constructor.
  - destruct (Utils.enrich parse_date (clock t) m) as [m' [[] | e]] eqn:Hm; [ | discriminate].
    destruct (enrich_all parse_date clock (S t) l) as [l' r] eqn:Hl.
    injection H as <- ->. constructor; [ | exact (IH _ _ Hl)].
    intros now. exact (UtilsFacts.enrich_enriched _ _ _ _ _ _ Hm).
Qed.

(** On enriched messages the fallback filter is Tier 1. *)
Lemma simple_loop_unique_from (clock : nat -> datetime) (t : nat) (seen : gset pyval)
    (enriched : list (gmap string pyval)) :
  Forall (fun e => forall now, Utils.enrich parse_date now e = (e, Ok tt)) enriched ->
  simple_loop parse_date clock t seen enriched = unique_from seen enriched.
Proof.
  intros H. revert t seen. induction H as [ | e l He _ IH]; intros t seen; simpl.
  - reflexivity.
  - rewrite He. destruct (e !! "message_id") as [id | ]; [ | reflexivity].
    destruct (bool_decide (id ∈ seen)); rewrite IH; reflexivity.
Qed.

(** When a store raises, the batch is not lost: the result is what
    Tier 1 leaves of the enriched messages. *)
Lemma filter_new_messages_fallback (clock : nat -> datetime)
    (messages enriched unique : list (gmap string pyval)) (e : exn) (log : list log_event) :
  enrich_all parse_date clock 0 messages = (enriched, Ok tt) ->
  unique_from ∅ enriched = Ok unique ->
  _remove_external_duplicates db_get_existing_message_ids vs_get_existing_message_ids unique
  = (Raise e, log) ->
  fst (filter_new_messages parse_date db_get_existing_message_ids
         vs_get_existing_message_ids false clock messages) = Ok unique.
Proof.
  intros Henrich Hu Hext. unfold filter_new_messages. rewrite Henrich.
  unfold _remove_internal_duplicates. rewrite Hu, Hext.
  unfold _simple_duplicate_filter.
  rewrite simple_loop_unique_from by exact (enrich_all_enriched _ _ _ _ Henrich).
  rewrite Hu. reflexivity.
Qed.

End manager_facts.
End DedupFacts.

(** ** Batch processing *)

Module ProcessorFacts.
Import Processor.
Local Open Scope list_scope.

(** The batch path follows the thresholds, bounds included. *)
Lemma calculate_severity_thresholds (a : analysis) :
  _calculate_severity a =
    if PrimFloat.leb 0.8 (toxicity_score a) || PrimFloat.leb 0.9 (spam_probability a)
    then "CRITICAL"
    else if PrimFloat.leb 0.6 (toxicity_score a) || PrimFloat.leb 0.7 (spam_probability a)
    then "HIGH"
    else if PrimFloat.leb 0.4 (toxicity_score a) || PrimFloat.leb 0.5 (spam_probability a)
    then "MEDIUM"
    else "LOW".
Proof. reflexivity. Qed.

(** C6: at a toxicity of exactly 0.8 the batch path answers CRITICAL
    and the real-time path answers HIGH. *)
Theorem severity_at_the_bound :
  _calculate_severity (mk_analysis 0.8 0 "negative" [] true "timeout" "" PNone) = "CRITICAL"
  /\ Realtime._calculate_priority (mk_analysis 0.8 0 "negative" [] true "timeout" "" PNone)
     = "HIGH".
Proof. split; vm_compute; reflexivity. Qed.

Section processor_facts.
Variable parse_date : string -> option datetime.
Variable world : Type.
Variable analyze_message : gmap string pyval -> world -> analysis * world.
Variable get_embedding : pyval -> world -> option (list float) * world.
Variable vs_add_message :
  gmap string pyval -> analysis -> list float -> world -> result string * world.
Variable db_save_analysis :
  gmap string pyval -> analysis -> string -> world -> result bool * world.

Abbreviation process_message :=
  (process_message parse_date world analyze_message get_embedding vs_add_message
     db_save_analysis).
Abbreviation _save_with_verification :=
  (_save_with_verification world vs_add_message db_save_analysis).

Abbreviation _process_single_batch :=
  (_process_single_batch parse_date world analyze_message get_embedding vs_add_message
     db_save_analysis).
Abbreviation process_chunks :=
  (process_chunks parse_date world analyze_message get_embedding vs_add_message
     db_save_analysis).
Abbreviation process_messages_batch :=
  (process_messages_batch parse_date world analyze_message get_embedding vs_add_message
     db_save_analysis).

(** [process_message] up to the embedding, on a message that enrichment
    accepts and that has a text. *)
Lemma process_message_enriched (now : datetime) (m e : gmap string pyval)
    (alert_ids : gset pyval) (w w1 w2 : world) (id text : pyval) (a0 : analysis)
    (emb : option (list float)) :
  Utils.enrich parse_date now m = (e, Ok tt) ->
  e !! "message_id" = Some id ->
  e !! "text" = Some text ->
  analyze_message e w = (a0, w1) ->
  get_embedding text w1 = (emb, w2) ->
  process_message now m alert_ids w =
    let a := set_message_id a0 id in
    match has_embedding emb with
    | Some vector =>
        let '(_, w3, tr) := _save_with_verification e a vector w2 in
        match bind (alert_condition e a alert_ids)
                (fun c => if c then bind (_create_alert e a) (fun al => Ok (Some al))
                          else Ok None) with
        | Ok (Some al) => (Some al, {[message_id a]} ∪ alert_ids, w3, tr)
        | Ok None => (None, alert_ids, w3, tr)
        | Raise err => (None, alert_ids, w3, tr ++ [LogProcessError err])
        end
    | None => (None, alert_ids, w2, [])
    end.
Proof.
  intros He Hid Htext Ha Hemb. unfold Processor.process_message.
  rewrite He, Hid.
  apply UtilsFacts.enrich_message_ok in He as (d & t & _ & _ & _ & Hu & _ & _).
  rewrite Hu. simpl. rewrite Ha, Htext, Hemb. reflexivity.
Qed.

(** The store calls of [_save_with_verification]: the vector store
    first, the relational store only with the point id that the vector
    store returned; a failure of the relational store is printed, and
    no further call follows it. *)
Lemma save_with_verification_writes (message : gmap string pyval) (a : analysis)
    (vector : list float) (w : world) :
  let tr := snd (_save_with_verification message a vector w) in
  match vs_add_message message a vector w with
  | (Ok p, w1) =>
      if String.eqb p "" then filter is_write tr = [VectorAdd (message_id a)]
      else filter is_write tr = [VectorAdd (message_id a); DbSave (message_id a) p]
           /\ match db_save_analysis message a p w1 with
              | (Ok true, _) => tr = [VectorAdd (message_id a); DbSave (message_id a) p]
              | (Ok false, _) => LogInconsistency ∈ tr
              | (Raise err, _) => LogSaveError err ∈ tr
              end
  | (Raise err, _) =>
      filter is_write tr = [VectorAdd (message_id a)] /\ LogSaveError err ∈ tr
  end.
Proof.
  unfold Processor._save_with_verification.
  destruct (vs_add_message message a vector w) as [[p | err] w1]; simpl.
  - destruct (String.eqb p ""); simpl; [reflexivity | ].
    destruct (db_save_analysis message a p w1) as [[[ | ] | err] w2]; simpl;
      (split; [reflexivity | ]); try reflexivity; set_solver.
  - split; [reflexivity | set_solver].
Qed.

Lemma filter_is_write_app_log (tr : list event) (err : exn) :
  filter is_write (tr ++ [LogProcessError err]) = filter is_write tr.
Proof. rewrite filter_app. simpl. apply app_nil_r. Qed.

(** C7: for a message that enrichment accepts: without an embedding no
    event at all, so no call to either store; with one, the vector
    store is called first and the relational store only when the
    vector store returned a point id, with that id; when the
    relational store then fails, the failure is printed and the calls
    to the stores stay these two. *)
Theorem persistence_needs_embedding_and_vector_first (now : datetime)
    (m e : gmap string pyval) (alert_ids : gset pyval) (w w1 w2 : world)
    (id text : pyval) (a0 : analysis) (emb : option (list float)) :
  Utils.enrich parse_date now m = (e, Ok tt) ->
  e !! "message_id" = Some id ->
  e !! "text" = Some text ->
  analyze_message e w = (a0, w1) ->
  get_embedding text w1 = (emb, w2) ->
  let tr := snd (process_message now m alert_ids w) in
  let a := set_message_id a0 id in
  match has_embedding emb with
  | None => tr = []
  | Some vector =>
      match vs_add_message e a vector w2 with
      | (Ok p, w3) =>
          if String.eqb p "" then filter is_write tr = [VectorAdd id]
          else filter is_write tr = [VectorAdd id; DbSave id p]
               /\ match db_save_analysis e a p w3 with
                  | (Ok true, _) => True
                  | (Ok false, _) => LogInconsistency ∈ tr
                  | (Raise err, _) => LogSaveError err ∈ tr
                  end
      | (Raise err, _) => filter is_write tr = [VectorAdd id] /\ LogSaveError err ∈ tr
      end
  end.
Proof.
  intros He Hid Htext Ha Hemb tr a. subst tr.
  rewrite (process_message_enriched now m e alert_ids w w1 w2 id text a0 emb) by assumption.
  simpl. fold a.
  destruct (has_embedding emb) as [vector | ]; [ | reflexivity].
  pose proof (save_with_verification_writes e a vector w2) as Hw. simpl in Hw.
  destruct (_save_with_verification e a vector w2) as [[pid w3] tr] eqn:Hsave.
  simpl in Hw.
  assert (Hgoal : forall tr', filter is_write tr' = filter is_write tr ->
                   (forall ev, ev ∈ tr -> ev ∈ tr') ->
    match vs_add_message e a vector w2 with
    | (Ok p, w3) =>
        if String.eqb p "" then filter is_write tr' = [VectorAdd id]
        else filter is_write tr' = [VectorAdd id; DbSave id p]
             /\ match db_save_analysis e a p w3 with
                | (Ok true, _) => True
                | (Ok false, _) => LogInconsistency ∈ tr'
                | (Raise err, _) => LogSaveError err ∈ tr'
                end
    | (Raise err, _) => filter is_write tr' = [VectorAdd id] /\ LogSaveError err ∈ tr'
    end).
  { intros tr' Hf Hin.
    destruct (vs_add_message e a vector w2) as [[p | err] w3'].
    - destruct (String.eqb p "").
      + rewrite Hf. exact Hw.
      + destruct Hw as [Hw1 Hw2]. split; [rewrite Hf; exact Hw1 | ].
        destruct (db_save_analysis e a p w3') as [[[ | ] | err] w4]; [exact I | | ];
          apply Hin, Hw2.
    - destruct Hw as [Hw1 Hw2]. split; [rewrite Hf; exact Hw1 | apply Hin, Hw2]. }
  destruct (bind _ _) as [[al | ] | err]; simpl; apply Hgoal; try done.
  - apply filter_is_write_app_log.
  - set_solver.
Qed.

(** One turn of the loop, for a message that enrichment accepts, with a
    string as user name and a text: an alert is produced exactly when
    the embedding service returned an embedding, the analysis requires
    action, the id is not in [alert_ids] and the lower-cased user name
    is not the streamer's. *)
Lemma process_message_alert_iff (now : datetime) (m e : gmap string pyval)
    (alert_ids : gset pyval)
    (w w1 w2 : world) (id text : pyval) (u : string) (a0 : analysis)
    (emb : option (list float)) :
  Utils.enrich parse_date now m = (e, Ok tt) ->
  e !! "message_id" = Some id ->
  e !! "username" = Some (PStr u) ->
  e !! "text" = Some text ->
  analyze_message e w = (a0, w1) ->
  get_embedding text w1 = (emb, w2) ->
  is_Some (fst (fst (fst (process_message now m alert_ids w))))
  <-> is_Some (has_embedding emb)
      /\ requires_action a0 = true
      /\ (id ∉ alert_ids)
      /\ lower u <> streamer_username.
Proof.
  intros He Hid Hu Htext Ha Hemb.
  rewrite (process_message_enriched now m e alert_ids w w1 w2 id text a0 emb) by assumption.
  simpl.
  destruct (has_embedding emb) as [vector | ];
    [ | simpl; split; [intros [? [=]] | intros ([? [=]] & _)]].
  destruct (_save_with_verification e _ vector w2) as [[pid w3] tr].
  unfold alert_condition, _create_alert, getitem. simpl. rewrite Hu, Htext.
  pose proof (UtilsFacts.enrich_message_ok _ _ _ _ _ He)
    as (d & t & _ & Hstr & _ & _ & _ & _).
  rewrite Hstr.
  destruct (requires_action a0); simpl;
    [ | split; [intros [? [=]] | intros (_ & [=] & _)]].
  destruct (bool_decide_reflect (id ∈ alert_ids)) as [Hin | Hin]; simpl;
    [split; [intros [? [=]] | intros (_ & _ & ? & _); done] | ].
  destruct (String.eqb_spec (lower u) streamer_username) as [Heq | Hne]; simpl.
  - split; [intros [? [=]] | intros (_ & _ & _ & ?); done].
  - split; [intros _; split_and!; eauto | intros _; eauto].
Qed.

Lemma save_with_verification_shape (message : gmap string pyval) (a : analysis)
    (vector : list float) (w : world) :
  writes_shape (filter is_write (snd (_save_with_verification message a vector w))).
Proof.
  unfold Processor._save_with_verification.
  destruct (vs_add_message message a vector w) as [[p | err] w1]; simpl.
  - destruct (String.eqb_spec p "") as [-> | Hp]; simpl; [constructor | ].
    destruct (db_save_analysis message a p w1) as [[[ | ] | err] w2]; simpl;
      constructor; exact Hp.
  - constructor.
Qed.

(** For every message: no call, or the vector store alone, or the
    vector store and then the relational store with a point id. *)
Lemma process_message_writes (now : datetime) (m : gmap string pyval)
    (alert_ids : gset pyval) (w : world) :
  writes_shape (filter is_write (snd (process_message now m alert_ids w))).
Proof.
  unfold Processor.process_message.
  destruct (Utils.enrich parse_date now m) as [e [[] | err]]; [ | constructor].
  destruct (e !! "message_id") as [id | ]; [ | constructor].
  destruct (negb _); [constructor | ].
  destruct (analyze_message e w) as [a0 w1].
  destruct (e !! "text") as [text | ]; [ | constructor].
  destruct (get_embedding text w1) as [emb w2].
  destruct (has_embedding emb) as [vector | ]; [ | constructor].
  pose proof (save_with_verification_shape e (set_message_id a0 id) vector w2) as Hs.
  destruct (_save_with_verification e (set_message_id a0 id) vector w2) as [[pid w3] tr].
  simpl in Hs.
  destruct (bind _ _) as [[al | ] | err]; simpl; try exact Hs.
  rewrite filter_app. simpl. rewrite app_nil_r. exact Hs.
Qed.

Lemma process_single_batch_app (clock : nat -> datetime) (t : nat)
    (l1 l2 : list (gmap string pyval)) (alert_ids : gset pyval) (w : world) :
  _process_single_batch clock t (l1 ++ l2) alert_ids w =
    let '(alerts1, ids1, w1, tr1) := _process_single_batch clock t l1 alert_ids w in
    let '(alerts2, ids2, w2, tr2) :=
      _process_single_batch clock (t + length l1) l2 ids1 w1 in
    (alerts1 ++ alerts2, ids2, w2, tr1 ++ tr2).
Proof.
  revert t alert_ids w. induction l1 as [ | m l1 IH]; intros t alert_ids w; simpl.
  - rewrite Nat.add_0_r.
    destruct (_process_single_batch clock t l2 alert_ids w) as [[[? ?] ?] ?]. reflexivity.
  - destruct (process_message (clock t) m alert_ids w) as [[[al ids1] w1] tr1].
    rewrite IH. replace (t + S (length l1)) with (S t + length l1) by lia.
    destruct (_process_single_batch clock (S t) l1 ids1 w1) as [[[alerts1 ids2] w2] tr2].
    destruct (_process_single_batch clock (S t + length l1) l2 ids2 w2)
      as [[[alerts3 ids3] w3] tr3].
    destruct al; simpl; rewrite app_assoc; reflexivity.
Qed.

(** With a positive batch size the chunks cover the messages: what
    [process_messages_batch] does is what one pass over all the
    messages does. *)
Lemma process_chunks_all (fuel batch_size : nat) (clock : nat -> datetime) (t : nat)
    (messages : list (gmap string pyval)) (alert_ids : gset pyval) (w : world) :
  0 < batch_size -> length messages <= fuel ->
  process_chunks fuel batch_size clock t messages alert_ids w
  = _process_single_batch clock t messages alert_ids w.
Proof.
  intros Hb. revert t messages alert_ids w.
  induction fuel as [ | fuel IH]; intros t messages alert_ids w Hlen.
  - destruct messages; [reflexivity | simpl in Hlen; lia].
  - destruct messages as [ | m rest]; [reflexivity | ].
    assert (Hsplit : _process_single_batch clock t (m :: rest) alert_ids w
                     = _process_single_batch clock t
                         (take batch_size (m :: rest) ++ drop batch_size (m :: rest))
                         alert_ids w) by (rewrite take_drop; reflexivity).
    rewrite Hsplit, process_single_batch_app. clear Hsplit.
    cbn [Processor.process_chunks]. cbv zeta.
    destruct (_process_single_batch clock t (take batch_size (m :: rest)) alert_ids w)
      as [[[alerts1 ids1] w1] tr1].
    rewrite IH; [reflexivity | ].
    rewrite length_drop. simpl in *. lia.
Qed.

(** With a positive batch size, [process_messages_batch] is one pass
    over all the messages that starts with no id in [alert_ids]. *)
Lemma process_messages_batch_one_pass (batch_size : nat) (clock : nat -> datetime)
    (messages : list (gmap string pyval)) (w : world) :
  0 < batch_size ->
  process_messages_batch batch_size clock messages w
  = (let '(alerts, _, w', tr) := _process_single_batch clock 0 messages ∅ w in
     (alerts, w', tr)).
Proof.
  intros Hb. unfold Processor.process_messages_batch.
  rewrite process_chunks_all by (exact Hb || lia). reflexivity.
Qed.

(** The alert of a message carries the id of its analysis. *)
Lemma alert_condition_create_alert (e : gmap string pyval) (a : analysis)
    (alert_ids : gset pyval) (al : alert) :
  bind (alert_condition e a alert_ids)
    (fun c => if c then bind (_create_alert e a) (fun al => Ok (Some al)) else Ok None)
  = Ok (Some al) ->
  alert_message_id al = message_id a.
Proof.
  intros Hb.
  destruct (alert_condition _ _ _) as [[ | ] | ]; simpl in Hb; try discriminate.
  unfold _create_alert in Hb.
  destruct (getitem e "username"); simpl in Hb; [ | discriminate].
  destruct (getitem e "text"); simpl in Hb; [ | discriminate].
  destruct (getitem e "timestamp_str"); simpl in Hb; [ | discriminate].
  injection Hb as <-. reflexivity.
Qed.

(** What one message does to [alert_ids]: the id of its alert is
    added, and nothing else is. *)
Lemma process_message_alert_ids (now : datetime) (m : gmap string pyval)
    (alert_ids : gset pyval) (w : world) :
  snd (fst (fst (process_message now m alert_ids w)))
  = match fst (fst (fst (process_message now m alert_ids w))) with
    | Some al => {[alert_message_id al]} ∪ alert_ids
    | None => alert_ids
    end.
Proof.
  unfold Processor.process_message.
  destruct (Utils.enrich parse_date now m) as [e [[] | err]]; [ | reflexivity].
  destruct (e !! "message_id") as [id | ]; [ | reflexivity].
  destruct (negb _); [reflexivity | ].
  destruct (analyze_message e w) as [a0 w1].
  destruct (e !! "text") as [text | ]; [ | reflexivity].
  destruct (get_embedding text w1) as [emb w2].
  destruct (has_embedding emb) as [vector | ]; [ | reflexivity].
  destruct (_save_with_verification e (set_message_id a0 id) vector w2) as [[pid w3] tr].
  destruct (bind _ _) as [[al | ] | err] eqn:Hb; try reflexivity.
  apply alert_condition_create_alert in Hb. simpl. rewrite Hb. reflexivity.
Qed.

(** After a pass, [alert_ids] holds the ids it held before and the
    ids of the alerts of the pass. *)
Lemma process_single_batch_alert_ids (clock : nat -> datetime) (t : nat)
    (batch : list (gmap string pyval)) (alert_ids : gset pyval) (w : world) (id : pyval) :
  id ∈ snd (fst (fst (_process_single_batch clock t batch alert_ids w)))
  <-> id ∈ alert_ids
      \/ id ∈ (alert_message_id
                 <$> fst (fst (fst (_process_single_batch clock t batch alert_ids w)))).
Proof.
  revert t alert_ids w. induction batch as [ | m rest IH]; intros t alert_ids w.
  - simpl. split; [auto | intros [H | H]; [exact H | inversion H]].
  - cbn [Processor._process_single_batch].
    pose proof (process_message_alert_ids (clock t) m alert_ids w) as Hm.
    destruct (process_message (clock t) m alert_ids w) as [[[al ids1] w1] tr1].
    specialize (IH (S t) ids1 w1).
    destruct (_process_single_batch clock (S t) rest ids1 w1) as [[[alerts ids2] w2] tr2].
    simpl in *. rewrite IH, Hm. destruct al as [al | ].
    + rewrite fmap_cons, elem_of_cons, elem_of_union, elem_of_singleton. tauto.
    + tauto.
Qed.

(** C5 (amended): in a run of [process_messages_batch], a message
    that enrichment accepts, with a string as user name and a text,
    yields an alert exactly when the embedding service returned an
    embedding for it, its analysis requires action, no alert that the
    run produced for the messages before it has its id, and its
    lower-cased user name is not the streamer's; what the two stores
    answer plays no part. The alerts of the run are those of the
    messages before, then this alert if there is one, then those of
    the messages after. *)
Theorem alert_iff (batch_size : nat) (clock : nat -> datetime)
    (before after : list (gmap string pyval)) (m e : gmap string pyval)
    (w w0 w1 w2 : world) (alerts_before : list alert) (tr : list event)
    (id text : pyval) (u : string) (a0 : analysis) (emb : option (list float)) :
  0 < batch_size ->
  process_messages_batch batch_size clock before w = (alerts_before, w0, tr) ->
  Utils.enrich parse_date (clock (length before)) m = (e, Ok tt) ->
  e !! "message_id" = Some id ->
  e !! "username" = Some (PStr u) ->
  e !! "text" = Some text ->
  analyze_message e w0 = (a0, w1) ->
  get_embedding text w1 = (emb, w2) ->
  exists (al : option alert) (alerts_after : list alert),
    fst (fst (process_messages_batch batch_size clock (before ++ [m]) w))
    = alerts_before ++ option_list al
    /\ fst (fst (process_messages_batch batch_size clock (before ++ m :: after) w))
       = alerts_before ++ option_list al ++ alerts_after
    /\ (is_Some al
        <-> is_Some (has_embedding emb)
            /\ requires_action a0 = true
            /\ (id ∉ (alert_message_id <$> alerts_before))
            /\ lower u <> streamer_username)
    /\ (forall x, al = Some x -> alert_message_id x = id).
Proof.
  intros Hb Hrun He Hid Hu Htext Ha Hemb.
  rewrite process_messages_batch_one_pass in Hrun by exact Hb.
  rewrite !process_messages_batch_one_pass by exact Hb.
  rewrite !process_single_batch_app. simpl "+".
  pose proof (process_single_batch_alert_ids clock 0 before ∅ w id) as Hids.
  destruct (_process_single_batch clock 0 before ∅ w) as [[[alerts1 ids1] w0'] tr1].
  injection Hrun as -> -> ->. simpl in Hids.
  cbn [Processor._process_single_batch].
  pose proof (process_message_alert_iff (clock (length before)) m e ids1 w0 w1 w2
                id text u a0 emb He Hid Hu Htext Ha Hemb) as Hiff.
  pose proof (process_message_enriched (clock (length before)) m e
                ids1 w0 w1 w2 id text a0 emb He Hid Htext Ha Hemb) as Hpm.
  assert (Hal : forall x, fst (fst (fst (process_message (clock (length before)) m ids1 w0)))
                          = Some x -> alert_message_id x = id).
  { intros x. rewrite Hpm. simpl.
    destruct (has_embedding emb) as [vector | ]; [ | discriminate].
    destruct (_save_with_verification e _ vector w2) as [[pid w3] tr2].
    destruct (bind _ _) as [[al | ] | err] eqn:Hbind; simpl; try discriminate.
    intros [= ->]. apply alert_condition_create_alert in Hbind. exact Hbind. }
  destruct (process_message (clock (length before)) m ids1 w0) as [[[al ids2] w3] tr2].
  simpl in Hiff, Hal.
  destruct (_process_single_batch clock (S (length before)) after ids2 w3)
    as [[[alerts2 ids3] w4] tr3].
  exists al, alerts2. split_and!.
  - destruct al; reflexivity.
  - destruct al; reflexivity.
  - rewrite Hiff. rewrite Hids. rewrite elem_of_empty. tauto.
  - exact Hal.
Qed.

End processor_facts.
End ProcessorFacts.

(** ** The line parser *)

Module ParserFacts.
Import Regex Parser.
Local Open Scope list_scope.

Section parser_facts.
Variable strptime : string -> string -> result datetime.

(** [strptime] raises nothing but [ValueError]. *)
Hypothesis strptime_raises : forall s fmt e, strptime s fmt = Raise e -> e = ValueError.

Lemma parse_timestamp_with_returns (now : datetime) (formats : list string) (ts : string) :
  exists r, parse_timestamp_with strptime now formats ts = Ok r.
Proof.
  induction formats as [ | fmt rest IH]; simpl; [eexists; reflexivity | ].
  destruct (strptime ts fmt) as [t | e] eqn:E.
  - destruct (String.eqb fmt "%H:%M:%S"); eexists; reflexivity.
  - rewrite (strptime_raises _ _ _ E). exact IH.
Qed.

Lemma try_patterns_returns (now : datetime) (i : nat) (pats : list regex) (line : string) :
  exists r, try_patterns strptime now i pats line = Ok r.
Proof.
  revert i. induction pats as [ | p rest IH]; intros i; simpl; [eexists; reflexivity | ].
  destruct (re_match p line) as [[ | ts [ | u [ | t groups]]] | ]; try apply IH.
  destruct (parse_timestamp_with_returns now timestamp_formats ts) as [[d | ] Hd];
    unfold _parse_timestamp; rewrite Hd; [eexists; reflexivity | apply IH].
Qed.

(** A time stamp that no format accepts gives [None]. *)
Lemma parse_timestamp_with_malformed (now : datetime) (formats : list string) (ts : string) :
  (forall fmt, fmt ∈ formats -> strptime ts fmt = Raise ValueError) ->
  parse_timestamp_with strptime now formats ts = Ok None.
Proof.
  induction formats as [ | fmt rest IH]; intros H; simpl; [reflexivity | ].
  rewrite (H fmt) by (left). apply IH. intros f Hf. apply H. right. exact Hf.
Qed.

(** C9: the parser returns and does not raise; a pattern that matches
    with a time stamp that no format accepts is passed over and the
    patterns after it are tried; when no pattern gives a message, the
    line is rejected in debug mode and, outside of it, a line with a
    colon gives the message of user [bot_or_unknown] at the current
    time with the text after the first colon, and a line without one
    is rejected. *)
Theorem parse_line_total (now : datetime) (line : string) (debug_mode : bool)
    (st : debug_stats) :
  (exists r, fst (_parse_line strptime now line debug_mode st) = Ok r)
  /\ (forall i pattern rest ts u t groups,
        re_match pattern line = Some (ts :: u :: t :: groups) ->
        (forall fmt, fmt ∈ timestamp_formats -> strptime ts fmt = Raise ValueError) ->
        try_patterns strptime now i (pattern :: rest) line
        = try_patterns strptime now (S i) rest line)
  /\ (try_patterns strptime now 0 patterns line = Ok None ->
      _parse_line strptime now line debug_mode st
      = (if debug_mode then Ok None
         else if contains_char ":" line then Ok (Some (fallback_message now line))
         else Ok None, st))
  /\ fallback_message now line !! "username" = Some (PStr "bot_or_unknown")
  /\ fallback_message now line !! "timestamp" = Some (PDatetime now)
  /\ fallback_message now line !! "text" = Some (PStr (strip (after_colon line))).
Proof.
  split_and!.
  - unfold _parse_line.
    destruct (try_patterns_returns now 0 patterns line) as [[[i m] | ] ->].
    + eexists. reflexivity.
    + destruct debug_mode; [eexists; reflexivity | ].
      destruct (contains_char ":" line); eexists; reflexivity.
  - intros i pattern rest ts u t groups Hmatch Hbad. simpl. rewrite Hmatch.
    unfold _parse_timestamp. rewrite (parse_timestamp_with_malformed now _ ts Hbad).
    reflexivity.
  - intros Hnone. unfold _parse_line. rewrite Hnone.
    destruct debug_mode; [reflexivity | ].
    destruct (contains_char ":" line); reflexivity.
  - reflexivity.
  - reflexivity.
  - reflexivity.
Qed.

End parser_facts.

Lemma model_strptime_raises (s fmt : string) (e : exn) :
  Strptime.strptime s fmt = Raise e -> e = ValueError.
Proof. unfold Strptime.strptime. destruct (Strptime.parse s fmt); congruence. Qed.

End ParserFacts.

(** ** The file tailer *)

Module RealtimeFacts.
Import Processor Realtime.
Local Open Scope list_scope.

Lemma contains_char_cons (c x : ascii) (s : string) :
  contains_char c (String x s) = Ascii.eqb c x || contains_char c s.
Proof. reflexivity. Qed.

Lemma readlines_from_char (c : ascii) (cur s : string) :
  Ascii.eqb c "010" = false -> Ascii.eqb c "013" = false ->
  readlines_from cur (String c s) = readlines_from (cur +:+ String c "") s.
Proof. intros E1 E2. cbn [readlines_from]. rewrite E1, E2. reflexivity. Qed.

Lemma readlines_from_line_feed (cur s : string) :
  readlines_from cur (String "010" s) = (cur +:+ String "010" "") :: readlines_from "" s.
Proof. reflexivity. Qed.

Lemma readlines_from_line (l cur rest : string) :
  one_line l ->
  readlines_from cur (l +:+ String "010" rest)
  = (cur +:+ with_line_feed l) :: readlines_from "" rest.
Proof.
  unfold with_line_feed. revert cur.
  induction l as [ | c l IH]; intros cur [Hn Hr]; StringFacts.app_simpl.
  - apply readlines_from_line_feed.
  - rewrite contains_char_cons in Hn, Hr.
    apply orb_false_iff in Hn as [E1 Hn]. apply orb_false_iff in Hr as [E2 Hr].
    rewrite Ascii.eqb_sym in E1. rewrite Ascii.eqb_sym in E2.
    rewrite readlines_from_char by assumption.
    rewrite IH by (split; assumption).
    rewrite StringFacts.append_assoc. reflexivity.
Qed.

(** Reading the text of [lines] gives [lines]. *)
Lemma readlines_join_lines (lines : list string) :
  Forall one_line lines -> readlines (join_lines lines) = with_line_feed <$> lines.
Proof.
  unfold readlines. induction 1 as [ | l rest Hl _ IH]; simpl; [reflexivity | ].
  rewrite readlines_from_line by exact Hl. rewrite IH. reflexivity.
Qed.

Lemma drop_chars_append (a b : string) : Regex.drop_chars (String.length a) (a +:+ b) = b.
Proof. induction a as [ | c a IH]; [reflexivity | exact IH]. Qed.

Lemma drop_chars_all (a : string) : Regex.drop_chars (String.length a) a = "".
Proof. induction a as [ | c a IH]; [reflexivity | exact IH]. Qed.

Section moderator_facts.
Variable strptime : string -> string -> result datetime.
Variable world : Type.
Variable analyze_message : gmap string pyval -> world -> analysis * world.
Variable get_embedding : pyval -> world -> option (list float) * world.
Variable vs_add_message :
  gmap string pyval -> analysis -> list float -> world -> result string * world.
Variable db_save_analysis :
  gmap string pyval -> analysis -> string -> world -> result bool * world.
Variable db_get_existing_message_ids :
  list (gmap string pyval) -> world -> result (gset string) * world.

Implicit Type st : moderator world.

Abbreviation _process_message_batch_optimized :=
  (_process_message_batch_optimized world analyze_message get_embedding vs_add_message
     db_save_analysis db_get_existing_message_ids).
Abbreviation process_new_lines :=
  (process_new_lines strptime world analyze_message get_embedding vs_add_message
     db_save_analysis db_get_existing_message_ids).
Abbreviation process_final_try :=
  (process_final_try world analyze_message get_embedding vs_add_message db_save_analysis).
Abbreviation process_final :=
  (process_final world analyze_message get_embedding vs_add_message db_save_analysis).

(** Processing a batch leaves the cursors as they are. *)
Lemma quick_message_check_positions (m : gmap string pyval) st :
  file_positions (snd (_quick_message_check world m st)) = file_positions st.
Proof.
  unfold _quick_message_check.
  destruct (realtime_key m); [ | reflexivity].
  destruct (bool_decide _); [reflexivity | ].
  destruct (content_hash m); [ | reflexivity].
  destruct (bool_decide _); reflexivity.
Qed.

Lemma prefilter_positions (l : list (gmap string pyval)) st :
  file_positions (snd (prefilter world l st)) = file_positions st.
Proof.
  revert st. induction l as [ | m l IH]; intros st; simpl; [reflexivity | ].
  pose proof (quick_message_check_positions m st) as Hq.
  destruct (_quick_message_check world m st) as [[[ | ] | e] st1]; simpl in Hq.
  - rewrite IH. simpl. exact Hq.
  - specialize (IH st1). destruct (prefilter world l st1) as [[u | e] st2];
      simpl in *; congruence.
  - exact Hq.
Qed.

Lemma process_final_try_positions (now : datetime) (m : gmap string pyval) st :
  file_positions (snd (process_final_try now m st)) = file_positions st.
Proof.
  unfold Realtime.process_final_try.
  destruct (realtime_key m) as [key | e0]; [ | reflexivity].
  destruct (analyze_message m (services st)) as [a w1].
  destruct (getitem m "text") as [text | e1]; [ | reflexivity].
  destruct (get_embedding _ w1) as [emb w2].
  destruct (has_embedding emb); [ | reflexivity].
  destruct (vs_add_message _ _ _ w2) as [[p | e] w3]; [ | reflexivity].
  destruct (db_save_analysis _ _ _ w3) as [[b | e] w4]; [ | reflexivity].
  destruct (requires_action a); [ | reflexivity].
  destruct (getitem m "username") as [[ | | u | ] | ]; try reflexivity.
  destruct (negb _); [ | reflexivity].
  destruct (_create_alert now m a); reflexivity.
Qed.

Lemma process_final_positions (clock : nat -> datetime) (t : nat)
    (l : list (gmap string pyval)) st :
  file_positions (snd (process_final clock t l st)) = file_positions st.
Proof.
  revert t st. induction l as [ | m l IH]; intros t st; simpl; [reflexivity | ].
  pose proof (process_final_try_positions (clock t) m st) as Hp.
  destruct (process_final_try (clock t) m st) as [[al | e] st1]; simpl in Hp.
  - specialize (IH (S t) st1).
    destruct (process_final clock (S t) l st1) as [alerts st2]. simpl in *. congruence.
  - rewrite IH. simpl. exact Hp.
Qed.

Lemma process_batch_positions (clock : nat -> datetime) (t : nat)
    (l : list (gmap string pyval)) st :
  file_positions (snd (_process_message_batch_optimized clock t l st)) = file_positions st.
Proof.
  unfold Realtime._process_message_batch_optimized.
  destruct l as [ | m l]; [reflexivity | ].
  pose proof (prefilter_positions (m :: l) st) as Hp.
  destruct (prefilter world (m :: l) st) as [[[ | u us] | e] st1]; simpl in Hp;
    try exact Hp.
  destruct (db_get_existing_message_ids _ _) as [[ids | e] w]; [ | exact Hp].
  destruct (final_check ids (u :: us)) as [[ | f fs] | e]; try exact Hp.
  match goal with
  | |- context [process_final clock t ?l ?s] =>
      pose proof (process_final_positions clock t l s) as Hf;
      destruct (process_final clock t l s) as [alerts st4]
  end.
  simpl in Hf. destruct alerts; simpl; congruence.
Qed.

Lemma after_batch_positions (clock : nat -> datetime) (t : nat)
    (l : list (gmap string pyval)) st :
  file_positions
    (match _process_message_batch_optimized clock t l st with
     | (Ok _, st4) => st4
     | (Raise e, st4) => emit [LogNewLinesError e] st4
     end) = file_positions st.
Proof.
  pose proof (process_batch_positions clock t l st) as Hb.
  destruct (_process_message_batch_optimized clock t l st) as [[[] | e] st4];
    simpl in *; exact Hb.
Qed.

(** An event leaves the cursor at the end of the file, for a cursor
    that was not beyond it. *)
Lemma cursor_after_event (fs : gmap string string) (clock : nat -> datetime)
    (filepath content : string) st :
  fs !! filepath = Some content ->
  default 0 (file_positions st !! filepath) <= String.length content ->
  file_positions (process_new_lines fs clock filepath st) !! filepath
  = Some (String.length content).
Proof.
  intros Hfs Hle. unfold Realtime.process_new_lines. rewrite Hfs.
  unfold read_new_lines. rewrite Nat.max_r by exact Hle.
  destruct (readlines _) as [ | l ls]; [apply lookup_insert_eq | ].
  destruct (parse_new_lines _ _ _ _ _ _) as [[[ | m ms] | e] d];
    rewrite ?after_batch_positions; apply lookup_insert_eq.
Qed.
Lemma set_positions_same st :
  set_positions (file_positions st) st = st.
Proof. destruct st; reflexivity. Qed.

(** For a file whose cursor is at its end, after [lines] were
    appended an event reads exactly these lines, moves the cursor to
    the new end and hands the messages parsed from them to the batch
    processing in one call; a second event on the same file reads no
    line and leaves the moderator as it is. *)
Theorem tail_reads_appended_lines_once (fs : gmap string string)
    (clock clock' : nat -> datetime) (filepath old : string) (lines : list string) st :
  Forall one_line lines ->
  lines <> [] ->
  file_positions st !! filepath = Some (String.length old) ->
  fs !! filepath = Some (old +:+ join_lines lines) ->
  let content := old +:+ join_lines lines in
  let new_lines := with_line_feed <$> lines in
  let st2 :=
    emit [LogNewLines (length lines) (path_name filepath)]
      (set_positions (<[filepath := String.length content]> (file_positions st)) st) in
  let st' := process_new_lines fs clock filepath st in
  read_new_lines content (String.length old) = (new_lines, String.length content)
  /\ st' =
     match parse_new_lines strptime clock 0 (path_name filepath) new_lines
             (parser_stats st) with
     | (Raise e, d) => emit [LogNewLinesError e] (set_parser_stats d st2)
     | (Ok [], d) => set_parser_stats d st2
     | (Ok new_messages, d) =>
         match _process_message_batch_optimized clock (length lines) new_messages
                 (set_parser_stats d st2) with
         | (Ok _, st4) => st4
         | (Raise e, st4) => emit [LogNewLinesError e] st4
         end
     end
  /\ file_positions st' !! filepath = Some (String.length content)
  /\ read_new_lines content (String.length content) = ([], String.length content)
  /\ process_new_lines fs clock' filepath st' = st'.
Proof.
  intros Hlines Hne Hpos Hfs content new_lines st2 st'.
  assert (Hread : read_new_lines content (String.length old)
                  = (new_lines, String.length content)).
  { unfold read_new_lines, content. rewrite drop_chars_append.
    rewrite readlines_join_lines by exact Hlines.
    rewrite StringFacts.length_append. f_equal. lia. }
  assert (Hst' : st' =
     match parse_new_lines strptime clock 0 (path_name filepath) new_lines
             (parser_stats st) with
     | (Raise e, d) => emit [LogNewLinesError e] (set_parser_stats d st2)
     | (Ok [], d) => set_parser_stats d st2
     | (Ok new_messages, d) =>
         match _process_message_batch_optimized clock (length lines) new_messages
                 (set_parser_stats d st2) with
         | (Ok _, st4) => st4
         | (Raise e, st4) => emit [LogNewLinesError e] st4
         end
     end).
  { unfold st', Realtime.process_new_lines. rewrite Hfs, Hpos.
    change (default 0 (Some (String.length old))) with (String.length old).
    fold content. rewrite Hread.
    unfold new_lines. destruct lines as [ | l rest]; [done | ].
    rewrite !length_fmap. reflexivity. }
  assert (Hcur : file_positions st' !! filepath = Some (String.length content)).
  { rewrite Hst'.
    destruct (parse_new_lines _ _ _ _ _ _) as [[[ | m ms] | e] d];
      rewrite ?after_batch_positions; apply lookup_insert_eq. }
  assert (Hagain : read_new_lines content (String.length content)
                   = ([], String.length content)).
  { unfold read_new_lines. rewrite drop_chars_all. f_equal. lia. }
  split_and!; try assumption.
  unfold Realtime.process_new_lines. rewrite Hfs, Hcur.
  change (default 0 (Some (String.length content))) with (String.length content).
  fold content. rewrite Hagain. rewrite insert_id by exact Hcur. apply set_positions_same.
Qed.

End moderator_facts.
End RealtimeFacts.

(** ** The properties on the sample data *)

Module Checks.
Import Samples.
Local Open Scope list_scope.

(** C1 on the sample: the first line of the log and a message of
    [" ALICE"] with the same text and time stamp. *)
Lemma message_id_canonical_witness :
  (exists id1, hello_enriched !! "message_id" = Some (PStr id1)
               /\ forall now, Utils.generate_message_id now hello_enriched = Ok id1)
  /\ (hello_enriched !! "message_id"
      = fst (Utils.enrich parse_date (clock 1) (message " ALICE" "hello world")) !! "message_id"
      <-> Utils.normalize_username hello_enriched
          = Utils.normalize_username
              (fst (Utils.enrich parse_date (clock 1) (message " ALICE" "hello world")))
          /\ hello_enriched !! "timestamp_str"
             = fst (Utils.enrich parse_date (clock 1) (message " ALICE" "hello world"))
                 !! "timestamp_str"
          /\ Utils.text_hash (Utils.text_of hello_enriched)
             = Utils.text_hash
                 (Utils.text_of
                    (fst (Utils.enrich parse_date (clock 1) (message " ALICE" "hello world"))))).
Proof.
  apply (UtilsFacts.message_id_canonical parse_date (clock 0) (clock 1) hello
           (message " ALICE" "hello world")); vm_compute; reflexivity.
Defined.

(** C1: two messages of one user at one second whose texts differ and
    whose MD5 digests share their first eight hex digits get one id,
    and Tier 1 drops the second as a duplicate of the first. *)
Lemma message_id_collision :
  let e1 := fst (Utils.enrich parse_date (clock 0) (message "alice" "msg 601")) in
  let e2 := fst (Utils.enrich parse_date (clock 0) (message "alice" "msg 15776")) in
  e1 !! "text" <> e2 !! "text"
  /\ Utils.normalize_username e1 = Utils.normalize_username e2
  /\ e1 !! "timestamp_str" = e2 !! "timestamp_str"
  /\ e1 !! "message_id" = Some (PStr "alice_2025-05-30T19:31:23_8a790a88")
  /\ e2 !! "message_id" = Some (PStr "alice_2025-05-30T19:31:23_8a790a88")
  /\ fst (Dedup._remove_internal_duplicates [e1; e2]) = Ok [e1].
Proof.
  split_and!; try (vm_compute; reflexivity).
  vm_compute. discriminate.
Qed.

(** The key of the real-time path is not the canonical id: it leaves
    the hash of the text out. *)
Lemma realtime_key_is_not_the_id :
  Realtime.realtime_key hello = Ok "alice_2025-05-30T19:31:23"
  /\ Utils.generate_message_id (clock 0) hello = Ok "alice_2025-05-30T19:31:23_5eb63bbb".
Proof. split; vm_compute; reflexivity. Qed.

Lemma realtime_key_ignores_text (m : gmap string pyval) (v : pyval) :
  Realtime.realtime_key (<["text" := v]> m) = Realtime.realtime_key m.
Proof.
  unfold Realtime.realtime_key, Processor.getitem.
  rewrite !lookup_insert_ne by done. reflexivity.
Qed.

(** C10 on the sample: the parser set [chat.log], enrichment leaves
    [unknown]. *)
Lemma enrich_overwrites_file_source_witness :
  hello !! "file_source" = Some (PStr "chat.log")
  /\ hello_enriched !! "file_source" = Some (PStr "unknown").
Proof.
  split; [vm_compute; reflexivity | ].
  apply (UtilsFacts.enrich_overwrites_file_source parse_date (clock 0) hello).
  vm_compute. reflexivity.
Defined.

(** C3 on the sample: the log with two equal lines, a collection that
    is not fresh. *)
Lemma filter_new_messages_tiers_witness :
  exists unique,
    fst (Dedup._remove_internal_duplicates enriched) = Ok unique
    /\ length unique = size (Dedup.ids_of enriched)
    /\ (false = true ->
        fst (Dedup.filter_new_messages parse_date no_ids hello_ids false clock parsed)
        = Ok enriched)
    /\ (false = false ->
        forall new_messages,
          fst (Dedup._remove_external_duplicates no_ids hello_ids unique) = Ok new_messages ->
          fst (Dedup.filter_new_messages parse_date no_ids hello_ids false clock parsed)
          = Ok new_messages).
Proof.
  apply (DedupFacts.filter_new_messages_tiers parse_date no_ids hello_ids false clock
           parsed enriched).
  vm_compute. reflexivity.
Defined.

(** C3: with a fresh collection the two equal lines of the log both
    come out, although the batch has one distinct id: Tier 1 was not
    applied. *)
Lemma fresh_collection_skips_tier_1 :
  fst (Dedup.filter_new_messages parse_date no_ids no_ids true clock parsed) = Ok enriched
  /\ length enriched = 2
  /\ size (Dedup.ids_of enriched) = 1
  /\ fst (Dedup.filter_new_messages parse_date no_ids no_ids false clock parsed)
     = Ok [hello_enriched].
Proof. split_and!; vm_compute; reflexivity. Qed.

(** C4 on the sample: the id is in the vector store and not in the
    relational store. *)
Lemma remove_external_union_witness :
  (exists dd,
      Dedup._remove_external_duplicates no_ids hello_ids [hello_enriched]
      = (Ok (filter (fun m => Dedup.is_new (∅ ∪ {[hello_id]}) m) [hello_enriched]),
         Dedup._debug_inconsistencies ∅ {[hello_id]} ++ [Dedup.LogExternalDetails dd]))
  /\ (forall m s, m !! "message_id" = Some (PStr s) ->
        (m ∈ filter (fun m => Dedup.is_new (∅ ∪ {[hello_id]}) m) [hello_enriched]
         <-> (m ∈ [hello_enriched]) /\ (s ∉ (∅ : gset string)) /\ (s ∉ ({[hello_id]} : gset string))))
  /\ ((exists s, ((s ∈ (∅ : gset string)) /\ (s ∉ ({[hello_id]} : gset string)))
                 \/ ((s ∈ ({[hello_id]} : gset string)) /\ (s ∉ (∅ : gset string))))
      <-> Dedup.LogInconsistencies (size ((∅ : gset string) ∖ {[hello_id]}))
            (size (({[hello_id]} : gset string) ∖ ∅))
          ∈ Dedup._debug_inconsistencies ∅ {[hello_id]}).
Proof.
  apply (DedupFacts.remove_external_union no_ids hello_ids [hello_enriched] ∅ {[hello_id]}).
  - reflexivity.
  - reflexivity.
  - constructor; [ | constructor]. eexists. vm_compute. reflexivity.
Defined.

(** On the sample: the one message is dropped and the divergence is
    printed. *)
Lemma vector_store_only_is_a_duplicate :
  Dedup._remove_external_duplicates no_ids hello_ids [hello_enriched]
  = (Ok [], [Dedup.LogInconsistencies 0 1; Dedup.LogExternalDetails {[ "qdrant" := 1 ]}]).
Proof. vm_compute. reflexivity. Qed.

Abbreviation process_hello embed db :=
  (Processor.process_message parse_date unit analyze embed vs_add db (clock 0) hello ∅ tt).

(** C5: the analysis requires action, the id has produced no alert
    and the author is not the streamer, and yet there is no alert: the
    embedding service gave no embedding. *)
Lemma no_alert_without_embedding :
  Processor.requires_action (fst (analyze hello_enriched tt)) = true
  /\ hello_enriched !! "message_id" = Some (PStr hello_id)
  /\ (PStr hello_id ∉ (∅ : gset pyval))
  /\ hello_enriched !! "username" = Some (PStr "alice")
  /\ lower "alice" <> Processor.streamer_username
  /\ fst (fst (fst (process_hello no_embedding db_refuses))) = None
  /\ is_Some (fst (fst (fst (process_hello embed db_refuses)))).
Proof.
  split_and!; try (vm_compute; reflexivity).
  - apply not_elem_of_empty.
  - vm_compute. discriminate.
  - vm_compute. eexists. reflexivity.
Qed.

Abbreviation run messages :=
  (Processor.process_messages_batch parse_date unit analyze embed vs_add db_refuses 1 clock
     messages tt).

(** C5 on the sample: the line of the log three times in one run; the
    first copy has alerted when the second is processed. *)
Lemma alert_iff_witness :
  exists (al : option Processor.alert) (alerts_after : list Processor.alert),
    fst (fst (run ([hello] ++ [hello]))) = fst (fst (run [hello])) ++ option_list al
    /\ fst (fst (run ([hello] ++ hello :: [hello])))
       = fst (fst (run [hello])) ++ option_list al ++ alerts_after
    /\ (is_Some al
        <-> is_Some (Processor.has_embedding (Some embedding))
            /\ Processor.requires_action
                 (Processor.set_message_id toxic (PStr hello_id)) = true
            /\ (PStr hello_id ∉ (Processor.alert_message_id <$> fst (fst (run [hello]))))
            /\ lower "alice" <> Processor.streamer_username)
    /\ (forall x, al = Some x -> Processor.alert_message_id x = PStr hello_id).
Proof.
  apply (ProcessorFacts.alert_iff parse_date unit analyze embed vs_add db_refuses 1 clock
           [hello] [hello] hello hello_enriched tt tt tt tt (fst (fst (run [hello])))
           (snd (run [hello])) (PStr hello_id) (PStr "hello world") "alice"
           (Processor.set_message_id toxic (PStr hello_id)) (Some embedding));
    [lia | vm_compute; reflexivity ..].
Defined.

(** On the sample: the two equal lines of the log give one alert in a
    run, the alert of the first. *)
Lemma second_copy_does_not_alert :
  Processor.alert_message_id <$> fst (fst (run [hello; hello])) = [PStr hello_id]
  /\ Processor.alert_message_id <$> fst (fst (run [hello])) = [PStr hello_id].
Proof. split; vm_compute; reflexivity. Qed.

(** C7 on the sample: the vector store accepts, the relational store
    refuses. *)
Lemma persistence_needs_embedding_and_vector_first_witness :
  let tr := snd (process_hello embed db_refuses) in
  filter Processor.is_write tr
  = [Processor.VectorAdd (PStr hello_id); Processor.DbSave (PStr hello_id) "point-1"]
  /\ Processor.LogInconsistency ∈ tr.
Proof.
  exact (ProcessorFacts.persistence_needs_embedding_and_vector_first parse_date unit analyze
           embed vs_add db_refuses (clock 0) hello hello_enriched ∅ tt tt tt (PStr hello_id)
           (PStr "hello world") (Processor.set_message_id toxic (PStr hello_id))
           (Some embedding)
           ltac:(vm_compute; reflexivity) ltac:(vm_compute; reflexivity)
           ltac:(vm_compute; reflexivity) ltac:(vm_compute; reflexivity)
           ltac:(vm_compute; reflexivity)).
Defined.

(** Without an embedding nothing is written. *)
Lemma no_embedding_no_write : snd (process_hello no_embedding db_refuses) = [].
Proof. vm_compute. reflexivity. Qed.

Abbreviation tail st :=
  (Realtime.process_new_lines Parser.Strptime.strptime unit analyze embed vs_add db_refuses
     db_ids grown_files clock "data/logs/chat.log" st).

(** The tailer on the sample: three lines appended to a log of one
    line that was read to its end. *)
Lemma tail_reads_appended_lines_once_witness :
  Realtime.read_new_lines (old_log +:+ Realtime.join_lines appended)
    (String.length old_log)
  = (Realtime.with_line_feed <$> appended,
     String.length (old_log +:+ Realtime.join_lines appended))
  /\ Realtime.file_positions (tail moderator) !! "data/logs/chat.log"
     = Some (String.length (old_log +:+ Realtime.join_lines appended))
  /\ tail (tail moderator) = tail moderator.
Proof.
  pose proof (RealtimeFacts.tail_reads_appended_lines_once Parser.Strptime.strptime unit
                analyze embed vs_add db_refuses db_ids grown_files clock clock
                "data/logs/chat.log" old_log appended moderator) as H.
  destruct H as (H1 & _ & H3 & _ & H5).
  - repeat constructor.
  - discriminate.
  - vm_compute. reflexivity.
  - vm_compute. reflexivity.
  - split_and!; assumption.
Defined.

(** C9 on the sample: a line that no pattern matches and that holds a
    colon. *)
Lemma parse_line_total_witness :
  (exists r, fst (Parser._parse_line Parser.Strptime.strptime (clock 0) "garbage: text" false
                    Parser.fresh_debug_stats) = Ok r)
  /\ Parser._parse_line Parser.Strptime.strptime (clock 0) "garbage: text" false
       Parser.fresh_debug_stats
     = (Ok (Some (Parser.fallback_message (clock 0) "garbage: text")), Parser.fresh_debug_stats)
  /\ Parser._parse_line Parser.Strptime.strptime (clock 0) "garbage: text" true
       Parser.fresh_debug_stats
     = (Ok None, Parser.fresh_debug_stats)
  /\ Parser.fallback_message (clock 0) "garbage: text" !! "username"
     = Some (PStr "bot_or_unknown").
Proof.
  pose proof (ParserFacts.parse_line_total Parser.Strptime.strptime
                ParserFacts.model_strptime_raises (clock 0) "garbage: text" false
                Parser.fresh_debug_stats) as (H1 & _ & H3 & H4 & _).
  pose proof (ParserFacts.parse_line_total Parser.Strptime.strptime
                ParserFacts.model_strptime_raises (clock 0) "garbage: text" true
                Parser.fresh_debug_stats) as (_ & _ & H3' & _).
  split_and!.
  - exact H1.
  - apply H3. vm_compute. reflexivity.
  - apply H3'. vm_compute. reflexivity.
  - exact H4.
Defined.

(** A line whose time stamp is no day of the calendar: the pattern
    matches, the time stamp is passed over, and the line ends as a
    low-confidence message. *)
Lemma malformed_timestamp_is_absorbed :
  Regex.re_match (default [] (Parser.patterns !! 0))
    "[2025-02-30 19:31:23] <alice> hello: world"
  = Some ["2025-02-30 19:31:23"; "alice"; "hello: world"]
  /\ Parser._parse_timestamp Parser.Strptime.strptime (clock 0) "2025-02-30 19:31:23"
     = Ok None
  /\ fst (Parser._parse_line Parser.Strptime.strptime (clock 0)
            "[2025-02-30 19:31:23] <alice> hello: world" false Parser.fresh_debug_stats)
     = Ok (Some (Parser.fallback_message (clock 0)
                   "[2025-02-30 19:31:23] <alice> hello: world")).
Proof. split_and!; vm_compute; reflexivity. Qed.

(** The example of the specification, end to end. *)
Lemma end_to_end_example :
  hello !! "username" = Some (PStr "alice")
  /\ hello !! "text" = Some (PStr "hello world")
  /\ hello !! "timestamp" = Some (PDatetime (mk_datetime 2025 5 30 19 31 23 0))
  /\ hello_enriched !! "message_id" = Some (PStr "alice_2025-05-30T19:31:23_5eb63bbb")
  /\ Processor._calculate_severity toxic = "CRITICAL".
Proof. split_and!; vm_compute; reflexivity. Qed.

End Checks.

(** ** Deduplication: what the tiers return *)

Module DedupMore.
Import Dedup Notions.
Local Open Scope list_scope.

Section set_facts.
Context {A : Type} `{Countable A}.

Lemma union_seen_member (X Y seen : gset A) (id : A) :
  id ∈ seen -> X ∪ seen = Y ∪ seen -> X ∪ seen = {[id]} ∪ Y ∪ seen.
Proof.
  intros Hin Heq. apply set_eq. intros x.
  assert (Hx := proj1 (set_eq _ _) Heq x). clear Heq.
  rewrite !elem_of_union, elem_of_singleton in *.
  destruct (decide (x = id)) as [-> | ]; tauto.
Qed.

Lemma union_seen_added (X Y seen : gset A) (id : A) :
  X ∪ ({[id]} ∪ seen) = Y ∪ ({[id]} ∪ seen) -> {[id]} ∪ X ∪ seen = {[id]} ∪ Y ∪ seen.
Proof.
  intros Heq. apply set_eq. intros x.
  assert (Hx := proj1 (set_eq _ _) Heq x). clear Heq.
  rewrite !elem_of_union, !elem_of_singleton in *. tauto.
Qed.

Lemma union_empty_inj (X Y : gset A) : X ∪ ∅ = Y ∪ ∅ -> X = Y.
Proof. rewrite !(right_id_L ∅ (∪)). auto. Qed.

Lemma not_in_added (x id : A) (seen : gset A) : x ∉ {[id]} ∪ seen -> x <> id /\ x ∉ seen.
Proof. rewrite elem_of_union, elem_of_singleton. tauto. Qed.

End set_facts.

Lemma ids_of_id_list (l : list (gmap string pyval)) : ids_of l = list_to_set (id_list l).
Proof. reflexivity. Qed.

Lemma unique_from_sublist (seen : gset pyval) (l u : list (gmap string pyval)) :
  unique_from seen l = Ok u -> u `sublist_of` l.
Proof.
  revert seen u. induction l as [ | m l IH]; intros seen u H; simpl in H.
  - injection H as <-. constructor.
  - destruct (m !! "message_id") as [id | ]; [ | discriminate].
    destruct (bool_decide (id ∈ seen)).
    + apply sublist_cons. exact (IH _ _ H).
    + destruct (unique_from _ l) as [u' | ] eqn:Hu; [ | discriminate].
      injection H as <-. apply sublist_skip. exact (IH _ _ Hu).
Qed.

Lemma unique_from_ids (seen : gset pyval) (l u : list (gmap string pyval)) :
  unique_from seen l = Ok u ->
  NoDup (id_list u)
  /\ (forall id, id ∈ id_list u -> id ∉ seen)
  /\ ids_of u ∪ seen = ids_of l ∪ seen.
Proof.
  revert seen u. induction l as [ | m l IH]; intros seen u H; simpl in H.
  - injection H as <-. split_and!; [constructor | intros id Hid; inversion Hid | reflexivity].
  - destruct (m !! "message_id") as [id | ] eqn:Hid; [ | discriminate].
    rewrite (DedupFacts.ids_of_cons m id l Hid).
    destruct (bool_decide_reflect (id ∈ seen)) as [Hseen | Hseen].
    + destruct (IH _ _ H) as (Hnd & Hout & Heq). split_and!; [exact Hnd | exact Hout | ].
      exact (union_seen_member _ _ _ _ Hseen Heq).
    + destruct (unique_from _ l) as [u' | ] eqn:Hu; [ | discriminate].
      injection H as <-. destruct (IH _ _ Hu) as (Hnd & Hout & Heq).
      rewrite (DedupFacts.ids_of_cons m id u' Hid).
      unfold id_list. simpl. rewrite Hid. fold (id_list u'). split_and!.
      * constructor; [ | exact Hnd]. intros Hin.
        apply Hout, not_in_added in Hin as [Hin _]. exact (Hin eq_refl).
      * intros x Hx. apply elem_of_cons in Hx as [-> | Hx]; [exact Hseen | ].
        apply Hout, not_in_added in Hx as [_ Hx]. exact Hx.
      * exact (union_seen_added _ _ _ _ Heq).
Qed.

(** A message whose id was not met before is kept. *)
Lemma unique_from_first (seen : gset pyval) (l1 l2 u : list (gmap string pyval))
    (m : gmap string pyval) (id : pyval) :
  unique_from seen (l1 ++ m :: l2) = Ok u ->
  m !! "message_id" = Some id -> id ∉ seen -> id ∉ id_list l1 ->
  m ∈ u.
Proof.
  revert seen u. induction l1 as [ | m1 l1 IH]; intros seen u H Hid Hseen Hl1; simpl in H.
  - rewrite Hid in H. rewrite bool_decide_eq_false_2 in H by exact Hseen.
    destruct (unique_from _ l2) as [u' | ]; [ | discriminate].
    injection H as <-. apply elem_of_cons. left. reflexivity.
  - destruct (m1 !! "message_id") as [id1 | ] eqn:Hid1; [ | discriminate].
    assert (Hne : id <> id1).
    { intros ->. apply Hl1. unfold id_list. simpl. rewrite Hid1.
      apply elem_of_cons. left. reflexivity. }
    assert (Hl1' : id ∉ id_list l1).
    { intros Hin. apply Hl1. unfold id_list. simpl. rewrite Hid1.
      apply elem_of_cons. right. exact Hin. }
    destruct (bool_decide (id1 ∈ seen)).
    + exact (IH _ _ H Hid Hseen Hl1').
    + destruct (unique_from _ (l1 ++ m :: l2)) as [u' | ] eqn:Hu; [ | discriminate].
      injection H as <-. apply elem_of_cons. right.
      apply (IH _ _ Hu Hid); [ | exact Hl1'].
      rewrite elem_of_union, elem_of_singleton. tauto.
Qed.

(** Tier 1 leaves a batch without repeated ids as it is. *)
Lemma unique_from_NoDup (seen : gset pyval) (l : list (gmap string pyval)) :
  Forall has_id l -> NoDup (id_list l) -> (forall id, id ∈ id_list l -> id ∉ seen) ->
  unique_from seen l = Ok l.
Proof.
  intros Hl. revert seen. induction Hl as [ | m l [id Hid] _ IH]; intros seen Hnd Hout.
  - reflexivity.
  - simpl. rewrite Hid. unfold id_list in Hnd, Hout. simpl in Hnd, Hout.
    rewrite Hid in Hnd, Hout. fold (id_list l) in Hnd, Hout.
    apply NoDup_cons in Hnd as [Hnotin Hnd].
    rewrite bool_decide_eq_false_2 by (apply Hout, elem_of_cons; left; reflexivity).
    rewrite IH; [reflexivity | exact Hnd | ].
    intros x Hx. pose proof (Hout x (proj2 (elem_of_cons _ _ _) (or_intror Hx))) as Hx'.
    rewrite elem_of_union, elem_of_singleton. intros [-> | Hin]; [exact (Hnotin Hx) | exact (Hx' Hin)].
Qed.

(** X1: when Tier 1 returns, what it returns is the batch with some
    messages left out, in the order of the batch; no two of the
    messages left have the same id, and every id of the batch is the id
    of one of them; a message whose id no earlier message of the batch
    has is kept; and Tier 1 applied to its own result changes
    nothing. *)
Theorem tier_1_first_occurrences (messages unique : list (gmap string pyval)) :
  fst (_remove_internal_duplicates messages) = Ok unique ->
  unique `sublist_of` messages
  /\ NoDup (id_list unique)
  /\ ids_of unique = ids_of messages
  /\ (forall l1 m l2 id, messages = l1 ++ m :: l2 -> m !! "message_id" = Some id ->
        id ∉ id_list l1 -> m ∈ unique)
  /\ fst (_remove_internal_duplicates unique) = Ok unique.
Proof.
  unfold _remove_internal_duplicates.
  destruct (unique_from ∅ messages) as [u | e] eqn:Hu; simpl; [ | discriminate].
  intros [= ->].
  destruct (unique_from_ids _ _ _ Hu) as (Hnd & Hout & Heq). split_and!.
  - exact (unique_from_sublist _ _ _ Hu).
  - exact Hnd.
  - exact (union_empty_inj _ _ Heq).
  - intros l1 m l2 id -> Hid Hl1.
    apply (unique_from_first ∅ l1 l2 unique m id Hu Hid); [apply not_elem_of_empty | exact Hl1].
  - rewrite (unique_from_NoDup ∅ unique);
      [reflexivity | | exact Hnd | intros; apply not_elem_of_empty].
    exact (DedupFacts.unique_from_has_id _ _ _ Hu).
Qed.

Lemma external_loop_sublist (pg q : gset string) (l new : list (gmap string pyval))
    (dd dd' : gmap string nat) :
  external_loop pg q l dd = Ok (new, dd') -> new `sublist_of` l.
Proof.
  revert dd new dd'. induction l as [ | m l IH]; intros dd new dd' H; simpl in H.
  - injection H as <- _. constructor.
  - destruct (m !! "message_id") as [id | ]; [ | discriminate].
    destruct (negb (id_in id (pg ∪ q))).
    + destruct (external_loop pg q l dd) as [[new' dd1] | ] eqn:Hl; [ | discriminate].
      injection H as <- _. apply sublist_skip. exact (IH _ _ _ Hl).
    + apply sublist_cons. exact (IH _ _ _ H).
Qed.

Lemma Forall_sublist {A} (P : A -> Prop) (l k : list A) :
  l `sublist_of` k -> Forall P k -> Forall P l.
Proof.
  intros Hs Hk. apply Forall_forall. intros x Hx.
  rewrite Forall_forall in Hk. apply Hk. exact (elem_of_sublist _ _ _ Hx Hs).
Qed.

Section filter_facts.
Variable parse_date : string -> option datetime.

Lemma simple_loop_fixed (clock : nat -> datetime) (t : nat) (seen : gset pyval)
    (l out : list (gmap string pyval)) :
  simple_loop parse_date clock t seen l = Ok out -> Forall (enrich_fixed parse_date) out.
Proof.
  revert t seen out. induction l as [ | m l IH]; intros t seen out H; simpl in H.
  - injection H as <-. constructor.
  - destruct (Utils.enrich parse_date (clock t) m) as [m' [[] | e]] eqn:Hm; [ | discriminate].
    destruct (m' !! "message_id") as [id | ]; [ | discriminate].
    destruct (bool_decide (id ∈ seen)); [exact (IH _ _ _ H) | ].
    destruct (simple_loop _ _ _ _ l) as [out' | ] eqn:Hl; [ | discriminate].
    injection H as <-. constructor; [ | exact (IH _ _ _ Hl)].
    intros now. exact (UtilsFacts.enrich_enriched _ _ _ _ _ _ Hm).
Qed.

Section stores.
Variable db_get_existing_message_ids : list (gmap string pyval) -> result (gset string).
Variable vs_get_existing_message_ids : list (gmap string pyval) -> result (gset string).

Lemma remove_external_sublist (l new : list (gmap string pyval)) :
  fst (_remove_external_duplicates db_get_existing_message_ids vs_get_existing_message_ids l)
  = Ok new -> new `sublist_of` l.
Proof.
  unfold _remove_external_duplicates.
  destruct (db_get_existing_message_ids l) as [pg | ]; [ | discriminate].
  destruct (vs_get_existing_message_ids l) as [q | ]; [ | discriminate].
  destruct (external_loop pg q l ∅) as [[new' dd] | ] eqn:Hl; [ | discriminate].
  simpl. intros [= ->]. exact (external_loop_sublist _ _ _ _ _ _ Hl).
Qed.

Lemma sublist_id_list (l k : list (gmap string pyval)) :
  l `sublist_of` k -> id_list l `sublist_of` id_list k.
Proof.
  unfold id_list. induction 1 as [ | x l k _ IH | x l k _ IH]; simpl.
  - constructor.
  - destruct (x !! "message_id"); [apply sublist_skip | ]; exact IH.
  - destruct (x !! "message_id"); [apply sublist_cons | ]; exact IH.
Qed.

Lemma simple_loop_NoDup (clock : nat -> datetime) (t : nat) (seen : gset pyval)
    (l out : list (gmap string pyval)) :
  simple_loop parse_date clock t seen l = Ok out ->
  NoDup (id_list out) /\ (forall id, id ∈ id_list out -> id ∉ seen).
Proof.
  revert t seen out. induction l as [ | m l IH]; intros t seen out H; simpl in H.
  - injection H as <-. split; [constructor | intros id Hid; inversion Hid].
  - destruct (Utils.enrich parse_date (clock t) m) as [m' [[] | e]] eqn:Hm; [ | discriminate].
    destruct (m' !! "message_id") as [id | ] eqn:Hid; [ | discriminate].
    destruct (bool_decide_reflect (id ∈ seen)) as [Hseen | Hseen]; [exact (IH _ _ _ H) | ].
    destruct (simple_loop _ _ _ _ l) as [out' | ] eqn:Hl; [ | discriminate].
    injection H as <-. destruct (IH _ _ _ Hl) as (Hnd & Hout).
    unfold id_list. simpl. rewrite Hid. fold (id_list out'). split.
    + constructor; [ | exact Hnd]. intros Hin.
      apply Hout, not_in_added in Hin as [Hin _]. exact (Hin eq_refl).
    + intros x Hx. apply elem_of_cons in Hx as [-> | Hx]; [exact Hseen | ].
      apply Hout, not_in_added in Hx as [_ Hx]. exact Hx.
Qed.

(** X2: every message that the filter returns, through the tiers, on a
    fresh collection or through the fallback, is a message that
    enrichment leaves as it is, so that the processor, which enriches
    each message again, works with the id that the filter compared;
    and unless the collection is fresh, no two messages returned have
    the same id. *)
Theorem filter_returns_enriched (is_fresh_collection : bool) (clock : nat -> datetime)
    (messages new_messages : list (gmap string pyval)) :
  fst (filter_new_messages parse_date db_get_existing_message_ids
         vs_get_existing_message_ids is_fresh_collection clock messages) = Ok new_messages ->
  Forall (enrich_fixed parse_date) new_messages
  /\ (is_fresh_collection = false -> NoDup (id_list new_messages)).
Proof.
  assert (Hfall : forall n l,
            fst (_simple_duplicate_filter parse_date clock n l) = Ok new_messages ->
            Forall (enrich_fixed parse_date) new_messages
            /\ (is_fresh_collection = false -> NoDup (id_list new_messages))).
  { unfold _simple_duplicate_filter. simpl. intros n l H. split.
    - exact (simple_loop_fixed _ _ _ _ _ H).
    - intros _. exact (proj1 (simple_loop_NoDup _ _ _ _ _ H)). }
  unfold filter_new_messages.
  destruct (enrich_all parse_date clock 0 messages) as [enriched [[] | e]] eqn:Henrich.
  - pose proof (DedupFacts.enrich_all_enriched _ _ _ _ _ Henrich) as Hfixed.
    destruct is_fresh_collection.
    + simpl. intros [= <-]. split; [exact Hfixed | discriminate].
    + unfold _remove_internal_duplicates.
      destruct (unique_from ∅ enriched) as [unique | e] eqn:Hu.
      * destruct (_remove_external_duplicates _ _ unique) as [[new | e] log2] eqn:Hext.
        -- simpl. intros [= <-].
           assert (Hsub : new `sublist_of` unique)
             by (apply remove_external_sublist; rewrite Hext; reflexivity).
           split.
           ++ apply (Forall_sublist _ _ enriched); [ | exact Hfixed].
              etransitivity; [exact Hsub | exact (unique_from_sublist _ _ _ Hu)].
           ++ intros _. apply (sublist_NoDup _ (id_list unique)).
              ** exact (proj1 (unique_from_ids _ _ _ Hu)).
              ** apply sublist_id_list. exact Hsub.
        -- destruct (_simple_duplicate_filter parse_date clock (length messages) enriched)
             as [r log'] eqn:Hs. simpl. intros Hr. apply (Hfall (length messages) enriched).
           rewrite Hs. exact Hr.
      * destruct (_simple_duplicate_filter parse_date clock (length messages) enriched)
          as [r log'] eqn:Hs. simpl. intros Hr. apply (Hfall (length messages) enriched).
        rewrite Hs. exact Hr.
  - destruct (_simple_duplicate_filter parse_date clock (length messages) enriched)
      as [r log'] eqn:Hs. simpl. intros Hr. apply (Hfall (length messages) enriched).
    rewrite Hs. exact Hr.
Qed.

(** X3: when the query of one of the two stores raises, the batch is
    not lost and no message is compared with a store: the filter
    prints the error and returns what Tier 1 left of the enriched
    batch. *)
Theorem store_failure_falls_back (clock : nat -> datetime)
    (messages enriched unique : list (gmap string pyval)) :
  enrich_all parse_date clock 0 messages = (enriched, Ok tt) ->
  fst (_remove_internal_duplicates enriched) = Ok unique ->
  (exists e, db_get_existing_message_ids unique = Raise e)
  \/ (exists e, vs_get_existing_message_ids unique = Raise e) ->
  exists e,
    filter_new_messages parse_date db_get_existing_message_ids
      vs_get_existing_message_ids false clock messages
    = (Ok unique,
       [LogChecking (length messages);
        LogInternalDuplicates (length enriched - length unique);
        LogFilterError e; LogSimpleFilter]).
Proof.
  intros Henrich Hu Hstore.
  unfold _remove_internal_duplicates in Hu.
  destruct (unique_from ∅ enriched) as [u | e0] eqn:Hu'; simpl in Hu; [ | discriminate].
  injection Hu as ->.
  assert (Hext : exists e,
             _remove_external_duplicates db_get_existing_message_ids
               vs_get_existing_message_ids unique = (Raise e, [])).
  { unfold _remove_external_duplicates.
    destruct Hstore as [[e He] | [e He]]; rewrite He.
    - exists e. reflexivity.
    - destruct (db_get_existing_message_ids unique) as [pg | e']; eexists; reflexivity. }
  destruct Hext as (e & Hext). exists e.
  unfold filter_new_messages. rewrite Henrich.
  unfold _remove_internal_duplicates. rewrite Hu', Hext.
  unfold _simple_duplicate_filter.
  rewrite DedupFacts.simple_loop_unique_from
    by exact (DedupFacts.enrich_all_enriched _ _ _ _ _ Henrich).
  rewrite Hu'. reflexivity.
Qed.

End stores.
End filter_facts.
End DedupMore.

(** ** Batch processing: the run as a whole *)

Module ProcessorMore.
Import Processor Counting.
Local Open Scope list_scope.

Lemma filter_db_save_writes (l : list event) :
  filter is_db_save (filter is_write l) = filter is_db_save l.
Proof.
  induction l as [ | ev l IH]; [reflexivity | ].
  destruct ev; rewrite !filter_cons; simpl; rewrite ?filter_cons; simpl; rewrite IH;
    reflexivity.
Qed.

Lemma filter_vector_add_writes (l : list event) :
  filter is_vector_add (filter is_write l) = filter is_vector_add l.
Proof.
  induction l as [ | ev l IH]; [reflexivity | ].
  destruct ev; rewrite !filter_cons; simpl; rewrite ?filter_cons; simpl; rewrite IH;
    reflexivity.
Qed.

Lemma writes_shape_counts (tr : list event) :
  writes_shape (filter is_write tr) ->
  length (filter is_db_save tr) <= length (filter is_vector_add tr)
  /\ length (filter is_vector_add tr) <= 1.
Proof.
  rewrite <- (filter_db_save_writes tr), <- (filter_vector_add_writes tr).
  intros H. inversion H; simpl; lia.
Qed.

Section processor_more.
Variable parse_date : string -> option datetime.
Variable world : Type.
Variable analyze_message : gmap string pyval -> world -> analysis * world.
Variable get_embedding : pyval -> world -> option (list float) * world.
Variable vs_add_message :
  gmap string pyval -> analysis -> list float -> world -> result string * world.
Variable db_save_analysis :
  gmap string pyval -> analysis -> string -> world -> result bool * world.

Abbreviation process_message :=
  (process_message parse_date world analyze_message get_embedding vs_add_message
     db_save_analysis).
Abbreviation _process_single_batch :=
  (_process_single_batch parse_date world analyze_message get_embedding vs_add_message
     db_save_analysis).
Abbreviation process_messages_batch :=
  (process_messages_batch parse_date world analyze_message get_embedding vs_add_message
     db_save_analysis).

(** X4: with a positive batch size, the size of the chunks plays no
    part: the alerts, the state of the services and the calls made are
    those of one pass over all the messages, so that an id alerts once
    in the run and not once in each chunk. *)
Theorem batch_size_plays_no_part (batch_size : nat) (clock : nat -> datetime)
    (messages : list (gmap string pyval)) (w : world) :
  0 < batch_size ->
  process_messages_batch batch_size clock messages w
  = (let '(alerts, _, w', tr) := _process_single_batch clock 0 messages ∅ w in
     (alerts, w', tr)).
Proof.
  exact (ProcessorFacts.process_messages_batch_one_pass parse_date world analyze_message
           get_embedding vs_add_message db_save_analysis batch_size clock messages w).
Qed.

(** The alert of one message: its id is the id of the analysis, it was
    not in [alert_ids], and it is added to it. *)
Lemma process_message_alert (now : datetime) (m : gmap string pyval)
    (alert_ids : gset pyval) (w : world) :
  match process_message now m alert_ids w with
  | (Some al, alert_ids', _, _) =>
      (alert_message_id al ∉ alert_ids)
      /\ alert_ids' = {[alert_message_id al]} ∪ alert_ids
      /\ alert_severity al ∈ ["CRITICAL"; "HIGH"; "MEDIUM"; "LOW"]
      /\ exists e, fst (Utils.enrich parse_date now m) = e
                   /\ e !! "message_id" = Some (alert_message_id al)
  | (None, alert_ids', _, _) => alert_ids' = alert_ids
  end.
Proof.
  unfold Processor.process_message.
  destruct (Utils.enrich parse_date now m) as [e [[] | err]]; [ | reflexivity].
  destruct (e !! "message_id") as [id | ] eqn:Hid; [ | reflexivity].
  destruct (negb _); [reflexivity | ].
  destruct (analyze_message e w) as [a0 w1].
  destruct (e !! "text") as [text | ]; [ | reflexivity].
  destruct (get_embedding text w1) as [emb w2].
  destruct (has_embedding emb) as [vector | ]; [ | reflexivity].
  destruct (Processor._save_with_verification _ _ _ e (set_message_id a0 id) vector w2)
    as [[pid w3] tr].
  destruct (bind _ _) as [[al | ] | err] eqn:Hb; try reflexivity.
  unfold alert_condition in Hb. simpl in Hb.
  destruct (requires_action a0); simpl in Hb; [ | discriminate].
  destruct (bool_decide_reflect (id ∈ alert_ids)) as [Hin | Hin]; simpl in Hb; [discriminate | ].
  unfold _create_alert in Hb.
  destruct (getitem e "username") as [[ | | u | ] | ]; simpl in Hb; try discriminate.
  destruct (negb _); simpl in Hb; [ | discriminate].
  destruct (getitem e "text"); simpl in Hb; [ | discriminate].
  destruct (getitem e "timestamp_str"); simpl in Hb; [ | discriminate].
  injection Hb as <-. simpl. split_and!; [exact Hin | reflexivity | | eauto].
  unfold _calculate_severity. simpl.
  repeat (match goal with |- context [if ?b then _ else _] => destruct b end);
    set_solver.
Qed.

(** X5: in one run no two alerts have the same id, no alert has an id
    that alerted before, every alert has one of the four severities,
    and the ids that alerted are remembered. *)
Theorem one_alert_per_id (clock : nat -> datetime) (t : nat)
    (batch : list (gmap string pyval)) (alert_ids : gset pyval) (w : world) :
  let '(alerts, alert_ids', _, _) := _process_single_batch clock t batch alert_ids w in
  NoDup (alert_message_id <$> alerts)
  /\ (forall al, al ∈ alerts -> alert_message_id al ∉ alert_ids)
  /\ alert_ids' = list_to_set (alert_message_id <$> alerts) ∪ alert_ids
  /\ Forall (fun al => alert_severity al ∈ ["CRITICAL"; "HIGH"; "MEDIUM"; "LOW"]) alerts
  /\ length alerts <= length batch.
Proof.
  revert t alert_ids w. induction batch as [ | m rest IH]; intros t alert_ids w; simpl.
  - split_and!; [constructor | intros al H; inversion H | set_solver | constructor | lia].
  - pose proof (process_message_alert (clock t) m alert_ids w) as Hm.
    destruct (process_message (clock t) m alert_ids w) as [[[al ids1] w1] tr1].
    specialize (IH (S t) ids1 w1).
    destruct (_process_single_batch clock (S t) rest ids1 w1) as [[[alerts ids2] w2] tr2].
    destruct IH as (Hnd & Hout & Hids & Hsev & Hlen).
    destruct al as [al | ].
    + destruct Hm as (Hnew & -> & Hs & _). simpl. split_and!.
      * constructor; [ | exact Hnd]. intros Hin.
        apply list_elem_of_fmap in Hin as (al' & Heq & Hal').
        apply Hout in Hal'. rewrite <- Heq in Hal'. set_solver.
      * intros al' Hal'. apply elem_of_cons in Hal' as [-> | Hal']; [exact Hnew | ].
        apply Hout in Hal'. set_solver.
      * rewrite Hids. set_solver.
      * constructor; assumption.
      * lia.
    + subst ids1. split_and!; try assumption. lia.
Qed.

(** X6: a run calls the relational store at most as often as the
    vector store, and the vector store at most once for each
    message. *)
Theorem store_calls_bounded (clock : nat -> datetime) (t : nat)
    (batch : list (gmap string pyval)) (alert_ids : gset pyval) (w : world) :
  let tr := snd (_process_single_batch clock t batch alert_ids w) in
  length (filter is_db_save tr) <= length (filter is_vector_add tr)
  /\ length (filter is_vector_add tr) <= length batch.
Proof.
  revert t alert_ids w. induction batch as [ | m rest IH]; intros t alert_ids w; simpl.
  - split; lia.
  - pose proof (ProcessorFacts.process_message_writes parse_date world analyze_message
                  get_embedding vs_add_message db_save_analysis (clock t) m alert_ids w) as Hm.
    apply writes_shape_counts in Hm.
    destruct (process_message (clock t) m alert_ids w) as [[[al ids1] w1] tr1].
    specialize (IH (S t) ids1 w1).
    destruct (_process_single_batch clock (S t) rest ids1 w1) as [[[alerts ids2] w2] tr2].
    simpl in *. rewrite !filter_app, !length_app. lia.
Qed.

End processor_more.
End ProcessorMore.

(** ** The real-time path: what the moderator remembers *)

Module RealtimeMore.
Import Processor Realtime Counting History.
Local Open Scope list_scope.

Lemma ltb_leb (x y : float) : PrimFloat.ltb x y = true -> PrimFloat.leb x y = true.
Proof.
  rewrite ltb_spec, leb_spec. unfold SFltb, SFleb.
  destruct (SFcompare _ _) as [[] | ]; congruence.
Qed.

Lemma rank_thresholds (b1 b2 b3 b4 b5 b6 c1 c2 c3 c4 c5 c6 : bool) :
  (b1 = true -> c1 = true) -> (b2 = true -> c2 = true) -> (b3 = true -> c3 = true) ->
  (b4 = true -> c4 = true) -> (b5 = true -> c5 = true) -> (b6 = true -> c6 = true) ->
  rank (if b1 || b2 then "CRITICAL" else if b3 || b4 then "HIGH"
        else if b5 || b6 then "MEDIUM" else "LOW")
  <= rank (if c1 || c2 then "CRITICAL" else if c3 || c4 then "HIGH"
           else if c5 || c6 then "MEDIUM" else "LOW").
Proof.
  intros H1 H2 H3 H4 H5 H6.
  assert (H12 : b1 || b2 = true -> c1 || c2 = true).
  { rewrite !orb_true_iff. tauto. }
  assert (H34 : b3 || b4 = true -> c3 || c4 = true).
  { rewrite !orb_true_iff. tauto. }
  assert (H56 : b5 || b6 = true -> c5 || c6 = true).
  { rewrite !orb_true_iff. tauto. }
  clear H1 H2 H3 H4 H5 H6.
  destruct (b1 || b2); [rewrite (H12 eq_refl); apply Nat.le_refl | clear H12].
  destruct (c1 || c2); [destruct (b3 || b4), (b5 || b6); vm_compute; lia | ].
  destruct (b3 || b4); [rewrite (H34 eq_refl); apply Nat.le_refl | clear H34].
  destruct (c3 || c4); [destruct (b5 || b6); vm_compute; lia | ].
  destruct (b5 || b6); [rewrite (H56 eq_refl); apply Nat.le_refl | clear H56].
  destruct (c5 || c6); vm_compute; lia.
Qed.

(** X7: the real-time path never ranks an analysis above the rank
    that the batch path gives it: the two differ only where a score
    sits on a threshold, and there the real-time path is the lower. *)
Theorem priority_at_most_severity (a : analysis) :
  rank (_calculate_priority a) <= rank (_calculate_severity a).
Proof.
  unfold _calculate_priority, _calculate_severity. cbv zeta.
  apply rank_thresholds; apply ltb_leb.
Qed.

Section history.
Context {world : Type}.
Implicit Type st : moderator world.

Lemma evolves_refl st : evolves st st.
Proof. constructor; auto. Qed.

Lemma evolves_trans st1 st2 st3 : evolves st1 st2 -> evolves st2 st3 -> evolves st1 st3.
Proof.
  intros [] []. constructor; try (etransitivity; eassumption); try lia; auto.
Qed.

Lemma evolves_emit (evs : list event) st : evolves st (emit evs st).
Proof. constructor; simpl; auto. apply prefix_app_r. reflexivity. Qed.

Lemma evolves_set_services (w : world) st : evolves st (set_services w st).
Proof. constructor; simpl; auto. Qed.

Lemma evolves_set_parser_stats (d : Parser.debug_stats) st : evolves st (set_parser_stats d st).
Proof. constructor; simpl; auto. Qed.

Lemma evolves_set_positions (p : gmap string nat) st : evolves st (set_positions p st).
Proof. constructor; simpl; auto. Qed.

Lemma evolves_set_hashes (h : gset string) st :
  message_hashes st ⊆ h -> evolves st (set_hashes h st).
Proof. intros. constructor; simpl; auto. Qed.

Lemma evolves_set_cache (c : gset string) st :
  processed_message_cache st ⊆ c -> evolves st (set_cache c st).
Proof. intros. constructor; simpl; auto. Qed.

Lemma evolves_set_stats (p s g : nat) st :
  messages_processed st <= p -> messages_skipped st <= s -> alerts_generated st <= g ->
  evolves st (set_stats p s g st).
Proof. intros. constructor; simpl; auto. Qed.

Lemma length_deque_append (q : list alert) (a : alert) : length (deque_append q a) <= 100.
Proof. unfold deque_append. rewrite length_drop. lia. Qed.

Lemma evolves_set_active_alerts (q : list alert) st :
  length q <= 100 -> evolves st (set_active_alerts q st).
Proof. intros. constructor; simpl; auto. Qed.

End history.

Ltac step_evolves :=
  solve [ repeat first
    [ apply evolves_refl
    | (eapply evolves_trans; [ | apply evolves_emit ])
    | (eapply evolves_trans; [ | apply evolves_set_services ])
    | (eapply evolves_trans; [ | apply evolves_set_parser_stats ])
    | (eapply evolves_trans; [ | apply evolves_set_positions ])
    | (eapply evolves_trans; [ | apply evolves_set_cache; simpl; apply union_subseteq_r ])
    | (eapply evolves_trans;
       [ | apply evolves_set_active_alerts; apply length_deque_append ])
    | (eapply evolves_trans; [ | apply evolves_set_stats; simpl; lia ]) ] ].

Section moderator_more.
Variable strptime : string -> string -> result datetime.
Variable world : Type.
Variable analyze_message : gmap string pyval -> world -> analysis * world.
Variable get_embedding : pyval -> world -> option (list float) * world.
Variable vs_add_message :
  gmap string pyval -> analysis -> list float -> world -> result string * world.
Variable db_save_analysis :
  gmap string pyval -> analysis -> string -> world -> result bool * world.
Variable db_get_existing_message_ids :
  list (gmap string pyval) -> world -> result (gset string) * world.

Implicit Type st : moderator world.

Abbreviation _process_message_batch_optimized :=
  (_process_message_batch_optimized world analyze_message get_embedding vs_add_message
     db_save_analysis db_get_existing_message_ids).
Abbreviation process_new_lines :=
  (process_new_lines strptime world analyze_message get_embedding vs_add_message
     db_save_analysis db_get_existing_message_ids).
Abbreviation process_final_try :=
  (process_final_try world analyze_message get_embedding vs_add_message db_save_analysis).
Abbreviation process_final :=
  (process_final world analyze_message get_embedding vs_add_message db_save_analysis).

Lemma quick_message_check_evolves (m : gmap string pyval) st :
  evolves st (snd (_quick_message_check world m st)).
Proof.
  unfold _quick_message_check.
  destruct (realtime_key m); [ | apply evolves_refl].
  destruct (bool_decide _); [apply evolves_refl | ].
  destruct (content_hash m); [ | apply evolves_refl].
  destruct (bool_decide _); [apply evolves_refl | ].
  apply evolves_set_hashes, union_subseteq_r.
Qed.

Lemma prefilter_evolves (l : list (gmap string pyval)) st :
  evolves st (snd (prefilter world l st)).
Proof.
  revert st. induction l as [ | m l IH]; intros st; simpl; [apply evolves_refl | ].
  pose proof (quick_message_check_evolves m st) as Hq.
  destruct (_quick_message_check world m st) as [[[ | ] | e] st1]; simpl in Hq.
  - eapply evolves_trans; [ | apply IH].
    eapply evolves_trans; [exact Hq | apply evolves_set_stats; lia].
  - specialize (IH st1). destruct (prefilter world l st1) as [[u | e] st2];
      simpl in *; eapply evolves_trans; eassumption.
  - exact Hq.
Qed.

Lemma process_final_try_evolves (now : datetime) (m : gmap string pyval) st :
  evolves st (snd (process_final_try now m st)).
Proof.
  unfold Realtime.process_final_try.
  destruct (realtime_key m) as [key | e0]; [ | apply evolves_refl].
  destruct (analyze_message m (services st)) as [a w1].
  destruct (getitem m "text") as [text | e1]; [ | apply evolves_set_services].
  destruct (get_embedding _ w1) as [emb w2].
  destruct (has_embedding emb); [ | apply evolves_set_services].
  destruct (vs_add_message _ _ _ w2) as [[p | e] w3]; [ | simpl; step_evolves].
  destruct (db_save_analysis _ _ _ w3) as [[b | e] w4]; [ | simpl; step_evolves].
  destruct (requires_action a); [ | simpl; step_evolves].
  destruct (getitem m "username") as [[ | | u | ] | ]; try (simpl; step_evolves).
  destruct (negb _); [ | simpl; step_evolves].
  destruct (_create_alert now m a); simpl; step_evolves.
Qed.

Lemma process_final_evolves (clock : nat -> datetime) (t : nat)
    (l : list (gmap string pyval)) st :
  evolves st (snd (process_final clock t l st)).
Proof.
  revert t st. induction l as [ | m l IH]; intros t st; simpl; [apply evolves_refl | ].
  pose proof (process_final_try_evolves (clock t) m st) as Hp.
  destruct (process_final_try (clock t) m st) as [[al | e] st1]; simpl in Hp.
  - specialize (IH (S t) st1).
    destruct (process_final clock (S t) l st1) as [alerts st2]. simpl in *.
    eapply evolves_trans; eassumption.
  - eapply evolves_trans; [ | apply IH].
    eapply evolves_trans; [exact Hp | apply evolves_emit].
Qed.

Lemma process_batch_evolves (clock : nat -> datetime) (t : nat)
    (l : list (gmap string pyval)) st :
  evolves st (snd (_process_message_batch_optimized clock t l st)).
Proof.
  unfold Realtime._process_message_batch_optimized.
  destruct l as [ | m l]; [apply evolves_refl | ].
  pose proof (prefilter_evolves (m :: l) st) as Hp.
  destruct (prefilter world (m :: l) st) as [[[ | u us] | e] st1]; simpl in Hp;
    try exact Hp.
  - simpl. eapply evolves_trans; [exact Hp | apply evolves_emit].
  - destruct (db_get_existing_message_ids _ _) as [[ids | e] w];
      [ | simpl; eapply evolves_trans; [exact Hp | step_evolves]].
    destruct (final_check ids (u :: us)) as [[ | f fs] | e];
      try (simpl; eapply evolves_trans; [exact Hp | step_evolves]).
    match goal with
    | |- context [process_final clock t ?l ?s] =>
        pose proof (process_final_evolves clock t l s) as Hf;
        destruct (process_final clock t l s) as [alerts st4]
    end.
    simpl in Hf.
    assert (Hst4 : evolves st st4).
    { eapply evolves_trans; [exact Hp | ]. eapply evolves_trans; [ | exact Hf]. step_evolves. }
    destruct alerts; simpl; [exact Hst4 | ].
    eapply evolves_trans; [exact Hst4 | ]. unfold _handle_realtime_alerts. step_evolves.
Qed.

Lemma process_new_lines_evolves (fs : gmap string string) (clock : nat -> datetime)
    (filepath : string) st :
  evolves st (process_new_lines fs clock filepath st).
Proof.
  unfold Realtime.process_new_lines.
  destruct (fs !! filepath) as [content | ]; [ | apply evolves_refl].
  destruct (read_new_lines _ _) as [new_lines pos].
  destruct new_lines as [ | l ls]; [apply evolves_set_positions | ].
  destruct (parse_new_lines _ _ _ _ _ _) as [[[ | m ms] | e] d]; try step_evolves.
  match goal with
  | |- context [_process_message_batch_optimized ?c ?t ?l ?s] =>
      pose proof (process_batch_evolves c t l s) as Hb;
      destruct (_process_message_batch_optimized c t l s) as [[[] | e] st4]
  end; simpl in Hb.
  - eapply evolves_trans; [ | exact Hb]. step_evolves.
  - eapply evolves_trans; [ | apply evolves_emit].
    eapply evolves_trans; [ | exact Hb]. step_evolves.
Qed.

(** X8: an event forgets nothing: every key and every content hash
    that the moderator remembered is remembered afterwards, no counter
    has decreased, and what was printed and called before is the
    beginning of what is printed and called afterwards. *)
Theorem event_forgets_nothing (fs : gmap string string) (clock : nat -> datetime)
    (filepath : string) st :
  let st' := process_new_lines fs clock filepath st in
  processed_message_cache st ⊆ processed_message_cache st'
  /\ message_hashes st ⊆ message_hashes st'
  /\ messages_processed st <= messages_processed st'
  /\ messages_skipped st <= messages_skipped st'
  /\ alerts_generated st <= alerts_generated st'
  /\ events st `prefix_of` events st'.
Proof.
  destruct (process_new_lines_evolves fs clock filepath st). split_and!; assumption.
Qed.

(** X9: the queue of active alerts never holds more than a hundred
    alerts: an event on a moderator whose queue is within the bound
    leaves it within the bound. *)
Theorem active_alerts_bounded (fs : gmap string string) (clock : nat -> datetime)
    (filepath : string) st :
  length (active_alerts st) <= 100 ->
  length (active_alerts (process_new_lines fs clock filepath st)) <= 100.
Proof. exact (queue_bounded _ _ (process_new_lines_evolves fs clock filepath st)). Qed.

(** X10: the quick check lets a message through once: when it
    answered that a message is new, it answers that the message is
    known in every later state that remembers the hashes, and changes
    nothing then; whether the message was processed in between, failed
    or got no embedding plays no part. *)
Theorem quick_check_lets_through_once (m : gmap string pyval) st st1 st2 :
  _quick_message_check world m st = (Ok false, st1) ->
  message_hashes st1 ⊆ message_hashes st2 ->
  _quick_message_check world m st2 = (Ok true, st2).
Proof.
  unfold _quick_message_check. intros Hq Hsub.
  destruct (realtime_key m) as [key | e]; [ | discriminate].
  destruct (bool_decide (key ∈ processed_message_cache st)); [discriminate | ].
  destruct (content_hash m) as [h | e]; [ | discriminate].
  destruct (bool_decide (h ∈ message_hashes st)); [discriminate | ].
  injection Hq as <-. simpl in Hsub.
  destruct (bool_decide (key ∈ processed_message_cache st2)); [reflexivity | ].
  rewrite bool_decide_eq_true_2; [reflexivity | ].
  apply Hsub, elem_of_union_l, elem_of_singleton. reflexivity.
Qed.

(** X11: once a message was counted as processed, the quick check
    answers that every message with the same user name and the same
    time stamp is known, whatever its text, in every later state that
    remembers the keys. *)
Theorem same_user_same_second_is_known (now : datetime) (m m' : gmap string pyval)
    (key : string) st st2 :
  realtime_key m = Ok key ->
  realtime_key m' = Ok key ->
  messages_processed (snd (process_final_try now m st)) = S (messages_processed st) ->
  processed_message_cache (snd (process_final_try now m st)) ⊆ processed_message_cache st2 ->
  _quick_message_check world m' st2 = (Ok true, st2).
Proof.
  intros Hkey Hkey' Hcount Hsub.
  assert (Hin : key ∈ processed_message_cache (snd (process_final_try now m st))).
  { revert Hcount. clear Hsub. unfold Realtime.process_final_try. rewrite Hkey.
    destruct (analyze_message m (services st)) as [a w1].
    destruct (getitem m "text") as [text | e1]; [ | simpl; lia].
    destruct (get_embedding _ w1) as [emb w2].
    destruct (has_embedding emb); [ | simpl; lia].
    destruct (vs_add_message _ _ _ w2) as [[p | e] w3]; [ | simpl; lia].
    destruct (db_save_analysis _ _ _ w3) as [[b | e] w4]; [ | simpl; lia].
    assert (Hk : key ∈ {[key]} ∪ processed_message_cache st)
      by (apply elem_of_union_l, elem_of_singleton; reflexivity).
    destruct (requires_action a); [ | intros _; exact Hk].
    destruct (getitem m "username") as [[ | | u | ] | ]; try (intros _; exact Hk).
    destruct (negb _); [ | intros _; exact Hk].
    destruct (_create_alert now m a); intros _; exact Hk. }
  unfold _quick_message_check. rewrite Hkey'.
  rewrite bool_decide_eq_true_2 by (apply Hsub, Hin). reflexivity.
Qed.


Lemma drop_chars_beyond (n : nat) (s : string) :
  String.length s <= n -> Regex.drop_chars n s = "".
Proof.
  revert n. induction s as [ | c s IH]; intros n H.
  - destruct n; reflexivity.
  - destruct n; simpl in H; [lia | ]. simpl. apply IH. lia.
Qed.

(** X13: a file whose cursor is at or beyond its end is not read: an
    event on a file that has become shorter than it was reads no line
    and leaves the moderator as it is, the cursor included, so that
    what is written to the file is not seen before the file outgrows
    the cursor. *)
Theorem shrunk_file_is_not_read (fs : gmap string string) (clock : nat -> datetime)
    (filepath content : string) (cursor : nat) st :
  fs !! filepath = Some content ->
  file_positions st !! filepath = Some cursor ->
  String.length content <= cursor ->
  read_new_lines content cursor = ([], cursor)
  /\ process_new_lines fs clock filepath st = st.
Proof.
  intros Hfs Hpos Hle.
  assert (Hread : read_new_lines content cursor = ([], cursor)).
  { unfold read_new_lines. rewrite drop_chars_beyond by exact Hle.
    rewrite Nat.max_l by exact Hle. reflexivity. }
  split; [exact Hread | ].
  unfold Realtime.process_new_lines. rewrite Hfs, Hpos.
  change (default 0 (Some cursor)) with cursor. rewrite Hread.
  rewrite insert_id by exact Hpos. apply RealtimeFacts.set_positions_same.
Qed.

End moderator_more.

End RealtimeMore.

(** ** User names: case and white space *)

Module UsernameFacts.
Import Utils Shapes.

Lemma is_space_lower_char (c : ascii) : is_space (lower_char c) = is_space c.
Proof. destruct c as [[] [] [] [] [] [] [] []]; reflexivity. Qed.

Lemma lower_lstrip (s : string) : lower (lstrip s) = lstrip (lower s).
Proof.
  induction s as [ | c s IH]; [reflexivity | ].
  cbn [lstrip lower]. rewrite is_space_lower_char.
  destruct (is_space c); [exact IH | reflexivity].
Qed.

Lemma lower_rstrip (s : string) : lower (rstrip s) = rstrip (lower s).
Proof.
  induction s as [ | c s IH]; [reflexivity | ].
  cbn [rstrip lower]. rewrite <- IH, is_space_lower_char.
  destruct (rstrip s); cbn [lower]; [destruct (is_space c) | ]; reflexivity.
Qed.

Lemma lower_strip (s : string) : lower (strip s) = strip (lower s).
Proof. unfold strip. rewrite lower_rstrip, lower_lstrip. reflexivity. Qed.

Lemma lstrip_all_space (s : string) : all_space s = true -> lstrip s = "".
Proof.
  induction s as [ | c s IH]; [reflexivity | ].
  cbn [all_space lstrip]. intros H. apply andb_true_iff in H as [-> H]. exact (IH H).
Qed.

Lemma rstrip_all_space (s : string) : all_space s = true -> rstrip s = "".
Proof.
  induction s as [ | c s IH]; [reflexivity | ].
  cbn [all_space rstrip]. intros H. apply andb_true_iff in H as [-> H].
  rewrite (IH H). reflexivity.
Qed.

Lemma rstrip_append (s post : string) : all_space post = true -> rstrip (s +:+ post) = rstrip s.
Proof.
  intros H. induction s as [ | c s IH]; StringFacts.app_simpl.
  - exact (rstrip_all_space post H).
  - cbn [rstrip]. rewrite IH. reflexivity.
Qed.

Lemma strip_append (w post : string) :
  all_space post = true -> strip (w +:+ post) = strip w.
Proof.
  intros H. unfold strip. induction w as [ | c w IH]; StringFacts.app_simpl.
  - rewrite (lstrip_all_space post H). reflexivity.
  - cbn [lstrip]. destruct (is_space c); [exact IH | ].
    exact (rstrip_append (String c w) post H).
Qed.

Lemma strip_prepend (pre s : string) : all_space pre = true -> strip (pre +:+ s) = strip s.
Proof.
  unfold strip. induction pre as [ | c pre IH]; StringFacts.app_simpl; [reflexivity | ].
  cbn [all_space lstrip]. intros H. apply andb_true_iff in H as [-> H]. exact (IH H).
Qed.

(** X14: the id does not tell the case of the user name, nor the
    white space around it: a user name written in another case and
    between white space gives the id of the user name itself. *)
Theorem id_ignores_case_and_padding (now : datetime) (m : gmap string pyval)
    (u w pre post : string) :
  all_space pre = true -> all_space post = true -> lower w = lower u ->
  generate_message_id now (<["username" := PStr (pre +:+ (w +:+ post))]> m)
  = generate_message_id now (<["username" := PStr u]> m).
Proof.
  intros Hpre Hpost Hw.
  unfold generate_message_id, timestamp_form, normalize_username.
  rewrite !lookup_insert_eq, !lookup_insert_ne by done. simpl.
  rewrite (strip_prepend pre _ Hpre), (strip_append w post Hpost).
  rewrite !lower_strip, Hw. reflexivity.
Qed.

End UsernameFacts.

(** ** The line parser: colons, statistics, and what enrichment accepts *)

Module ParserMore.
Import Regex Parser Shapes.
Local Open Scope list_scope.

Lemma contains_char_drop_chars (c : ascii) (n : nat) (s : string) :
  contains_char c (drop_chars n s) = true -> contains_char c s = true.
Proof.
  revert s. induction n as [ | n IH]; intros s H; [destruct s; exact H | ].
  destruct s as [ | x s]; [exact H | ].
  rewrite RealtimeFacts.contains_char_cons. rewrite (IH s H). apply orb_true_r.
Qed.

Lemma try_down_some {A} (f : nat -> option A) (lo d : nat) (r : A) :
  try_down f lo d = Some r -> exists i, f i = Some r.
Proof.
  induction d as [ | d IH]; simpl.
  - destruct (f (lo + 0)) eqn:E; [intros [= <-]; eauto | discriminate].
  - destruct (f (lo + S d)) eqn:E; [intros [= <-]; eauto | exact IH].
Qed.

(** What follows a match receives the line without some of its first
    characters. *)
Lemma match_atoms_rest {A} (atoms : list atom) (s : string) (k : string -> option A) (r : A) :
  match_atoms atoms s k = Some r -> exists n, k (drop_chars n s) = Some r.
Proof.
  revert s. induction atoms as [ | a atoms IH]; intros s H.
  - exists 0. destruct s; exact H.
  - destruct a as [c | p mn mx]; cbn [match_atoms] in H.
    + destruct s as [ | c' s]; [discriminate | ].
      destruct (Ascii.eqb c c'); [ | discriminate].
      destruct (IH s H) as [n Hn]. exists (S n). exact Hn.
    + destruct (run p mx s <? mn)%nat; [discriminate | ].
      apply try_down_some in H as [i Hi]. destruct (IH _ Hi) as [n Hn].
      exists (i + n). revert Hn. clear. revert s.
      induction i as [ | i IHi]; intros s Hn; [destruct s; exact Hn | ].
      destruct s as [ | x s]; [ | exact (IHi s Hn)].
      simpl in *. destruct n; exact Hn.
Qed.

(** A line that a sequence of atoms matches holds every literal of the
    sequence. *)
Lemma match_atoms_mention {A} (c : ascii) (atoms : list atom) (s : string)
    (k : string -> option A) (r : A) :
  atoms_mention c atoms = true -> match_atoms atoms s k = Some r -> contains_char c s = true.
Proof.
  revert s. induction atoms as [ | a atoms IH]; intros s Hm H; [discriminate | ].
  destruct a as [c' | p mn mx]; cbn [match_atoms] in H; cbn [atoms_mention existsb] in Hm.
  - destruct s as [ | x s]; [discriminate | ].
    destruct (Ascii.eqb_spec c' x) as [<- | ]; [ | discriminate].
    rewrite RealtimeFacts.contains_char_cons.
    destruct (Ascii.eqb c c'); [reflexivity | ]. simpl in Hm.
    rewrite (IH s Hm H). reflexivity.
  - simpl in Hm. destruct (run p mx s <? mn)%nat; [discriminate | ].
    apply try_down_some in H as [i Hi].
    exact (contains_char_drop_chars c i s (IH _ Hm Hi)).
Qed.

Lemma match_nodes_mention (c : ascii) (ns : regex) (s : string) (groups r : list string) :
  mentions c ns = true -> match_nodes ns s groups = Some r -> contains_char c s = true.
Proof.
  revert s groups. induction ns as [ | n ns IH]; intros s groups Hm H; [discriminate | ].
  cbn [mentions existsb] in Hm. apply orb_true_iff in Hm as [Hm | Hm].
  - destruct n as [a | body]; cbn [match_nodes] in H;
      exact (match_atoms_mention c _ s _ r Hm H).
  - destruct n as [a | body]; cbn [match_nodes] in H;
      apply match_atoms_rest in H as [i Hi];
      exact (contains_char_drop_chars c i s (IH _ _ Hm Hi)).
Qed.

Lemma patterns_mention_colon : forallb (mentions ":") patterns = true.
Proof. vm_compute. reflexivity. Qed.

Section parser_more.
Variable strptime : string -> string -> result datetime.

Lemma try_patterns_no_colon (now : datetime) (i : nat) (pats : list regex) (line : string) :
  forallb (mentions ":") pats = true -> contains_char ":" line = false ->
  try_patterns strptime now i pats line = Ok None.
Proof.
  revert i. induction pats as [ | p pats IH]; intros i Hm Hline; [reflexivity | ].
  cbn [forallb] in Hm. apply andb_true_iff in Hm as [Hp Hm].
  cbn [try_patterns].
  destruct (re_match p line) as [groups | ] eqn:Hre.
  - unfold re_match in Hre. rewrite (match_nodes_mention ":" p line [] groups Hp Hre) in Hline.
    discriminate.
  - exact (IH (S i) Hm Hline).
Qed.

(** X15: a line that holds no colon is never a message, in either
    mode and whatever the time stamps are: no pattern matches it, the
    parser answers [None] and counts nothing; and outside of the debug
    mode a line that holds a colon is a message whenever the parser
    returns. *)
Theorem message_needs_colon (now : datetime) (line : string) (debug_mode : bool)
    (st : debug_stats) :
  (contains_char ":" line = false ->
   _parse_line strptime now line debug_mode st = (Ok None, st))
  /\ (contains_char ":" line = true ->
      forall r, fst (_parse_line strptime now line false st) = Ok r -> is_Some r).
Proof.
  split.
  - intros Hline. unfold _parse_line.
    rewrite (try_patterns_no_colon now 0 patterns line patterns_mention_colon Hline).
    rewrite Hline. destruct debug_mode; reflexivity.
  - intros Hline r. unfold _parse_line.
    destruct (try_patterns strptime now 0 patterns line) as [[[i m] | ] | e]; simpl.
    + intros [= <-]. eexists. reflexivity.
    + rewrite Hline. simpl. intros [= <-]. eexists. reflexivity.
    + discriminate.
Qed.

Lemma parsed_message_shape (d : datetime) (ts u t line : string) (i : Z) :
  parsed_shape (parsed_message d ts u t line i).
Proof.
  split; eexists; unfold parsed_message.
  - apply lookup_insert_eq.
  - rewrite !lookup_insert_ne by done. apply lookup_insert_eq.
Qed.

Lemma try_patterns_shape (now : datetime) (i j : nat) (pats : list regex) (line : string)
    (m : gmap string pyval) :
  try_patterns strptime now i pats line = Ok (Some (j, m)) -> parsed_shape m.
Proof.
  revert i. induction pats as [ | p pats IH]; intros i H; [discriminate | ].
  cbn [try_patterns] in H.
  destruct (re_match p line) as [[ | ts [ | u [ | t groups]]] | ]; try exact (IH _ H).
  destruct (_parse_timestamp strptime now ts) as [[d | ] | e]; [ | exact (IH _ H) | discriminate].
  injection H as _ <-. apply parsed_message_shape.
Qed.

Lemma parse_line_shape (now : datetime) (line : string) (debug_mode : bool)
    (st st' : debug_stats) (m : gmap string pyval) :
  _parse_line strptime now line debug_mode st = (Ok (Some m), st') -> parsed_shape m.
Proof.
  unfold _parse_line.
  destruct (try_patterns strptime now 0 patterns line) as [[[i m'] | ] | e] eqn:Htry.
  - intros [= <- _]. exact (try_patterns_shape now 0 i patterns line m' Htry).
  - destruct debug_mode; [discriminate | ].
    destruct (contains_char ":" line); [ | discriminate].
    intros [= <- _]. unfold fallback_message. apply parsed_message_shape.
  - discriminate.
Qed.

Lemma parsed_shape_insert (k : string) (v : pyval) (m : gmap string pyval) :
  k <> "timestamp" -> k <> "text" -> parsed_shape m -> parsed_shape (<[k := v]> m).
Proof.
  intros H1 H2 [[d Hd] [t Ht]]. split; eexists; rewrite lookup_insert_ne by done; eassumption.
Qed.

(** What [parse_lines] leaves: messages of the parser's shape, as many
    as it counted, with line numbers that grow. *)
Lemma parse_lines_counts (clock : nat -> datetime) (debug_mode : bool) (name : string)
    (line_num : nat) (lines : list string) (st st' : debug_stats)
    (messages : list (gmap string pyval)) :
  parse_lines strptime clock debug_mode name line_num lines st = (Ok messages, st') ->
  Forall parsed_shape messages
  /\ parsed_lines st' = parsed_lines st + length messages
  /\ total_lines st <= total_lines st'
  /\ total_lines st' - total_lines st <= length lines
  /\ length messages <= total_lines st' - total_lines st
  /\ (length (unknown_format_lines st) <= 10 -> length (unknown_format_lines st') <= 10)
  /\ (debug_mode = false -> unknown_format_lines st' = unknown_format_lines st)
  /\ (exists nums, line_numbers messages = (fun n => PInt (Z.of_nat n)) <$> nums
                   /\ Sorted lt nums /\ Forall (fun n => line_num <= n < line_num + length lines) nums).
Proof.
  revert line_num st st' messages.
  induction lines as [ | line0 rest IH]; intros line_num st st' messages H; cbn [parse_lines] in H.
  - injection H as <- <-. split_and!; try (simpl; lia); try done.
    exists []. split_and!; constructor.
  - assert (Hshift : forall nums,
              Forall (fun n => S line_num <= n < S line_num + length rest) nums ->
              Forall (fun n => line_num <= n < line_num + length (line0 :: rest)) nums).
    { intros nums Hn. eapply Forall_impl; [exact Hn | ]. intros n. simpl. lia. }
    cbv zeta in H. destruct (String.eqb (strip line0) "").
    + apply IH in H as (Hs & Hp & Ht1 & Ht2 & Ht3 & Hu & Hd & nums & Hn & Hsorted & Hrange).
      split_and!; try assumption; try (simpl; lia).
      exists nums. split_and!; [assumption | assumption | exact (Hshift _ Hrange)].
    + destruct (_parse_line strptime (clock line_num) (strip line0) debug_mode _)
        as [[[parsed | ] | e] st2] eqn:Hline; [ | | discriminate].
      * assert (Hst2 : total_lines st2 = S (total_lines st)
                       /\ parsed_lines st2 = parsed_lines st
                       /\ unknown_format_lines st2 = unknown_format_lines st).
        { revert Hline. unfold _parse_line.
          destruct (try_patterns _ _ _ _ _) as [[[i m'] | ] | e]; [ | | discriminate].
          - intros [= _ <-]. split_and!; reflexivity.
          - destruct debug_mode; [discriminate | ].
            destruct (contains_char ":" (strip line0)); [ | discriminate].
            intros [= _ <-]. split_and!; reflexivity. }
        destruct Hst2 as (T2 & P2 & U2).
        destruct (parse_lines _ _ _ _ _ rest _) as [[msgs | e] st4] eqn:Hrest; [ | discriminate].
        injection H as <- <-.
        apply IH in Hrest as (Hs & Hp & Ht1 & Ht2 & Ht3 & Hu & Hd & nums & Hn & Hsorted & Hrange).
        simpl in *. split_and!; try lia.
        -- constructor; [ | exact Hs].
           apply parsed_shape_insert; [done | done | ].
           apply parsed_shape_insert; [done | done | ].
           exact (parse_line_shape _ _ _ _ _ _ Hline).
        -- rewrite U2 in Hu. exact Hu.
        -- intros Hdm. rewrite (Hd Hdm). exact U2.
        -- exists (line_num :: nums). unfold line_numbers in *. cbn [omap].
           rewrite lookup_insert_ne by done. rewrite lookup_insert_eq. cbn.
           fold (omap (fun m : gmap string pyval => m !! "line_number") msgs).
           rewrite Hn. split_and!; [reflexivity | | ].
           ++ constructor; [exact Hsorted | ].
              destruct nums as [ | n nums]; constructor.
              apply Forall_cons in Hrange as [Hn0 _]. lia.
           ++ constructor; [lia | ]. eapply Forall_impl; [exact Hrange | ].
              intros n. simpl. lia.
      * assert (Hst2 : total_lines st2 = S (total_lines st)
                       /\ parsed_lines st2 = parsed_lines st
                       /\ unknown_format_lines st2 = unknown_format_lines st).
        { revert Hline. unfold _parse_line.
          destruct (try_patterns _ _ _ _ _) as [[[i m'] | ] | e]; [discriminate | | discriminate].
          destruct debug_mode; [intros [= <-]; split_and!; reflexivity | ].
          destruct (contains_char ":" (strip line0)); [discriminate | ].
          intros [= <-]. split_and!; reflexivity. }
        destruct Hst2 as (T2 & P2 & U2).
        apply IH in H as (Hs & Hp & Ht1 & Ht2 & Ht3 & Hu & Hd & nums & Hn & Hsorted & Hrange).
        destruct (debug_mode && (length (unknown_format_lines st2) <? 10)%nat) eqn:Hdbg;
          simpl in *.
        -- apply andb_true_iff in Hdbg as [-> Hlt]. apply Nat.ltb_lt in Hlt.
           rewrite length_app in Hu. simpl in Hu.
           split_and!; try assumption; try lia; try discriminate.
           exists nums. split_and!; [assumption | assumption | exact (Hshift _ Hrange)].
        -- split_and!; try assumption; try lia;
             try (rewrite U2 in Hu; exact Hu);
             try (intros Hdm; rewrite (Hd Hdm); exact U2).
           exists nums. split_and!; [assumption | assumption | exact (Hshift _ Hrange)].
Qed.

(** X16: the statistics of a parsed file agree with its messages:
    the parser counted as many parsed lines as it returned messages,
    no more than the lines that are not blank, which are no more than
    the lines of the file; it kept at most ten lines of unknown
    format, and none outside of the debug mode; and the messages carry
    line numbers of the file that grow. *)
Theorem parse_file_statistics (fs : gmap string string) (clock : nat -> datetime)
    (filepath content : string) (debug_mode : bool) (st0 st' : debug_stats)
    (messages : list (gmap string pyval)) :
  fs !! filepath = Some content ->
  parse_file strptime fs clock filepath debug_mode st0 = (Ok messages, st') ->
  parsed_lines st' = length messages
  /\ parsed_lines st' <= total_lines st'
  /\ total_lines st' <= length (readlines content)
  /\ length (unknown_format_lines st') <= 10
  /\ (debug_mode = false -> unknown_format_lines st' = [])
  /\ (exists nums, line_numbers messages = (fun n => PInt (Z.of_nat n)) <$> nums
                   /\ Sorted lt nums
                   /\ Forall (fun n => 1 <= n <= length (readlines content)) nums).
Proof.
  intros Hfs. unfold parse_file. rewrite Hfs. intros H.
  apply parse_lines_counts in H
    as (_ & Hp & Ht1 & Ht2 & Ht3 & Hu & Hd & nums & Hn & Hsorted & Hrange).
  simpl in *. split_and!; try lia; try assumption.
  exists nums. split_and!; [assumption | assumption | ].
  eapply Forall_impl; [exact Hrange | ]. intros n. simpl. lia.
Qed.

Lemma enrich_accepts (parse_date : string -> option datetime) (now : datetime)
    (m : gmap string pyval) :
  parsed_shape m ->
  exists e, Utils.enrich parse_date now m = (e, Ok tt)
            /\ e !! "timestamp" = m !! "timestamp" /\ e !! "text" = m !! "text".
Proof.
  intros [[d Hd] [t Ht]].
  unfold Utils.enrich, Utils.enrich_message, Utils.normalize_timestamp.
  rewrite Hd. simpl. rewrite Hd.
  match goal with
  | |- context [Utils.generate_message_id now ?m4] =>
      assert (Hd4 : m4 !! "timestamp" = Some (PDatetime d));
      [ | assert (Ht4 : m4 !! "text" = Some (PStr t)) ]
  end.
  - destruct (truthy_get _); rewrite !lookup_insert_ne by done; exact Hd.
  - destruct (truthy_get _); rewrite !lookup_insert_ne by done; exact Ht.
  - unfold Utils.generate_message_id. rewrite Ht4. simpl.
    eexists. split; [reflexivity | ].
    rewrite !(lookup_insert_ne _ "message_id") by done.
    rewrite Hd4, Ht4, ?Hd, ?Ht. split; reflexivity.
Qed.

Lemma enrich_all_accepts (parse_date : string -> option datetime) (clock : nat -> datetime)
    (t : nat) (messages : list (gmap string pyval)) :
  Forall parsed_shape messages ->
  exists enriched,
    Dedup.enrich_all parse_date clock t messages = (enriched, Ok tt)
    /\ Forall2 (fun m e => e !! "timestamp" = m !! "timestamp" /\ e !! "text" = m !! "text")
         messages enriched.
Proof.
  intros H. revert t. induction H as [ | m l Hm _ IH]; intros t.
  - exists []. split; [reflexivity | constructor].
  - destruct (enrich_accepts parse_date (clock t) m Hm) as (e & He & Hkeep).
    destruct (IH (S t)) as (l' & Hl & Hl').
    exists (e :: l'). cbn [Dedup.enrich_all]. rewrite He, Hl.
    split; [reflexivity | constructor; assumption].
Qed.

(** X17: enrichment accepts every message that the parser returns
    for a file: the batch is enriched without a raise, message by
    message, and each message keeps the time stamp that the parser
    read and its text; so the filter falls back for a failure of a
    store only, never for a message of the parser. *)
Theorem parsed_file_is_enriched (parse_date : string -> option datetime)
    (fs : gmap string string) (clock clock' : nat -> datetime) (filepath : string)
    (debug_mode : bool) (st0 st' : debug_stats) (messages : list (gmap string pyval)) :
  parse_file strptime fs clock filepath debug_mode st0 = (Ok messages, st') ->
  exists enriched,
    Dedup.enrich_all parse_date clock' 0 messages = (enriched, Ok tt)
    /\ Forall2 (fun m e => e !! "timestamp" = m !! "timestamp" /\ e !! "text" = m !! "text")
         messages enriched.
Proof.
  intros H. apply enrich_all_accepts. revert H. unfold parse_file.
  destruct (fs !! filepath) as [content | ].
  - intros H. apply parse_lines_counts in H as (Hs & _). exact Hs.
  - intros [= <- _]. constructor.
Qed.

End parser_more.
End ParserMore.

(** ** The catch-up at start: where it leaves the cursor *)

Module CatchupFacts.
Import Processor Realtime Catchup.
Local Open Scope list_scope.

Lemma length_concat (lines : list string) :
  String.length (String.concat "" lines) = total_length lines.
Proof.
  induction lines as [ | l rest IH]; [reflexivity | ].
  cbn [String.concat total_length]. destruct rest as [ | l' rest].
  - simpl. lia.
  - StringFacts.app_simpl. rewrite StringFacts.length_append, IH. reflexivity.
Qed.

Lemma length_append_char (cur : string) (c : ascii) :
  String.length (cur +:+ String c "") = S (String.length cur).
Proof. rewrite StringFacts.length_append. simpl. lia. Qed.

Lemma crlf_pairs_other (c : ascii) (s : string) :
  c <> "013"%char -> crlf_pairs (String c s) = crlf_pairs s.
Proof.
  intros Hc. cbn [crlf_pairs]. apply Ascii.eqb_neq in Hc. rewrite Hc.
  destruct s; reflexivity.
Qed.

Lemma crlf_pairs_crlf (s : string) :
  crlf_pairs (String "013" (String "010" s)) = S (crlf_pairs s).
Proof.
  change (crlf_pairs (String "013" (String "010" s)))
    with (1 + crlf_pairs (String "010" s)).
  rewrite crlf_pairs_other by discriminate. reflexivity.
Qed.

Lemma crlf_pairs_cr (c : ascii) (s : string) :
  c <> "010"%char -> crlf_pairs (String "013" (String c s)) = crlf_pairs (String c s).
Proof.
  intros Hc. apply Ascii.eqb_neq in Hc.
  change (crlf_pairs (String "013" (String c s)))
    with ((if true && Ascii.eqb c "010" then 1 else 0) + crlf_pairs (String c s)).
  rewrite Hc. reflexivity.
Qed.

Lemma readlines_from_crlf (cur s : string) :
  readlines_from cur (String "013" (String "010" s))
  = (cur +:+ String "010" "") :: readlines_from "" s.
Proof. reflexivity. Qed.

Lemma readlines_from_cr (cur : string) (c : ascii) (s : string) :
  c <> "010"%char ->
  readlines_from cur (String "013" (String c s))
  = (cur +:+ String "010" "") :: readlines_from "" (String c s).
Proof.
  intros Hc. apply Ascii.eqb_neq in Hc.
  change (readlines_from cur (String "013" (String c s)))
    with (if Ascii.eqb c "010" then (cur +:+ String "010" "") :: readlines_from "" s
          else (cur +:+ String "010" "") :: readlines_from "" (String c s)).
  rewrite Hc. reflexivity.
Qed.

Lemma readlines_from_nil (cur : string) :
  total_length (readlines_from cur "") = String.length cur.
Proof.
  cbn [readlines_from]. destruct (String.eqb_spec cur "") as [-> | Hne]; simpl; lia.
Qed.

(** The lines that are read are as long as the text, less one
    character for each carriage return that a line feed follows. *)
Lemma readlines_from_length (n : nat) (s cur : string) :
  String.length s <= n ->
  total_length (readlines_from cur s) + crlf_pairs s = String.length cur + String.length s.
Proof.
  revert s cur. induction n as [ | n IH]; intros s cur Hn.
  - destruct s; [ | simpl in Hn; lia]. rewrite readlines_from_nil. simpl. lia.
  - destruct s as [ | c s]; [rewrite readlines_from_nil; simpl; lia | ].
    simpl in Hn.
    destruct (Ascii.eqb_spec c "010") as [-> | Hlf].
    + rewrite RealtimeFacts.readlines_from_line_feed, crlf_pairs_other by discriminate.
      cbn [total_length]. rewrite length_append_char.
      pose proof (IH s "" ltac:(lia)) as H. simpl in *. lia.
    + destruct (Ascii.eqb_spec c "013") as [-> | Hcr].
      * destruct s as [ | c' s'].
        -- simpl. rewrite length_append_char. lia.
        -- simpl in Hn. destruct (Ascii.eqb_spec c' "010") as [-> | Hlf'].
           ++ rewrite readlines_from_crlf, crlf_pairs_crlf.
              cbn [total_length]. rewrite length_append_char.
              pose proof (IH s' "" ltac:(lia)) as H. simpl in *. lia.
           ++ rewrite readlines_from_cr, crlf_pairs_cr by exact Hlf'.
              cbn [total_length]. rewrite length_append_char.
              pose proof (IH (String c' s') "" ltac:(simpl; lia)) as H. simpl in *. lia.
      * rewrite RealtimeFacts.readlines_from_char, crlf_pairs_other
          by first [assumption | apply Ascii.eqb_neq; assumption].
        pose proof (IH s (cur +:+ String c "") ltac:(lia)) as H.
        rewrite length_append_char in H. simpl. lia.
Qed.

Lemma crlf_pairs_none (s : string) : contains_char "013" s = false -> crlf_pairs s = 0.
Proof.
  induction s as [ | c s IH]; [reflexivity | ].
  rewrite RealtimeFacts.contains_char_cons. intros H.
  apply orb_false_iff in H as [Hc Hs]. rewrite Ascii.eqb_sym in Hc.
  rewrite crlf_pairs_other by (apply Ascii.eqb_neq; exact Hc). exact (IH Hs).
Qed.

Lemma crlf_pairs_length (s : string) : crlf_pairs s <= String.length s.
Proof.
  induction s as [ | c s IH]; [reflexivity | ].
  cbn [crlf_pairs]. simpl String.length.
  destruct s as [ | c' s']; [simpl; lia | ].
  destruct (Ascii.eqb c "013" && Ascii.eqb c' "010"); simpl in *; lia.
Qed.

Lemma readlines_from_not_nil (cur s : string) :
  s <> "" -> readlines_from cur s <> [].
Proof.
  revert cur. induction s as [ | c s IH]; intros cur Hs; [done | ].
  destruct (Ascii.eqb_spec c "010") as [-> | Hlf];
    [rewrite RealtimeFacts.readlines_from_line_feed; discriminate | ].
  destruct (Ascii.eqb_spec c "013") as [-> | Hcr].
  - destruct s as [ | c' s']; [discriminate | ].
    destruct (Ascii.eqb_spec c' "010") as [-> | Hlf'];
      [rewrite readlines_from_crlf | rewrite readlines_from_cr by exact Hlf']; discriminate.
  - rewrite RealtimeFacts.readlines_from_char by (apply Ascii.eqb_neq; assumption).
    destruct s as [ | c' s']; [ | apply IH; discriminate].
    cbn [readlines_from]. destruct (String.eqb_spec (cur +:+ String c "") "") as [He | Hne];
      [ | discriminate].
    apply (f_equal String.length) in He. rewrite length_append_char in He. discriminate.
Qed.

Lemma drop_chars_not_nil (n : nat) (s : string) :
  n < String.length s -> Regex.drop_chars n s <> "".
Proof.
  revert s. induction n as [ | n IH]; intros s H.
  - destruct s; [simpl in H; lia | discriminate].
  - destruct s as [ | c s]; [simpl in H; lia | ]. simpl in *. apply IH. lia.
Qed.

Section catchup_facts.
Variable strptime : string -> string -> result datetime.
Variable world : Type.
Variable analyze_message : gmap string pyval -> world -> analysis * world.
Variable get_embedding : pyval -> world -> option (list float) * world.
Variable vs_add_message :
  gmap string pyval -> analysis -> list float -> world -> result string * world.
Variable db_save_analysis :
  gmap string pyval -> analysis -> string -> world -> result bool * world.
Variable db_get_existing_message_ids :
  list (gmap string pyval) -> world -> result (gset string) * world.

Implicit Type st : moderator world.

Abbreviation catchup_file :=
  (catchup_file strptime world analyze_message get_embedding vs_add_message
     db_save_analysis db_get_existing_message_ids).

Lemma catchup_file_positions (clock : nat -> datetime) (filepath content : string) st :
  file_positions (fst (catchup_file clock filepath content st))
  = <[filepath := String.length (String.concat "" (readlines content))]> (file_positions st).
Proof.
  unfold Catchup.catchup_file.
  destruct (parse_recent_lines _ _ _ _ _ _) as [[[ | m ms] | e] d]; try reflexivity.
  match goal with
  | |- context [_process_message_batch_optimized ?w ?a ?g ?v ?s ?q ?c ?t ?l ?s0] =>
      pose proof (RealtimeFacts.process_batch_positions w a g v s q c t l s0) as Hb;
      destruct (_process_message_batch_optimized w a g v s q c t l s0) as [[[] | e] st4]
  end; simpl in *; exact Hb.
Qed.

(** X18: the catch-up leaves the cursor of a file at the length of
    its text less one character for each carriage return that a line
    feed follows: at the end of a file that holds no carriage return,
    and before the end of a file with such line ends, so that the
    first event on that file reads again text that the catch-up had
    read. *)
Theorem catchup_cursor (clock : nat -> datetime) (filepath content : string) st :
  let st' := fst (catchup_file clock filepath content st) in
  let cursor := String.length content - crlf_pairs content in
  file_positions st' !! filepath = Some cursor
  /\ (contains_char "013" content = false -> cursor = String.length content)
  /\ (0 < crlf_pairs content ->
      cursor < String.length content /\ fst (read_new_lines content cursor) <> []).
Proof.
  intros st' cursor.
  assert (Hlen : String.length (String.concat "" (readlines content)) = cursor).
  { rewrite length_concat. unfold readlines, cursor.
    pose proof (readlines_from_length (String.length content) content "" (Nat.le_refl _)) as H.
    simpl in H. lia. }
  split_and!.
  - unfold st'. rewrite catchup_file_positions, Hlen. apply lookup_insert_eq.
  - intros Hcr. unfold cursor. rewrite (crlf_pairs_none content Hcr). lia.
  - intros Hpos. pose proof (crlf_pairs_length content) as Hle.
    assert (Hlt : cursor < String.length content) by (unfold cursor; lia).
    split; [exact Hlt | ]. unfold read_new_lines, readlines. simpl.
    apply readlines_from_not_nil, drop_chars_not_nil. exact Hlt.
Qed.

End catchup_facts.
End CatchupFacts.

Module CatchupChecks.
Import Samples CatchupSamples Realtime.
Local Open Scope list_scope.

(** C8: a log with the line ends of Windows that is in the directory
    at start. The catch-up processes its four lines and leaves the
    cursor four characters before the end of the file, one for each
    line end. After one line is appended, the event reads two lines,
    the first made of the last characters of the old text, and two
    messages are processed and sent to the stores, where one line was
    appended; the cursor is then at the end of the file. *)
Theorem crlf_log_is_read_again :
  String.length windows_log = 148
  /\ file_positions caught_up !! "data/logs/chat.log" = Some 144
  /\ messages_processed caught_up = 4
  /\ fst (read_new_lines (windows_log +:+ windows_line) 144)
     = [":)" +:+ line_feed; "[2025-05-30 19:31:27] <erin> hello" +:+ line_feed]
  /\ take (length (events caught_up)) (events after_event) = events caught_up
  /\ drop (length (events caught_up)) (events after_event)
     = [LogNewLines 2 "chat.log"; LogProcessing 2 2; DbQuery 2;
        VectorAdd (PStr "bot_or_unknown_2026-01-01T12:00:00_9371d7a2");
        DbSave (PStr "bot_or_unknown_2026-01-01T12:00:00_9371d7a2") "point-1";
        VectorAdd (PStr "erin_2025-05-30T19:31:27_5d41402a");
        DbSave (PStr "erin_2025-05-30T19:31:27_5d41402a") "point-1"]
  /\ messages_processed after_event = 6
  /\ file_positions after_event !! "data/logs/chat.log" = Some 184.
Proof. split_and!; vm_compute; reflexivity. Qed.

End CatchupChecks.

(** ** The two stores under the batch pipeline *)

Module StoresFacts.
Import Processor Stores Notions.
Local Open Scope list_scope.

Lemma step_consistent (id : pyval) (w w' : store) :
  step id w w' -> consistent w -> consistent w'.
Proof.
  unfold consistent, point_message_ids, row_message_ids.
  intros [Hp Hr | p Hid Hp Hr | p Hid Hp Hid' Hr] (N1 & N2 & H3); rewrite Hp, Hr.
  - done.
  - rewrite fmap_app. simpl. split_and!; [ | exact N2 | ].
    + apply NoDup_app. split_and!; [exact N1 | | apply NoDup_singleton].
      intros x Hx Hx'. apply list_elem_of_singleton in Hx'. subst x. exact (Hid Hx).
    + intros i q Hin. apply elem_of_app. left. exact (H3 i q Hin).
  - rewrite !fmap_app. simpl. split_and!.
    + apply NoDup_app. split_and!; [exact N1 | | apply NoDup_singleton].
      intros x Hx Hx'. apply list_elem_of_singleton in Hx'. subst x. exact (Hid Hx).
    + apply NoDup_app. split_and!; [exact N2 | | apply NoDup_singleton].
      intros x Hx Hx'. apply list_elem_of_singleton in Hx'. subst x. exact (Hid' Hx).
    + intros i q Hin. apply elem_of_app in Hin as [Hin | Hin].
      * apply elem_of_app. left. exact (H3 i q Hin).
      * apply list_elem_of_singleton in Hin. injection Hin as -> ->.
        apply elem_of_app. right. apply list_elem_of_singleton. reflexivity.
Qed.

Lemma step_grows (id : pyval) (w w' : store) :
  step id w w' -> points w `prefix_of` points w' /\ rows w `prefix_of` rows w'.
Proof.
  intros [Hp Hr | p Hid Hp Hr | p Hid Hp Hid' Hr]; rewrite Hp, Hr;
    split; try reflexivity; apply prefix_app_r; reflexivity.
Qed.

Section clients_facts.
Variable fault : nat -> bool.
Variable uuid4 : nat -> string.

Lemma add_message_step (message : gmap string pyval) (a : analysis) (embedding : list float)
    (w : store) :
  let '(r, w') := add_message fault uuid4 message a embedding w in
  rows w' = rows w
  /\ ((points w' = points w /\ r = Ok "")
      \/ (exists p p', r = Ok p' /\ (p' = p \/ p' = "")
                       /\ (Processor.message_id a ∉ point_message_ids w)
                       /\ points w' = points w ++ [(p, Processor.message_id a)])).
Proof.
  unfold add_message.
  destruct (negb (truthy (message_id a))); [split; [ | left]; done | ].
  destruct (fault (calls w)); [split; [ | left]; done | ].
  destruct (bool_decide_reflect (message_id a ∈ point_message_ids (tick w))) as [Hin | Hin];
    [split; [ | left]; done | ].
  destruct (fault (calls (tick w))); [split; [ | left]; done | ].
  destruct (message_id a) eqn:Hid; (split; [reflexivity | ]); right;
    eexists _, _; (split_and!; [reflexivity | | exact Hin | reflexivity]); auto.
Qed.

Lemma save_analysis_step (message : gmap string pyval) (a : analysis) (point_id : string)
    (w : store) :
  let '(r, w') := save_analysis fault message a point_id w in
  points w' = points w
  /\ ((rows w' = rows w /\ r = Ok false)
      \/ (r = Ok true /\ (Processor.message_id a ∉ row_message_ids w)
          /\ rows w' = rows w ++ [(Processor.message_id a, point_id)])).
Proof.
  unfold save_analysis.
  destruct (negb (truthy (message_id a))); [split; [ | left]; done | ].
  destruct (fault (calls w)); [split; [ | left]; done | ].
  destruct (bool_decide_reflect (message_id a ∈ row_message_ids (tick w))) as [Hin | Hin];
    [split; [ | left]; done | ].
  destruct (fault (calls (tick w))); [split; [ | left]; done | ].
  destruct (default (PStr "") (message !! "username")); try (split; [ | left]; done).
  split; [reflexivity | ]. right. split_and!; [reflexivity | exact Hin | reflexivity].
Qed.

Section pipeline_facts.
Variable parse_date : string -> option datetime.
Variable services : Type.
Variable analyze_message : gmap string pyval -> services -> analysis * services.
Variable get_embedding : pyval -> services -> option (list float) * services.

Abbreviation process_message :=
  (Stores.process_message parse_date fault uuid4 services analyze_message get_embedding).
Abbreviation _process_single_batch :=
  (Stores._process_single_batch parse_date fault uuid4 services analyze_message
     get_embedding).
Abbreviation save_with_verification :=
  (Processor._save_with_verification (services * store)
     (add_in fault uuid4 services) (save_in fault services)).

Lemma save_with_verification_step (message : gmap string pyval) (a : analysis)
    (vector : list float) (w : services * store) :
  step (Processor.message_id a) (snd w)
    (snd (snd (fst (save_with_verification message a vector w)))).
Proof.
  unfold Processor._save_with_verification, add_in, save_in.
  pose proof (add_message_step message a vector (snd w)) as Ha.
  destruct (add_message fault uuid4 message a vector (snd w)) as [r w1].
  destruct Ha as (Hr & [(Hp & ->) | (p & p' & -> & Hp' & Hid & Hp)]).
  - simpl. apply step_none; assumption.
  - destruct Hp' as [-> | ->]; [ | simpl; apply (step_point _ _ _ p); assumption].
    destruct (negb (String.eqb p "")); [ | simpl; apply (step_point _ _ _ p); assumption].
    simpl fst. simpl snd.
    pose proof (save_analysis_step message a p w1) as Hs.
    destruct (save_analysis fault message a p w1) as [r2 w2].
    destruct Hs as (Hp2 & [(Hr2 & ->) | (-> & Hid2 & Hr2)]); simpl.
    + apply (step_point _ _ _ p); [exact Hid | congruence | congruence].
    + apply (step_both _ _ _ p); [exact Hid | congruence | | congruence].
      unfold row_message_ids in *. rewrite <- Hr. exact Hid2.
Qed.

(** The stores after one message: a step for the id that enrichment
    gave the message, or no change. *)
Lemma process_message_step (now : datetime) (m : gmap string pyval) (alert_ids : gset pyval)
    (w : services * store) :
  let w' := snd (fst (process_message now m alert_ids w)) in
  (points (snd w') = points (snd w) /\ rows (snd w') = rows (snd w))
  \/ (exists id, fst (Utils.enrich parse_date now m) !! "message_id" = Some id
                 /\ step id (snd w) (snd w')).
Proof.
  unfold Stores.process_message, Processor.process_message.
  destruct (Utils.enrich parse_date now m) as [e [[] | err]]; [ | left; split; reflexivity].
  destruct (e !! "message_id") as [id | ] eqn:Hid; [ | left; split; reflexivity].
  destruct (negb _); [left; split; reflexivity | ].
  unfold analyze_in. destruct (analyze_message e (fst w)) as [a0 s1].
  destruct (e !! "text") as [text | ]; [ | left; split; reflexivity].
  unfold embed_in. simpl fst. destruct (get_embedding text s1) as [emb s2].
  destruct (has_embedding emb) as [vector | ]; [ | left; split; reflexivity].
  pose proof (save_with_verification_step e (set_message_id a0 id) vector (s2, snd w)) as Hs.
  destruct (save_with_verification e (set_message_id a0 id) vector (s2, snd w))
    as [[pid w3] tr].
  simpl in Hs. right. exists id. split; [exact Hid | ].
  destruct (bind _ _) as [[al | ] | err]; exact Hs.
Qed.

Lemma process_message_consistent (now : datetime) (m : gmap string pyval)
    (alert_ids : gset pyval) (w : services * store) :
  let w' := snd (fst (process_message now m alert_ids w)) in
  (consistent (snd w) -> consistent (snd w'))
  /\ points (snd w) `prefix_of` points (snd w')
  /\ rows (snd w) `prefix_of` rows (snd w').
Proof.
  destruct (process_message_step now m alert_ids w) as [[Hp Hr] | (id & _ & Hs)]; simpl.
  - rewrite Hp, Hr. split_and!; [ | reflexivity | reflexivity].
    unfold consistent, point_message_ids, row_message_ids. rewrite Hp, Hr. done.
  - destruct (step_grows _ _ _ Hs). split_and!; [exact (step_consistent _ _ _ Hs) | done | done].
Qed.

(** X19: a run keeps the stores consistent: when no two points and
    no two rows had one id and every row named a point of its id
    before the run, so it is after it, whatever calls failed; and the
    run removes nothing: the points and the rows of before are the
    first of those afterwards. *)
Theorem stores_stay_consistent (clock : nat -> datetime) (t : nat)
    (batch : list (gmap string pyval)) (alert_ids : gset pyval) (w : services * store) :
  consistent (snd w) ->
  let w' := snd (fst (_process_single_batch clock t batch alert_ids w)) in
  consistent (snd w')
  /\ points (snd w) `prefix_of` points (snd w')
  /\ rows (snd w) `prefix_of` rows (snd w').
Proof.
  revert t alert_ids w. induction batch as [ | m rest IH]; intros t alert_ids w Hc.
  - simpl. split_and!; [exact Hc | reflexivity | reflexivity].
  - unfold Stores._process_single_batch. cbn [Processor._process_single_batch].
    pose proof (process_message_consistent (clock t) m alert_ids w) as Hm.
    unfold Stores.process_message in Hm.
    destruct (Processor.process_message _ _ _ _ _ _ (clock t) m alert_ids w)
      as [[[al ids1] w1] tr1].
    simpl in Hm. destruct Hm as (Hc1 & Hp1 & Hr1).
    specialize (IH (S t) ids1 w1 (Hc1 Hc)). unfold Stores._process_single_batch in IH.
    destruct (Processor._process_single_batch _ _ _ _ _ _ clock (S t) rest ids1 w1)
      as [[[alerts ids2] w2] tr2].
    simpl in *. destruct IH as (Hc2 & Hp2 & Hr2).
    split_and!; [exact Hc2 | etransitivity; eassumption | etransitivity; eassumption].
Qed.

(** X20: a message whose id is in the vector store is not written
    again, to either store: the batch path never gives a row to a
    point that has none. *)
Theorem stored_message_is_left_alone (now : datetime) (m e : gmap string pyval)
    (alert_ids : gset pyval) (w : services * store) (id : pyval) :
  Utils.enrich parse_date now m = (e, Ok tt) ->
  e !! "message_id" = Some id ->
  id ∈ point_message_ids (snd w) ->
  let w' := snd (fst (process_message now m alert_ids w)) in
  points (snd w') = points (snd w) /\ rows (snd w') = rows (snd w).
Proof.
  intros He Hid Hin.
  destruct (process_message_step now m alert_ids w) as [H | (id' & Hid' & Hs)]; [exact H | ].
  rewrite He in Hid'. simpl in Hid'. rewrite Hid in Hid'. injection Hid' as <-.
  destruct Hs as [Hp Hr | p Hnot _ _ | p Hnot _ _ _]; [done | done | done].
Qed.

End pipeline_facts.
End clients_facts.
End StoresFacts.

(** ** The queries of the filter, and the filter on the two stores *)

Module QueriesFacts.
Import Dedup Stores Notions.
Local Open Scope list_scope.

Lemma sublist_fmap_snd {A B} (l k : list (A * B)) :
  l `sublist_of` k -> (snd <$> l) `sublist_of` (snd <$> k).
Proof.
  induction 1 as [ | x l k _ IH | x l k _ IH]; simpl;
    [constructor | apply sublist_skip | apply sublist_cons]; exact IH.
Qed.

Lemma filter_ext_in {A} (P Q : A -> Prop) `{!forall x, Decision (P x)}
    `{!forall x, Decision (Q x)} (l : list A) :
  Forall (fun x => P x <-> Q x) l -> filter P l = filter Q l.
Proof.
  induction 1 as [ | x l Hx _ IH]; [reflexivity | ].
  rewrite !filter_cons, IH.
  destruct (decide (P x)) as [HP | HP], (decide (Q x)) as [HQ | HQ]; tauto.
Qed.

Lemma fmap_PStr_inj (a b : list string) : PStr <$> a = PStr <$> b -> a = b.
Proof.
  revert b. induction a as [ | x a IH]; intros [ | y b] H; try discriminate; [reflexivity | ].
  rewrite !fmap_cons in H. injection H as -> H. rewrite (IH b H). reflexivity.
Qed.

Lemma add_payload_ids_elem (results : list (string * pyval)) (acc : gset string) (s : string) :
  s ∈ add_payload_ids results acc <-> s ∈ acc \/ PStr s ∈ (snd <$> results).
Proof.
  unfold add_payload_ids. revert acc.
  induction results as [ | [p v] results IH]; intros acc; simpl.
  - split; [auto | intros [H | H]; [exact H | inversion H]].
  - rewrite IH, elem_of_cons. destruct v as [ | z | s' | d]; simpl;
      try (split; [intros [H | H]; auto | intros [H | [H | H]]; auto; discriminate]).
    rewrite elem_of_union, elem_of_singleton. split.
    + intros [[-> | H] | H]; auto.
    + intros [H | [[= ->] | H]]; auto.
Qed.

Section queries_facts.
Variable db_down : bool.
Variable scroll_fails : nat -> bool.

Lemma scroll_sound (w : store) (batch_ids : list string) (limit : nat) (v : pyval) :
  v ∈ (snd <$> scroll w batch_ids limit) ->
  v ∈ point_message_ids w /\ v ∈ (PStr <$> batch_ids).
Proof.
  unfold scroll, point_message_ids. intros H.
  apply list_elem_of_fmap in H as ([p v'] & -> & H).
  apply subseteq_take in H. apply list_elem_of_filter in H as [H1 H2]. simpl in *.
  split; [ | exact H1]. apply list_elem_of_fmap. exists (p, v'). done.
Qed.

Lemma scroll_complete (w : store) (batch_ids : list string) (s : string) :
  NoDup (point_message_ids w) ->
  s ∈ batch_ids -> PStr s ∈ point_message_ids w ->
  PStr s ∈ (snd <$> scroll w batch_ids (length batch_ids)).
Proof.
  unfold scroll, point_message_ids. intros Hnd Hs Hin.
  rewrite take_ge.
  - apply list_elem_of_fmap in Hin as ([p v] & Hv & Hin). simpl in Hv. subst v.
    apply list_elem_of_fmap. exists (p, PStr s). split; [reflexivity | ].
    apply list_elem_of_filter. split; [ | exact Hin].
    simpl. apply list_elem_of_fmap. exists s. done.
  - set (F := filter _ (points w)).
    rewrite <- (length_fmap snd F), <- (length_fmap PStr batch_ids).
    apply submseteq_length, NoDup_submseteq.
    + apply (sublist_NoDup _ (snd <$> points w)); [exact Hnd | ].
      apply sublist_fmap_snd, sublist_filter.
    + intros v Hv. apply list_elem_of_fmap in Hv as ([p v'] & -> & Hv).
      apply list_elem_of_filter in Hv as [Hv _]. exact Hv.
Qed.

Lemma scroll_chunks_sound (fuel : nat) (w : store) (i : nat) (ids : list string)
    (acc : gset string) (s : string) :
  s ∈ scroll_chunks scroll_fails fuel w i ids acc ->
  s ∈ acc \/ (s ∈ ids /\ PStr s ∈ point_message_ids w).
Proof.
  revert i ids acc. induction fuel as [ | fuel IH]; intros i ids acc H; [left; exact H | ].
  destruct ids as [ | x ids]; [left; exact H | ].
  cbn [scroll_chunks] in H. cbv zeta in H.
  apply IH in H as [H | [H1 H2]].
  - destruct (scroll_fails i); [left; exact H | ].
    apply add_payload_ids_elem in H as [H | H]; [left; exact H | right].
    apply scroll_sound in H as [H1 H2]. split; [ | exact H1].
    apply list_elem_of_fmap in H2 as (s' & [= ->] & H2).
    exact (elem_of_sublist _ _ _ H2 (sublist_take _ _)).
  - right. split; [ | exact H2]. exact (elem_of_sublist _ _ _ H1 (sublist_drop _ _)).
Qed.

Lemma scroll_chunks_grows (fuel : nat) (w : store) (i : nat) (ids : list string)
    (acc : gset string) (s : string) :
  s ∈ acc -> s ∈ scroll_chunks scroll_fails fuel w i ids acc.
Proof.
  revert i ids acc. induction fuel as [ | fuel IH]; intros i ids acc H; [exact H | ].
  destruct ids as [ | x ids]; [exact H | ].
  cbn [scroll_chunks]. cbv zeta. apply IH.
  destruct (scroll_fails i); [exact H | ]. apply add_payload_ids_elem. left. exact H.
Qed.

Lemma scroll_chunks_complete (fuel : nat) (w : store) (i : nat) (ids : list string)
    (acc : gset string) (s : string) :
  (forall j, scroll_fails j = false) -> NoDup (point_message_ids w) ->
  length ids <= fuel ->
  s ∈ ids -> PStr s ∈ point_message_ids w ->
  s ∈ scroll_chunks scroll_fails fuel w i ids acc.
Proof.
  intros Hok Hnd. revert i ids acc.
  induction fuel as [ | fuel IH]; intros i ids acc Hlen Hs Hin.
  - destruct ids; [inversion Hs | simpl in Hlen; lia].
  - destruct ids as [ | x ids]; [inversion Hs | ].
    cbn [scroll_chunks]. cbv zeta. rewrite Hok.
    rewrite <- (take_drop 50 (x :: ids)) in Hs. apply elem_of_app in Hs as [Hs | Hs].
    + apply scroll_chunks_grows, add_payload_ids_elem. right.
      exact (scroll_complete w _ s Hnd Hs Hin).
    + apply IH; [ | exact Hs | exact Hin]. rewrite length_drop. simpl in *. lia.
Qed.

Lemma queries_answer (w : store) (clock clock' : nat -> datetime) (t t' : nat)
    (messages : list (gmap string pyval)) (ids ids' : list string) :
  message_ids clock t messages = Ok ids ->
  message_ids clock' t' messages = Ok ids' ->
  exists pg q,
    db_get_existing_message_ids db_down w clock t messages = Ok pg
    /\ vs_get_existing_message_ids scroll_fails w clock' t' messages = Ok q
    /\ (forall s, s ∈ pg -> s ∈ ids /\ PStr s ∈ row_message_ids w)
    /\ (forall s, s ∈ q -> s ∈ ids' /\ PStr s ∈ point_message_ids w)
    /\ (db_down = false -> forall s, s ∈ ids -> PStr s ∈ row_message_ids w -> s ∈ pg)
    /\ (db_down = true -> pg = ∅)
    /\ ((forall j, scroll_fails j = false) -> NoDup (point_message_ids w) ->
        forall s, s ∈ ids' -> PStr s ∈ point_message_ids w -> s ∈ q)
    /\ ((forall j, scroll_fails j = true) -> q = ∅).
Proof.
  intros Hids Hids'.
  unfold db_get_existing_message_ids, vs_get_existing_message_ids.
  destruct messages as [ | m rest].
  { injection Hids as <-. injection Hids' as <-. exists ∅, ∅.
    split_and!; try reflexivity; try (intros s Hs; exfalso; exact (not_elem_of_empty s Hs));
      try (intros; reflexivity); intros; match goal with H : _ ∈ [] |- _ => inversion H end. }
  rewrite Hids, Hids'. simpl.
  assert (Hne : ids <> [] /\ ids' <> []).
  { simpl in Hids, Hids'.
    destruct (Utils.generate_message_id (clock t) m); [ | discriminate].
    destruct (message_ids clock (S t) rest); [ | discriminate].
    destruct (Utils.generate_message_id (clock' t') m); [ | discriminate].
    destruct (message_ids clock' (S t') rest); [ | discriminate].
    simpl in *. injection Hids as <-. injection Hids' as <-. split; discriminate. }
  destruct Hne as [Hne Hne'].
  destruct ids as [ | i0 ids0]; [done | ]. destruct ids' as [ | i0' ids0']; [done | ].
  exists (if db_down then ∅
          else list_to_set (filter (fun s => PStr s ∈ row_message_ids w) (i0 :: ids0))).
  eexists. split; [destruct db_down; reflexivity | ]. split; [reflexivity | ].
  split_and!.
  - intros s. destruct db_down; [intros Hs; exfalso; exact (not_elem_of_empty s Hs) | ].
    rewrite elem_of_list_to_set, list_elem_of_filter. tauto.
  - intros s Hs. apply scroll_chunks_sound in Hs as [Hs | Hs]; [ | exact Hs].
    exfalso. exact (not_elem_of_empty s Hs).
  - intros -> s Hs Hin. rewrite elem_of_list_to_set, list_elem_of_filter. tauto.
  - intros ->. reflexivity.
  - intros Hok Hnd s Hs Hin. apply scroll_chunks_complete; try assumption. lia.
  - intros Hfail. apply set_eq. intros s. split; [ | intros Hs; exfalso; exact (not_elem_of_empty s Hs)].
    intros Hs. exfalso.
    assert (Hall : forall fuel i l, scroll_chunks scroll_fails fuel w i l ∅ = ∅).
    { induction fuel as [ | fuel IH]; intros i l; [reflexivity | ].
      destruct l; [reflexivity | ]. cbn [scroll_chunks]. cbv zeta. rewrite Hfail. apply IH. }
    rewrite Hall in Hs. exact (not_elem_of_empty s Hs).
Qed.

(** X21: what the two queries report, for a batch whose ids can be
    computed: each returns and does not raise; an id it reports is an
    id of the batch that its store holds; the relational store, when
    its query does not fail, reports every such id, and reports none
    when it fails; the vector store, whose ids are asked for in chunks
    of fifty, reports every such id when no chunk fails and no two of
    its points have one id, and none when every chunk fails. *)
Theorem queries_report_stored_ids (w : store) (clock clock' : nat -> datetime) (t t' : nat)
    (messages : list (gmap string pyval)) (ids ids' : list string) :
  message_ids clock t messages = Ok ids ->
  message_ids clock' t' messages = Ok ids' ->
  exists pg q,
    db_get_existing_message_ids db_down w clock t messages = Ok pg
    /\ vs_get_existing_message_ids scroll_fails w clock' t' messages = Ok q
    /\ (forall s, s ∈ pg -> s ∈ ids /\ PStr s ∈ row_message_ids w)
    /\ (forall s, s ∈ q -> s ∈ ids' /\ PStr s ∈ point_message_ids w)
    /\ (db_down = false -> forall s, s ∈ ids -> PStr s ∈ row_message_ids w -> s ∈ pg)
    /\ (db_down = true -> pg = ∅)
    /\ ((forall j, scroll_fails j = false) -> NoDup (point_message_ids w) ->
        forall s, s ∈ ids' -> PStr s ∈ point_message_ids w -> s ∈ q)
    /\ ((forall j, scroll_fails j = true) -> q = ∅).
Proof. exact (queries_answer w clock clock' t t' messages ids ids'). Qed.

(** The id that an enriched message carries is the id computed from
    it, whatever the clock. *)
Lemma generate_id_of_fixed (parse_date : string -> option datetime) (m : gmap string pyval) :
  enrich_fixed parse_date m ->
  exists s, m !! "message_id" = Some (PStr s)
            /\ forall now, Utils.generate_message_id now m = Ok s.
Proof.
  intros H. specialize (H (mk_datetime 0 0 0 0 0 0 0)).
  apply UtilsFacts.enrich_message_ok in H as (d & text & Hts & _ & Htext & _ & _ & Hid).
  eexists. split; [exact Hid | ].
  intros now. unfold Utils.generate_message_id, Utils.timestamp_form.
  rewrite Hts, Htext. reflexivity.
Qed.

Lemma message_ids_fixed (parse_date : string -> option datetime) (clock : nat -> datetime)
    (t : nat) (messages : list (gmap string pyval)) :
  Forall (enrich_fixed parse_date) messages ->
  exists ids, message_ids clock t messages = Ok ids /\ PStr <$> ids = id_list messages.
Proof.
  intros H. revert t. induction H as [ | m l Hm _ IH]; intros t.
  - exists []. split; reflexivity.
  - destruct (generate_id_of_fixed parse_date m Hm) as (s & Hs & Hgen).
    destruct (IH (S t)) as (ids & Hids & Heq).
    exists (s :: ids). split.
    + cbn [message_ids]. rewrite Hgen, Hids. reflexivity.
    + unfold id_list in *. rewrite fmap_cons, Heq.
      cbn [omap list_omap]. rewrite Hs. reflexivity.
Qed.

Section filter_on_stores.
Variable parse_date : string -> option datetime.

(** The filter with the two stores as its collaborators. *)
Abbreviation filter_new_messages w db_clock vs_clock :=
  (Dedup.filter_new_messages parse_date
     (db_get_existing_message_ids db_down w db_clock 0)
     (vs_get_existing_message_ids scroll_fails w vs_clock 0) false).

Lemma filter_on_stores (w : store) (clock db_clock vs_clock : nat -> datetime)
    (messages enriched : list (gmap string pyval)) :
  enrich_all parse_date clock 0 messages = (enriched, Ok tt) ->
  exists unique pg q ids,
    fst (_remove_internal_duplicates enriched) = Ok unique
    /\ PStr <$> ids = id_list unique
    /\ Forall has_id unique
    /\ db_get_existing_message_ids db_down w db_clock 0 unique = Ok pg
    /\ vs_get_existing_message_ids scroll_fails w vs_clock 0 unique = Ok q
    /\ (forall s, s ∈ pg -> s ∈ ids /\ PStr s ∈ row_message_ids w)
    /\ (forall s, s ∈ q -> s ∈ ids /\ PStr s ∈ point_message_ids w)
    /\ (db_down = false -> forall s, s ∈ ids -> PStr s ∈ row_message_ids w -> s ∈ pg)
    /\ (db_down = true -> pg = ∅)
    /\ ((forall j, scroll_fails j = false) -> NoDup (point_message_ids w) ->
        forall s, s ∈ ids -> PStr s ∈ point_message_ids w -> s ∈ q)
    /\ ((forall j, scroll_fails j = true) -> q = ∅)
    /\ exists dd,
        filter_new_messages w db_clock vs_clock clock messages
        = (Ok (filter (fun m => is_new (pg ∪ q) m) unique),
           [LogChecking (length messages);
            LogInternalDuplicates (length enriched - length unique)]
           ++ _debug_inconsistencies pg q ++ [LogExternalDetails dd]).
Proof.
  intros Henrich.
  pose proof (DedupFacts.enrich_all_has_id _ _ _ _ _ Henrich) as Hids.
  pose proof (DedupFacts.enrich_all_enriched _ _ _ _ _ Henrich) as Hfixed.
  destruct (DedupFacts.unique_from_count ∅ enriched Hids) as (unique & Hu & _).
  pose proof (DedupFacts.unique_from_has_id _ _ _ Hu) as Huid.
  assert (Hufixed : Forall (enrich_fixed parse_date) unique).
  { apply (DedupMore.Forall_sublist _ _ enriched); [ | exact Hfixed].
    exact (DedupMore.unique_from_sublist _ _ _ Hu). }
  destruct (message_ids_fixed parse_date db_clock 0 unique Hufixed) as (ids & Hi & Heq).
  destruct (message_ids_fixed parse_date vs_clock 0 unique Hufixed) as (ids' & Hi' & Heq').
  assert (ids' = ids) as ->.
  { apply fmap_PStr_inj. congruence. }
  destruct (queries_answer w db_clock vs_clock 0 0 unique ids ids Hi Hi')
    as (pg & q & Hpg & Hq & H1 & H2 & H3 & H4 & H5 & H6).
  exists unique, pg, q, ids.
  split_and!; try assumption.
  { unfold _remove_internal_duplicates. rewrite Hu. reflexivity. }
  destruct (DedupFacts.external_loop_filter pg q unique ∅ Huid) as (dd & Hloop).
  exists dd. unfold Dedup.filter_new_messages. rewrite Henrich.
  unfold _remove_internal_duplicates, _remove_external_duplicates.
  rewrite Hu, Hpg, Hq, Hloop. reflexivity.
Qed.

(** X22: with both stores answering, and no two points of one id,
    the filter returns what Tier 1 left of the enriched batch less the
    messages whose id is in one of the stores, in order: a message
    comes out exactly when its id is new to both. *)
Theorem filter_returns_what_is_in_neither (w : store) (clock db_clock vs_clock : nat -> datetime)
    (messages enriched : list (gmap string pyval)) :
  enrich_all parse_date clock 0 messages = (enriched, Ok tt) ->
  db_down = false -> (forall j, scroll_fails j = false) -> NoDup (point_message_ids w) ->
  exists unique,
    fst (_remove_internal_duplicates enriched) = Ok unique
    /\ fst (filter_new_messages w db_clock vs_clock clock messages)
       = Ok (filter (in_neither w) unique).
Proof.
  intros Henrich Hdb Hvs Hnd.
  destruct (filter_on_stores w clock db_clock vs_clock messages enriched Henrich)
    as (unique & pg & q & ids & Hu & Hids & Huid & _ & _ & H1 & H2 & H3 & _ & H5 & _ & dd & Hf).
  exists unique. split; [exact Hu | ]. rewrite Hf. simpl. f_equal.
  apply filter_ext_in. apply Forall_forall. intros m Hm.
  assert (Hs : exists s, m !! "message_id" = Some (PStr s) /\ s ∈ ids).
  { assert (Hin : exists v, m !! "message_id" = Some v /\ v ∈ id_list unique).
    { rewrite Forall_forall in Huid. destruct (Huid m Hm) as [v Hv].
      exists v. split; [exact Hv | ]. apply list_elem_of_omap. exists m. done. }
    destruct Hin as (v & Hv & Hin). rewrite <- Hids in Hin.
    apply list_elem_of_fmap in Hin as (s & -> & Hin). exists s. done. }
  destruct Hs as (s & Hs & Hin).
  unfold is_new, in_neither. rewrite Hs. simpl.
  destruct (bool_decide_reflect (s ∈ pg ∪ q)) as [Hpq | Hpq]; simpl.
  - split; [intros [] | ]. intros [Hr Hp]. apply elem_of_union in Hpq as [Hpq | Hpq].
    + apply Hr. exact (proj2 (H1 s Hpq)).
    + apply Hp. exact (proj2 (H2 s Hpq)).
  - split; [intros _ | done]. split; intros Hst; apply Hpq, elem_of_union.
    + left. exact (H3 Hdb s Hin Hst).
    + right. exact (H5 Hvs Hnd s Hin Hst).
Qed.

(** X23: a store that cannot be reached looks like an empty store:
    when the query of the relational store fails and every scroll of
    the vector store fails, the filter returns all that Tier 1 left of
    the enriched batch and prints no error, whatever the stores
    hold. *)
Theorem outage_makes_everything_new (w : store) (clock db_clock vs_clock : nat -> datetime)
    (messages enriched : list (gmap string pyval)) :
  enrich_all parse_date clock 0 messages = (enriched, Ok tt) ->
  db_down = true -> (forall j, scroll_fails j = true) ->
  exists unique,
    fst (_remove_internal_duplicates enriched) = Ok unique
    /\ filter_new_messages w db_clock vs_clock clock messages
       = (Ok unique,
          [LogChecking (length messages);
           LogInternalDuplicates (length enriched - length unique);
           LogExternalDetails ∅]).
Proof.
  intros Henrich Hdb Hvs.
  destruct (filter_on_stores w clock db_clock vs_clock messages enriched Henrich)
    as (unique & pg & q & ids & Hu & Hids & Huid & Hpg & Hq & _ & _ & _ & H4 & _ & H6 & dd & Hf).
  rewrite (H4 Hdb), (H6 Hvs) in *. clear H4 H6.
  exists unique. split; [exact Hu | ]. rewrite Hf.
  assert (Hall : forall l dd0, Forall has_id l ->
            external_loop ∅ ∅ l dd0 = Ok (l, dd0)).
  { intros l dd0 Hl. revert dd0. induction Hl as [ | m l [v Hv] _ IH]; intros dd0.
    - reflexivity.
    - simpl. rewrite Hv.
      assert (Hnew : id_in v (∅ ∪ ∅) = false).
      { unfold id_in. destruct v;
          first [ reflexivity
                | apply bool_decide_eq_false_2; rewrite elem_of_union;
                  intros [H | H]; exact (not_elem_of_empty _ H) ]. }
      rewrite Hnew. simpl. rewrite IH. reflexivity. }
  revert Hf. unfold Dedup.filter_new_messages. rewrite Henrich.
  unfold _remove_internal_duplicates in *.
  destruct (unique_from ∅ enriched) as [u | e]; simpl in Hu; [ | discriminate].
  injection Hu as ->.
  unfold _remove_external_duplicates. rewrite Hpg, Hq, (Hall unique ∅ Huid).
  intros <-. reflexivity.
Qed.

End filter_on_stores.

End queries_facts.
End QueriesFacts.

(** ** The analyzer: what an analysis is made of *)

Module AnalyzerFacts.
Import Analyzer.
Local Open Scope list_scope.

Lemma float_ltb_leb (x y : float) : PrimFloat.ltb x y = true -> PrimFloat.leb x y = true.
Proof.
  rewrite ltb_spec, leb_spec. unfold SFltb, SFleb.
  destruct (SFcompare _ _) as [[] | ]; congruence.
Qed.

Lemma clamp_bounds (x : float) :
  PrimFloat.leb 0%float (clamp x) = true /\ PrimFloat.leb (clamp x) 1%float = true.
Proof.
  unfold clamp. destruct (PrimFloat.ltb x 1%float) eqn:E1.
  - destruct (PrimFloat.ltb 0%float x) eqn:E2.
    + split; apply float_ltb_leb; assumption.
    + split; reflexivity.
  - change (PrimFloat.ltb 0%float 1%float) with true. cbv iota. split; reflexivity.
Qed.

Lemma clamp_not_below_one (x : float) : PrimFloat.ltb x 1%float = false -> clamp x = 1%float.
Proof. unfold clamp. intros ->. reflexivity. Qed.

Lemma clamp_inside (x : float) :
  PrimFloat.ltb 0%float x = true -> PrimFloat.ltb x 1%float = true -> clamp x = x.
Proof. unfold clamp. intros H0 H1. rewrite H1, H0. reflexivity. Qed.

Lemma clamp_not_above_zero (x : float) :
  PrimFloat.ltb x 1%float = true -> PrimFloat.ltb 0%float x = false -> clamp x = 0%float.
Proof. unfold clamp. intros H1 H0. rewrite H1, H0. reflexivity. Qed.

Lemma is_score_clamp (x : float) : is_score (Some (JFloat (clamp x))).
Proof. exists (clamp x). split; [reflexivity | apply clamp_bounds]. Qed.

Lemma setdefault_lookup (k : string) (v : jval) (d : gmap string jval) :
  setdefault k v d !! k = Some (default v (d !! k)).
Proof.
  unfold setdefault. destruct (d !! k) eqn:E; [exact E | apply lookup_insert_eq].
Qed.

Lemma setdefault_lookup_ne (k k' : string) (v : jval) (d : gmap string jval) :
  k <> k' -> setdefault k v d !! k' = d !! k'.
Proof.
  intros Hne. unfold setdefault. destruct (d !! k); [reflexivity | ].
  apply lookup_insert_ne. exact Hne.
Qed.

Ltac lookups :=
  repeat first
    [ rewrite lookup_insert_eq
    | rewrite lookup_insert_ne by discriminate
    | rewrite setdefault_lookup
    | rewrite setdefault_lookup_ne by discriminate ].

Lemma with_defaults_lookup (a : gmap string jval) :
  with_defaults a !! "toxicity_score" = Some (default (JFloat 0%float) (a !! "toxicity_score"))
  /\ with_defaults a !! "spam_probability"
     = Some (default (JFloat 0%float) (a !! "spam_probability"))
  /\ with_defaults a !! "sentiment" = Some (default (JStr "neutral") (a !! "sentiment"))
  /\ with_defaults a !! "categories" = Some (default (JList []) (a !! "categories"))
  /\ with_defaults a !! "requires_action"
     = Some (default (JBool false) (a !! "requires_action"))
  /\ with_defaults a !! "action_type" = Some (default (JStr "ignore") (a !! "action_type"))
  /\ is_Some (with_defaults a !! "reasoning")
  /\ is_Some (with_defaults a !! "keywords_detected").
Proof. unfold with_defaults. split_and!; lookups; try reflexivity; eexists; reflexivity. Qed.

Lemma validate_key_ok (k : string) (valid : list string) (v : string)
    (a a' : gmap string jval) :
  v ∈ valid -> validate_key k valid v a = Ok a' ->
  (exists s, a' !! k = Some (JStr s) /\ s ∈ valid)
  /\ (forall k', k' <> k -> a' !! k' = a !! k').
Proof.
  intros Hv. unfold validate_key, getitem.
  destruct (a !! k) as [x | ] eqn:Hx; [ | discriminate]. cbn [bind].
  destruct (is_one_of x valid) eqn:Hone; cbn [negb]; intros [= <-].
  - split; [ | reflexivity]. destruct x; try discriminate.
    apply bool_decide_eq_true in Hone. eexists. split; [exact Hx | exact Hone].
  - split; [exists v; rewrite lookup_insert_eq; done | ].
    intros k' Hk'. apply lookup_insert_ne. congruence.
Qed.

Lemma validate_categories_ok (a a' : gmap string jval) :
  validate_categories a = Ok a' ->
  (exists l, a' !! "categories" = Some (JList l))
  /\ (forall k', k' <> "categories" -> a' !! k' = a !! k').
Proof.
  unfold validate_categories, getitem.
  destruct (a !! "categories") as [x | ] eqn:Hx; [ | discriminate]. cbn [bind].
  destruct (is_list x) eqn:Hl; cbn [negb]; intros [= <-].
  - split; [ | reflexivity]. destruct x; try discriminate. eexists. exact Hx.
  - split; [eexists; apply lookup_insert_eq | ].
    intros k' Hk'. apply lookup_insert_ne. congruence.
Qed.

Section analyzer_facts.
Variable float_of_str : string -> result float.
Variable float_of_int : Z -> result float.
Variable ollama_model : jval.

Abbreviation _finalize_analysis := (_finalize_analysis float_of_str float_of_int ollama_model).
Abbreviation float_of := (float_of float_of_str float_of_int).

Lemma clamp_key_ok (k : string) (a a' : gmap string jval) :
  clamp_key float_of_str float_of_int k a = Ok a' ->
  exists v x, a !! k = Some v /\ float_of v = Ok x /\ a' = <[k := JFloat (clamp x)]> a.
Proof.
  unfold clamp_key, getitem.
  destruct (a !! k) as [v | ]; [ | discriminate]. cbn [bind].
  destruct (float_of v) as [x | ] eqn:Hx; [ | discriminate]. cbn [bind].
  intros [= <-]. exists v, x. done.
Qed.

(** What [_finalize_analysis] leaves when it returns. *)
Lemma finalize_returns (now now' : datetime) (analysis a : gmap string jval)
    (m : gmap string pyval) :
  _finalize_analysis now now' analysis m = Ok a ->
  well_formed a
  /\ (exists id, Utils.generate_message_id now m = Ok id
                 /\ a !! "message_id" = Some (JStr id))
  /\ (exists t, float_of (default (JFloat 0%float) (analysis !! "toxicity_score")) = Ok t
                /\ a !! "toxicity_score" = Some (JFloat (clamp t)))
  /\ (exists s, float_of (default (JFloat 0%float) (analysis !! "spam_probability")) = Ok s
                /\ a !! "spam_probability" = Some (JFloat (clamp s)))
  /\ a !! "requires_action" = Some (default (JBool false) (analysis !! "requires_action")).
Proof.
  unfold Analyzer._finalize_analysis.
  destruct (with_defaults_lookup analysis) as (D1 & D2 & D3 & D4 & D5 & D6 & D7 & D8).
  destruct (clamp_key _ _ "toxicity_score" _) as [a1 | ] eqn:H1; [ | discriminate].
  cbn [bind].
  destruct (clamp_key _ _ "spam_probability" a1) as [a2 | ] eqn:H2; [ | discriminate].
  cbn [bind].
  destruct (validate_key "sentiment" _ _ a2) as [a3 | ] eqn:H3; [ | discriminate].
  cbn [bind].
  destruct (validate_key "action_type" _ _ a3) as [a4 | ] eqn:H4; [ | discriminate].
  cbn [bind].
  destruct (validate_categories a4) as [a5 | ] eqn:H5; [ | discriminate].
  cbn [bind].
  destruct (Utils.generate_message_id now m) as [id | ] eqn:Hid; [ | discriminate].
  cbn [bind]. intros [= <-].
  apply clamp_key_ok in H1 as (v1 & t & Hv1 & Ht & ->).
  apply clamp_key_ok in H2 as (v2 & sp & Hv2 & Hsp & ->).
  apply validate_key_ok in H3 as ((se & Hse & Hse') & K3); [ | repeat constructor].
  apply validate_key_ok in H4 as ((ac & Hac & Hac') & K4); [ | repeat constructor].
  apply validate_categories_ok in H5 as ((l & Hl) & K5).
  rewrite D1 in Hv1. injection Hv1 as <-.
  rewrite lookup_insert_ne in Hv2 by discriminate. rewrite D2 in Hv2. injection Hv2 as <-.
  assert (L : forall k, k <> "model_used" -> k <> "analyzed_at" -> k <> "message_id" ->
                k <> "categories" -> k <> "action_type" -> k <> "sentiment" ->
                (<["model_used" := ollama_model]>
                   (<["analyzed_at" := JStr (isoformat now')]>
                      (<["message_id" := JStr id]> a5))) !! k
                = (<["spam_probability" := JFloat (clamp sp)]>
                     (<["toxicity_score" := JFloat (clamp t)]> (with_defaults analysis))) !! k).
  { intros k N1 N2 N3 N4 N5 N6.
    rewrite (lookup_insert_ne _ "model_used"), (lookup_insert_ne _ "analyzed_at"),
      (lookup_insert_ne _ "message_id") by congruence.
    rewrite K5, K4, K3 by congruence. reflexivity. }
  assert (Tox : (<["model_used" := ollama_model]>
                   (<["analyzed_at" := JStr (isoformat now')]>
                      (<["message_id" := JStr id]> a5))) !! "toxicity_score"
                = Some (JFloat (clamp t))).
  { rewrite L by discriminate. rewrite lookup_insert_ne by discriminate.
    apply lookup_insert_eq. }
  assert (Spam : (<["model_used" := ollama_model]>
                   (<["analyzed_at" := JStr (isoformat now')]>
                      (<["message_id" := JStr id]> a5))) !! "spam_probability"
                = Some (JFloat (clamp sp))).
  { rewrite L by discriminate. apply lookup_insert_eq. }
  split_and!.
  - unfold well_formed. rewrite Tox, Spam. split_and!.
    + apply is_score_clamp.
    + apply is_score_clamp.
    + exists se. rewrite !lookup_insert_ne by discriminate.
      rewrite K5, K4 by discriminate. done.
    + exists ac. rewrite !lookup_insert_ne by discriminate.
      rewrite K5 by discriminate. split; [exact Hac | ].
      revert Hac'. rewrite !elem_of_cons. intros [-> | [-> | [-> | [-> | H]]]]; auto 10.
    + exists l. rewrite !lookup_insert_ne by discriminate. exact Hl.
    + rewrite L by discriminate. rewrite !lookup_insert_ne by discriminate.
      rewrite D5. eexists. reflexivity.
    + rewrite L by discriminate. rewrite !lookup_insert_ne by discriminate. exact D7.
    + rewrite L by discriminate. rewrite !lookup_insert_ne by discriminate. exact D8.
    + rewrite lookup_insert_ne by discriminate. rewrite lookup_insert_eq.
      eexists. reflexivity.
    + rewrite lookup_insert_eq. eexists. reflexivity.
  - exists id. split; [reflexivity | ]. rewrite !lookup_insert_ne by discriminate.
    apply lookup_insert_eq.
  - exists t. split; [exact Ht | exact Tox].
  - exists sp. split; [exact Hsp | exact Spam].
  - rewrite L by discriminate. rewrite !lookup_insert_ne by discriminate. exact D5.
Qed.


Variable world : Type.
Variable _make_ollama_request : string -> world -> option string * world.
Variable _create_analysis_prompt : pyval -> string -> string.
Variable first_candidate : string -> option candidate.
Variable exception_text : exn -> string.

Abbreviation analyze_message :=
  (analyze_message float_of_str float_of_int ollama_model world _make_ollama_request
     _create_analysis_prompt first_candidate exception_text).

Lemma default_returns (now now' : datetime) (m : gmap string pyval) (reason id : string) :
  Utils.generate_message_id now m = Ok id ->
  exists a, _default_analysis now now' m reason = Ok a
            /\ well_formed a
            /\ a !! "message_id" = Some (JStr id)
            /\ a !! "requires_action" = Some (JBool false).
Proof.
  intros Hid. unfold _default_analysis. rewrite Hid. cbn [bind].
  eexists. split; [reflexivity | ]. split_and!.
  - unfold well_formed, is_score. lookups.
    split_and!; try (eexists; reflexivity);
      try (eexists; split; [reflexivity | split; reflexivity]);
      eexists; (split; [reflexivity | repeat constructor]).
  - lookups. reflexivity.
  - lookups. reflexivity.
Qed.

Lemma enhance_returns (a a' : gmap string jval) :
  well_formed a -> _enhance_streamer_analysis a = Ok a' ->
  well_formed a'
  /\ a' !! "message_id" = a !! "message_id"
  /\ a' !! "requires_action" = Some (JBool true).
Proof.
  intros (W1 & W2 & W3 & (ac & _ & _) & W5 & W6 & W7 & W8 & W9 & W10).
  unfold _enhance_streamer_analysis. cbv zeta.
  rewrite !lookup_insert_ne by discriminate.
  destruct (a !! "reasoning") as [[ | | | | r | l | ] | ]; try discriminate;
    intros [= <-]; unfold well_formed;
    repeat (first [rewrite lookup_insert_eq | rewrite lookup_insert_ne by discriminate]);
    (split_and!; try assumption; try reflexivity; try (eexists; reflexivity));
    eexists; (split; [reflexivity | repeat constructor]).
Qed.

(** X25: for a message whose text is a string, [analyze_message]
    returns an analysis and does not raise, whatever the classifier
    answers: the scores are floats from 0 to 1, the sentiment and the
    action are among those allowed, the categories are a list, and the
    id is the id computed from the message; when the text is blank,
    the classifier is not asked; and when the text is blank or the
    classifier gives no response, the analysis requires no action. *)
Theorem analyze_message_returns (now now' : datetime) (message : gmap string pyval)
    (text : string) (w : world) :
  default (PStr "") (message !! "text") = PStr text ->
  exists a id,
    fst (analyze_message now now' message w) = Ok a
    /\ well_formed a
    /\ Utils.generate_message_id now message = Ok id
    /\ a !! "message_id" = Some (JStr id)
    /\ (strip text = "" -> snd (analyze_message now now' message w) = w)
    /\ (strip text = ""
        \/ fst (_make_ollama_request
                  (_create_analysis_prompt (default (PStr "unknown") (message !! "username"))
                     text) w) = None ->
        a !! "requires_action" = Some (JBool false)).
Proof.
  intros Htext.
  assert (Hid : exists id, Utils.generate_message_id now message = Ok id).
  { unfold Utils.generate_message_id. rewrite Htext. eexists. reflexivity. }
  destruct Hid as [id Hid].
  unfold Analyzer.analyze_message. rewrite Htext.
  destruct (String.eqb_spec (strip text) "") as [Hblank | Hblank].
  { destruct (default_returns now now' message "Mensaje vacío" id Hid)
      as (a & Ha & Hwf & Hmid & Hreq).
    exists a, id. cbn [fst snd]. split_and!; try assumption; try done. }
  destruct (_make_ollama_request _ w) as [response w1] eqn:Hreq.
  cbn [fst snd].
  set (attempt := match response with Some _ => _ | None => _ end).
  assert (Hattempt :
            match attempt with
            | Ok a => well_formed a /\ a !! "message_id" = Some (JStr id)
                      /\ (response = None -> a !! "requires_action" = Some (JBool false))
            | Raise _ => True
            end).
  { unfold attempt. destruct response as [r | ].
    - destruct (negb (String.eqb r "")).
      + unfold _parse_analysis_result.
        assert (Hparse :
                  match (match first_candidate r with
                         | Some (CDict analysis) => _finalize_analysis now now' analysis message
                         | Some (COther _) => Raise AttributeError
                         | None => _default_analysis now now' message "Error de parsing JSON"
                         end) with
                  | Ok a => well_formed a /\ a !! "message_id" = Some (JStr id)
                  | Raise _ => True
                  end).
        { destruct (first_candidate r) as [[analysis | v] | ].
          - destruct (_finalize_analysis now now' analysis message) as [a | e] eqn:Hf; [ | done].
            apply finalize_returns in Hf as (Hwf & (id' & Hid' & Hmid) & _).
            rewrite Hid in Hid'. injection Hid' as <-. done.
          - done.
          - destruct (default_returns now now' message "Error de parsing JSON" id Hid)
              as (a & -> & Hwf & Hmid & _). done. }
        destruct (match first_candidate r with Some _ => _ | None => _ end) as [a | e];
          [ | done].
        cbn [bind]. destruct Hparse as [Hwf Hmid].
        destruct (default (PStr "unknown") (message !! "username")) as [ | | u | ]; try done.
        destruct (String.eqb (lower u) "niaghtmares"); [ | done].
        destruct (_enhance_streamer_analysis a) as [a' | e] eqn:He; [ | done].
        apply (enhance_returns a a' Hwf) in He as (Hwf' & Hmid' & _).
        rewrite Hmid' . done.
      + destruct (default_returns now now' message "Error en respuesta de Ollama" id Hid)
          as (a & -> & Hwf & Hmid & _). done.
    - destruct (default_returns now now' message "Error en respuesta de Ollama" id Hid)
        as (a & -> & Hwf & Hmid & Hra). done. }
  destruct attempt as [a | e].
  - destruct Hattempt as (Hwf & Hmid & Hra). exists a, id.
    split_and!; try assumption; try done.
    intros [Hb | Hnone]; [done | ]. apply Hra. exact Hnone.
  - destruct (default_returns now now' message ("Excepción: " +:+ exception_text e) id Hid)
      as (a & -> & Hwf & Hmid & Hra).
    exists a, id. split_and!; try assumption; try done.
Qed.

End analyzer_facts.
End AnalyzerFacts.

(** ** The alerts written to a file *)

Module AlertsFacts.
Import Processor Alerts.
Local Open Scope list_scope.

Abbreviation of_severity s := (filter (fun al : alert => alert_severity al = s)).

Lemma group_from (alerts : list alert) (groups : gmap string (list alert)) (s : string) :
  foldl (fun groups al =>
           <[alert_severity al := default [] (groups !! alert_severity al) ++ [al]]> groups)
    groups alerts !! s
  = match of_severity s alerts with
    | [] => groups !! s
    | l => Some (default [] (groups !! s) ++ l)
    end.
Proof.
  revert groups. induction alerts as [ | al rest IH]; intros groups; [reflexivity | ].
  cbn [foldl]. rewrite IH, filter_cons.
  destruct (decide (alert_severity al = s)) as [<- | Hne].
  - rewrite lookup_insert_eq.
    destruct (of_severity (alert_severity al) rest) as [ | x l]; cbn [default].
    + reflexivity.
    + unfold id. rewrite <- app_assoc. reflexivity.
  - rewrite lookup_insert_ne by exact Hne. reflexivity.
Qed.

Lemma group_by_severity_lookup (alerts : list alert) (s : string) :
  group_by_severity alerts !! s
  = match of_severity s alerts with
    | [] => None
    | l => Some l
    end.
Proof.
  unfold group_by_severity. rewrite group_from, lookup_empty.
  destruct (of_severity s alerts); reflexivity.
Qed.

Lemma group_length (alerts : list alert) (s : string) :
  length (default [] (group_by_severity alerts !! s)) = length (of_severity s alerts).
Proof. rewrite group_by_severity_lookup. destruct (of_severity s alerts); reflexivity. Qed.

Lemma four_severities (alerts : list alert) :
  Forall (fun al => alert_severity al ∈ ["CRITICAL"; "HIGH"; "MEDIUM"; "LOW"]) alerts ->
  length (of_severity "CRITICAL" alerts) + length (of_severity "HIGH" alerts)
  + length (of_severity "MEDIUM" alerts) + length (of_severity "LOW" alerts)
  = length alerts.
Proof.
  induction 1 as [ | al rest Hal _ IH]; [reflexivity | ].
  rewrite !filter_cons. rewrite !elem_of_cons in Hal.
  destruct Hal as [-> | [-> | [-> | [-> | Hal]]]]; [ | | | | inversion Hal];
    repeat (match goal with
            | |- context [decide (?a = ?b)] =>
                destruct (decide (a = b)); [try discriminate | try congruence]
            end); simpl; lia.
Qed.

Lemma summary_sum (groups : gmap string (list alert)) :
  sum_list (snd <$> _print_alert_summary groups)
  = length (default [] (groups !! "CRITICAL")) + length (default [] (groups !! "HIGH"))
    + length (default [] (groups !! "MEDIUM")) + length (default [] (groups !! "LOW")).
Proof.
  unfold _print_alert_summary. cbn [omap list_omap].
  generalize (length (default [] (groups !! "CRITICAL"))) as a.
  generalize (length (default [] (groups !! "HIGH"))) as b.
  generalize (length (default [] (groups !! "MEDIUM"))) as c.
  generalize (length (default [] (groups !! "LOW"))) as d.
  intros d c b a. destruct a, b, c, d; simpl; lia.
Qed.

(** X26: without alerts no file is written; with alerts, the file
    holds all of them and their number, each group holds the alerts of
    its severity in the order in which they came and no group is
    empty, the breakdown gives the size of each group, and, the
    severities being the four of the processor, the numbers that the
    summary prints add up to the number of alerts. *)
Theorem alerts_are_grouped (now now' : datetime) (alerts : list alert) (source_file : string) :
  Forall (fun al => alert_severity al ∈ ["CRITICAL"; "HIGH"; "MEDIUM"; "LOW"]) alerts ->
  match save_alerts now now' alerts source_file with
  | (None, summary) => alerts = [] /\ summary = []
  | (Some (_, data), summary) =>
      alerts <> []
      /\ all_alerts data = alerts
      /\ total_alerts (output_metadata data) = length alerts
      /\ (forall s, alerts_by_severity data !! s
                    = match of_severity s alerts with [] => None | l => Some l end)
      /\ (forall s, severity_breakdown (output_metadata data) !! s
                    = length <$> alerts_by_severity data !! s)
      /\ sum_list (snd <$> summary) = length alerts
      /\ Forall (fun line => 0 < snd line) summary
  end.
Proof.
  intros Hsev. unfold save_alerts. destruct alerts as [ | al rest]; [done | ].
  cbv zeta. cbn [all_alerts total_alerts output_metadata alerts_by_severity severity_breakdown].
  split_and!; try done.
  - intros s. apply group_by_severity_lookup.
  - intros s. apply lookup_fmap.
  - rewrite summary_sum, !group_length. exact (four_severities _ Hsev).
  - unfold _print_alert_summary. cbn [omap list_omap].
    repeat (match goal with
            | |- context [(0 <? ?n)%nat] => destruct (Nat.ltb_spec 0 n)
            end); repeat constructor; simpl; assumption.
Qed.

End AlertsFacts.

(** ** The file tailer: what an event hands to the processing *)

Module TailingFacts.
Import Processor Realtime Tailing.
Local Open Scope list_scope.

Lemma strip_with_line_feed (l : string) : strip (with_line_feed l) = strip l.
Proof. apply UsernameFacts.strip_append. reflexivity. Qed.

Section tailing_facts.
Variable strptime : string -> string -> result datetime.
Hypothesis strptime_raises : forall s fmt e, strptime s fmt = Raise e -> e = ValueError.

Lemma messages_of_lines_cons (clock : nat -> datetime) (t : nat) (name : string)
    (l : string) (rest : list string) :
  messages_of_lines strptime clock t name (l :: rest)
  = option_list (message_of_line strptime (clock t) name l)
    ++ messages_of_lines strptime clock (S t) name rest.
Proof.
  unfold messages_of_lines. rewrite imap_cons. cbn [omap list_omap id].
  rewrite Nat.add_0_r.
  rewrite (imap_ext _ (fun i line => message_of_line strptime (clock (S t + i)) name line))
    by (intros i x _; simpl; rewrite Nat.add_succ_r; reflexivity).
  destruct (message_of_line strptime (clock t) name l); reflexivity.
Qed.

(** The parsing loop of [process_new_lines] returns the messages of
    the lines, whatever the statistics of the parser are. *)
Lemma parse_new_lines_messages (clock : nat -> datetime) (t : nat) (name : string)
    (lines : list string) (d : Parser.debug_stats) :
  fst (parse_new_lines strptime clock t name lines d)
  = Ok (messages_of_lines strptime clock t name lines).
Proof.
  revert t d. induction lines as [ | l rest IH]; intros t d; [reflexivity | ].
  rewrite messages_of_lines_cons. cbn [parse_new_lines]. cbv zeta.
  unfold message_of_line.
  destruct (String.eqb (strip l) ""); [exact (IH (S t) d) | ].
  unfold Parser._parse_line.
  destruct (ParserFacts.try_patterns_returns strptime strptime_raises (clock t) 0
              Parser.patterns (strip l)) as [[[i m] | ] ->].
  - specialize (IH (S t) (Parser.count_match i d)).
    destruct (parse_new_lines strptime clock (S t) name rest (Parser.count_match i d))
      as [[ms | e] d2]; simpl in *; [ | discriminate].
    injection IH as ->. reflexivity.
  - simpl. destruct (contains_char ":" (strip l)); simpl.
    + specialize (IH (S t) d).
      destruct (parse_new_lines strptime clock (S t) name rest d) as [[ms | e] d2];
        simpl in *; [ | discriminate].
      injection IH as ->. reflexivity.
    + exact (IH (S t) d).
Qed.

Lemma messages_of_lines_line_feed (clock : nat -> datetime) (t : nat) (name : string)
    (lines : list string) :
  messages_of_lines strptime clock t name (with_line_feed <$> lines)
  = messages_of_lines strptime clock t name lines.
Proof.
  unfold messages_of_lines. rewrite imap_fmap. f_equal. apply imap_ext.
  intros i l _. simpl. unfold message_of_line. rewrite strip_with_line_feed. reflexivity.
Qed.

Variable world : Type.
Variable analyze_message : gmap string pyval -> world -> analysis * world.
Variable get_embedding : pyval -> world -> option (list float) * world.
Variable vs_add_message :
  gmap string pyval -> analysis -> list float -> world -> result string * world.
Variable db_save_analysis :
  gmap string pyval -> analysis -> string -> world -> result bool * world.
Variable db_get_existing_message_ids :
  list (gmap string pyval) -> world -> result (gset string) * world.

Implicit Type st : moderator world.

Abbreviation _process_message_batch_optimized :=
  (_process_message_batch_optimized world analyze_message get_embedding vs_add_message
     db_save_analysis db_get_existing_message_ids).
Abbreviation process_new_lines :=
  (process_new_lines strptime world analyze_message get_embedding vs_add_message
     db_save_analysis db_get_existing_message_ids).

(** X28: for a file whose cursor is at the end of what was read,
    after [lines] were appended an event reads exactly these lines;
    the messages handed to the processing, in one call, are the
    messages of these lines: one for each line that is not blank and
    in which the parser finds a message, in the order of the lines,
    tagged with the name of the file; the cursor is then at the new
    end, and a second event reads nothing and leaves the moderator as
    it is. *)
Theorem event_hands_over_appended_lines (fs : gmap string string)
    (clock clock' : nat -> datetime) (filepath old : string) (lines : list string) st :
  Forall one_line lines ->
  lines <> [] ->
  file_positions st !! filepath = Some (String.length old) ->
  fs !! filepath = Some (old +:+ join_lines lines) ->
  let content := old +:+ join_lines lines in
  let name := path_name filepath in
  let messages := messages_of_lines strptime clock 0 name lines in
  let st' := process_new_lines fs clock filepath st in
  read_new_lines content (String.length old) = (with_line_feed <$> lines, String.length content)
  /\ (exists d,
        let st2 :=
          set_parser_stats d
            (emit [LogNewLines (length lines) name]
               (set_positions (<[filepath := String.length content]> (file_positions st))
                  st)) in
        st' = match messages with
              | [] => st2
              | _ =>
                  match _process_message_batch_optimized clock (length lines) messages st2 with
                  | (Ok _, st4) => st4
                  | (Raise e, st4) => emit [LogNewLinesError e] st4
                  end
              end)
  /\ file_positions st' !! filepath = Some (String.length content)
  /\ process_new_lines fs clock' filepath st' = st'.
Proof.
  intros Hlines Hne Hpos Hfs content name messages st'.
  destruct (RealtimeFacts.tail_reads_appended_lines_once strptime world analyze_message
              get_embedding vs_add_message db_save_analysis db_get_existing_message_ids
              fs clock clock' filepath old lines st Hlines Hne Hpos Hfs)
    as (H1 & H2 & H3 & _ & H5).
  split_and!; [exact H1 | | exact H3 | exact H5].
  fold st' in H2. rewrite H2.
  pose proof (parse_new_lines_messages clock 0 name (with_line_feed <$> lines)
                (parser_stats st)) as Hp.
  rewrite messages_of_lines_line_feed in Hp. fold messages in Hp. fold name.
  destruct (parse_new_lines strptime clock 0 name (with_line_feed <$> lines) (parser_stats st))
    as [[ms | e] d]; simpl in Hp; [ | discriminate].
  injection Hp as ->. exists d. cbv zeta. destruct messages; reflexivity.
Qed.

End tailing_facts.
End TailingFacts.

(** ** A run on a file: what the session counts *)

Module ModeradorFacts.
Import Dedup Session Moderador.
Local Open Scope list_scope.

Section run_facts.
Variable strptime : string -> string -> result datetime.
Variable parse_date : string -> option datetime.
Variable db_get_existing_message_ids : list (gmap string pyval) -> result (gset string).
Variable vs_get_existing_message_ids : list (gmap string pyval) -> result (gset string).
Variable is_fresh_collection : bool.
Variable world : Type.
Variable analyze_message : gmap string pyval -> world -> Processor.analysis * world.
Variable get_embedding : pyval -> world -> option (list float) * world.
Variable vs_add_message :
  gmap string pyval -> Processor.analysis -> list float -> world -> result string * world.
Variable db_save_analysis :
  gmap string pyval -> Processor.analysis -> string -> world -> result bool * world.
Variable batch_size : nat.

Abbreviation filter_new_messages :=
  (Dedup.filter_new_messages parse_date db_get_existing_message_ids
     vs_get_existing_message_ids is_fresh_collection).
Abbreviation process_log_file :=
  (process_log_file strptime parse_date db_get_existing_message_ids
     vs_get_existing_message_ids is_fresh_collection world analyze_message get_embedding
     vs_add_message db_save_analysis batch_size).

Lemma enrich_all_length (clock : nat -> datetime) (t : nat) (l : list (gmap string pyval)) :
  length (fst (enrich_all parse_date clock t l)) = length l.
Proof.
  revert t. induction l as [ | m l IH]; intros t; [reflexivity | ].
  cbn [enrich_all]. destruct (Utils.enrich parse_date (clock t) m) as [m' [[] | e]].
  - specialize (IH (S t)). destruct (enrich_all parse_date clock (S t) l) as [l' r].
    simpl in *. rewrite IH. reflexivity.
  - reflexivity.
Qed.

Lemma simple_loop_length (clock : nat -> datetime) (t : nat) (seen : gset pyval)
    (l out : list (gmap string pyval)) :
  simple_loop parse_date clock t seen l = Ok out -> length out <= length l.
Proof.
  revert t seen out. induction l as [ | m l IH]; intros t seen out H; simpl in H.
  - injection H as <-. reflexivity.
  - destruct (Utils.enrich parse_date (clock t) m) as [m' [[] | e]]; [ | discriminate].
    destruct (m' !! "message_id") as [id | ]; [ | discriminate].
    destruct (bool_decide (id ∈ seen)).
    + apply IH in H. simpl. lia.
    + destruct (simple_loop _ _ _ _ l) as [out' | ] eqn:Hl; [ | discriminate].
      injection H as <-. apply IH in Hl. simpl. lia.
Qed.

(** The filter returns no more messages than it was given. *)
Lemma filter_length (clock : nat -> datetime) (messages new_messages : list (gmap string pyval)) :
  fst (filter_new_messages clock messages) = Ok new_messages ->
  length new_messages <= length messages.
Proof.
  unfold Dedup.filter_new_messages.
  pose proof (enrich_all_length clock 0 messages) as Hlen.
  destruct (enrich_all parse_date clock 0 messages) as [enriched [[] | e]]; simpl in Hlen.
  - destruct is_fresh_collection; [simpl; intros [= <-]; lia | ].
    unfold _remove_internal_duplicates.
    destruct (unique_from ∅ enriched) as [unique | e] eqn:Hu.
    + apply DedupMore.unique_from_sublist, sublist_length in Hu.
      destruct (_remove_external_duplicates _ _ unique) as [[new | e] log2] eqn:Hext.
      * simpl. intros [= <-].
        assert (Hsub : new `sublist_of` unique)
          by (apply (DedupMore.remove_external_sublist db_get_existing_message_ids
                       vs_get_existing_message_ids); rewrite Hext; reflexivity).
        apply sublist_length in Hsub. lia.
      * unfold _simple_duplicate_filter. simpl. intros H.
        apply simple_loop_length in H. lia.
    + unfold _simple_duplicate_filter. simpl. intros H. apply simple_loop_length in H. lia.
  - unfold _simple_duplicate_filter. simpl. intros H. apply simple_loop_length in H. lia.
Qed.

(** X27: what a run leaves in the session: the time of its start,
    and, once the filter has returned, the number of messages that the
    filter dropped, which is not negative; the numbers of processed
    messages, of alerts and of errors are left as they were, whatever
    the run processed and whatever alerts it produced; and a file of
    alerts is written exactly when there are alerts. *)
Theorem run_accounting (c : clocks) (fs : gmap string string) (filepath : string)
    (session : gmap string pyval) (w : world) :
  let '(session', r) := process_log_file c fs filepath session w in
  session' !! "start_time" = Some (PDatetime (at_start c))
  /\ (forall k, k <> "start_time" -> k <> "duplicate_count" -> session' !! k = session !! k)
  /\ (forall alerts file w', r = Ok (alerts, file, w') -> (file = None <-> alerts = []))
  /\ (forall messages st' new_messages,
        Parser.parse_file strptime fs (of_parser c) filepath false Parser.fresh_debug_stats
        = (Ok messages, st') ->
        messages <> [] ->
        fst (filter_new_messages (of_filter c) messages) = Ok new_messages ->
        length new_messages <= length messages
        /\ (is_Some (session !! "duplicate_count") ->
            session' !! "duplicate_count"
            = Some (PInt (Z.of_nat (length messages - length new_messages))))).
Proof.
  unfold Moderador.process_log_file. cbv zeta.
  destruct (Parser.parse_file _ _ _ _ _ _) as [[[ | m ms] | e] st'] eqn:Hparse.
  - split_and!.
    + apply lookup_insert_eq.
    + intros k Hk _. apply lookup_insert_ne. congruence.
    + intros alerts file w' [= <- <- _]. done.
    + intros messages st'' new [= <- _] Hne. done.
  - destruct (fst (filter_new_messages (of_filter c) (m :: ms))) as [new | e] eqn:Hfilter.
    + pose proof (filter_length _ _ _ Hfilter) as Hlen.
      set (d := PInt (Z.of_nat (length (m :: ms)) - Z.of_nat (length new))).
      assert (Hs2 : forall k, k <> "duplicate_count" ->
                update_stats [("duplicate_count", d)] (start_session (at_start c) session) !! k
                = start_session (at_start c) session !! k).
      { intros k Hk. unfold update_stats. cbn [foldl fst snd].
        destruct (start_session (at_start c) session !! "duplicate_count");
          [apply lookup_insert_ne; congruence | reflexivity]. }
      assert (Hd : is_Some (session !! "duplicate_count") ->
                update_stats [("duplicate_count", d)] (start_session (at_start c) session)
                  !! "duplicate_count"
                = Some (PInt (Z.of_nat (length (m :: ms) - length new)))).
      { intros [v Hv]. unfold update_stats, start_session. cbn [foldl fst snd].
        rewrite lookup_insert_ne by discriminate. rewrite Hv, lookup_insert_eq.
        unfold d. do 2 f_equal. lia. }
      assert (Hcommon :
                update_stats [("duplicate_count", d)] (start_session (at_start c) session)
                  !! "start_time" = Some (PDatetime (at_start c))
                /\ (forall k, k <> "start_time" -> k <> "duplicate_count" ->
                      update_stats [("duplicate_count", d)]
                        (start_session (at_start c) session) !! k = session !! k)
                /\ (forall messages st'' new_messages,
                      (Ok (m :: ms), st') = (Ok messages, st'') ->
                      messages <> [] ->
                      fst (filter_new_messages (of_filter c) messages) = Ok new_messages ->
                      length new_messages <= length messages
                      /\ (is_Some (session !! "duplicate_count") ->
                          update_stats [("duplicate_count", d)]
                            (start_session (at_start c) session) !! "duplicate_count"
                          = Some (PInt (Z.of_nat (length messages - length new_messages)))))).
      { split_and!.
        - rewrite Hs2 by discriminate. apply lookup_insert_eq.
        - intros k Hk1 Hk2. rewrite Hs2 by exact Hk2. apply lookup_insert_ne. congruence.
        - intros messages st'' new' [= <- _] _ Hf. rewrite Hfilter in Hf.
          injection Hf as <-. split; [exact Hlen | exact Hd]. }
      destruct Hcommon as (C1 & C2 & C3).
      destruct new as [ | n ns].
      * split_and!; [exact C1 | exact C2 | | exact C3].
        intros alerts file w' [= <- <- _]. done.
      * destruct (Processor.process_messages_batch _ _ _ _ _ _ _ _ _ _) as [[alerts w'] tr].
        split_and!; [exact C1 | exact C2 | | exact C3].
        intros alerts' file w'' [= <- <- _]. destruct alerts as [ | al rest]; [done | ].
        split; [ | done]. unfold Alerts.save_alerts. simpl. discriminate.
    + split_and!.
      * apply lookup_insert_eq.
      * intros k Hk _. apply lookup_insert_ne. congruence.
      * intros alerts file w' [=].
      * intros messages st'' new [= <- _] _ Hf. rewrite Hfilter in Hf. discriminate.
  - split_and!.
    + apply lookup_insert_eq.
    + intros k Hk _. apply lookup_insert_ne. congruence.
    + intros alerts file w' [=].
    + intros messages st'' new [=].
Qed.

End run_facts.
End ModeradorFacts.

(** ** The further properties on the sample data *)

Module MoreChecks.
Import Samples MoreSamples CatchupSamples.
Local Open Scope list_scope.

Lemma pair_with_fst {A B} (p : A * B) (a : A) : fst p = a -> p = (a, snd p).
Proof. intros <-. destruct p; reflexivity. Qed.

Lemma pair_with_snd {A B} (p : A * B) (b : B) : snd p = b -> p = (fst p, b).
Proof. intros <-. destruct p; reflexivity. Qed.

Lemma ok_of_true {A} (r : result A) (d : A) :
  match r with Ok _ => true | Raise _ => false end = true ->
  r = Ok (match r with Ok a => a | Raise _ => d end).
Proof. destruct r; [reflexivity | discriminate]. Qed.

Abbreviation parse_sample :=
  (Parser.parse_file Parser.Strptime.strptime files clock "data/logs/chat.log" false
     Parser.fresh_debug_stats).

(** The sample data are what their names say. *)
Lemma parse_sample_eq : parse_sample = (Ok parsed, snd parse_sample).
Proof. apply pair_with_fst. apply (ok_of_true (fst parse_sample) []). vm_compute. reflexivity. Qed.

Lemma enrich_all_sample : Dedup.enrich_all parse_date clock 0 parsed = (enriched, Ok tt).
Proof. apply pair_with_snd. vm_compute. reflexivity. Qed.

Lemma enrich_hello : Utils.enrich parse_date (clock 0) hello = (hello_enriched, Ok tt).
Proof. apply pair_with_snd. vm_compute. reflexivity. Qed.

Lemma tier_1_sample : fst (Dedup._remove_internal_duplicates enriched) = Ok [hello_enriched].
Proof. vm_compute. reflexivity. Qed.

(** X1 on the sample: the two equal lines of the log. *)
Lemma tier_1_first_occurrences_witness :
  let messages := enriched in
  let unique := [hello_enriched] in
  unique `sublist_of` messages
  /\ NoDup (Notions.id_list unique)
  /\ Dedup.ids_of unique = Dedup.ids_of messages
  /\ (forall l1 m l2 id, messages = l1 ++ m :: l2 -> m !! "message_id" = Some id ->
        id ∉ Notions.id_list l1 -> m ∈ unique)
  /\ fst (Dedup._remove_internal_duplicates unique) = Ok unique.
Proof.
  intros messages unique. apply DedupMore.tier_1_first_occurrences.
  exact tier_1_sample.
Defined.

(** X2 on the sample: the log on stores that hold nothing. *)
Lemma filter_returns_enriched_witness :
  Forall (Notions.enrich_fixed parse_date) [hello_enriched]
  /\ (false = false -> NoDup (Notions.id_list [hello_enriched])).
Proof.
  apply (DedupMore.filter_returns_enriched parse_date no_ids no_ids false clock parsed).
  vm_compute. reflexivity.
Defined.

(** X3 on the sample: the relational store cannot be reached. *)
Lemma store_failure_falls_back_witness :
  exists e,
    Dedup.filter_new_messages parse_date db_raises no_ids false clock parsed
    = (Ok [hello_enriched],
       [Dedup.LogChecking (length parsed);
        Dedup.LogInternalDuplicates (length enriched - length [hello_enriched]);
        Dedup.LogFilterError e; Dedup.LogSimpleFilter]).
Proof.
  apply (DedupMore.store_failure_falls_back parse_date db_raises no_ids clock parsed enriched
           [hello_enriched]).
  - exact enrich_all_sample.
  - exact tier_1_sample.
  - left. exists StoreError. reflexivity.
Defined.

(** X4 on the sample: the log in chunks of one message. *)
Lemma batch_size_plays_no_part_witness :
  Processor.process_messages_batch parse_date unit analyze embed vs_add db_refuses 1 clock
    parsed tt
  = (let '(alerts, _, w', tr) :=
       Processor._process_single_batch parse_date unit analyze embed vs_add db_refuses
         clock 0 parsed ∅ tt in
     (alerts, w', tr)).
Proof.
  apply (ProcessorMore.batch_size_plays_no_part parse_date unit analyze embed vs_add
           db_refuses 1 clock parsed tt).
  lia.
Defined.

(** X9 on the sample: three lines appended to the log. *)
Lemma active_alerts_bounded_witness :
  length (Realtime.active_alerts
            (Realtime.process_new_lines Parser.Strptime.strptime unit analyze embed vs_add
               db_refuses db_ids grown_files clock "data/logs/chat.log" moderator)) <= 100.
Proof.
  apply (RealtimeMore.active_alerts_bounded Parser.Strptime.strptime unit analyze embed
           vs_add db_refuses db_ids grown_files clock "data/logs/chat.log" moderator).
  simpl. lia.
Defined.

(** X10 on the sample: the first line of the log, twice. *)
Lemma quick_check_lets_through_once_witness :
  let st1 := snd (Realtime._quick_message_check unit hello moderator) in
  Realtime._quick_message_check unit hello st1 = (Ok true, st1).
Proof.
  intros st1.
  apply (RealtimeMore.quick_check_lets_through_once unit hello moderator st1 st1).
  - apply pair_with_fst. vm_compute. reflexivity.
  - reflexivity.
Defined.

(** X11 on the sample: after the first line of the log was processed,
    a message of the same user at the same second with another
    text. *)
Lemma same_user_same_second_is_known_witness :
  let st2 :=
    snd (Realtime.process_final_try unit analyze embed vs_add db_refuses (clock 0) hello
           moderator) in
  Realtime._quick_message_check unit hello_again st2 = (Ok true, st2).
Proof.
  intros st2.
  apply (RealtimeMore.same_user_same_second_is_known unit analyze embed vs_add db_refuses
           (clock 0) hello hello_again "alice_2025-05-30T19:31:23" moderator st2).
  - vm_compute. reflexivity.
  - vm_compute. reflexivity.
  - vm_compute. reflexivity.
  - reflexivity.
Defined.


(** X13 on the sample: the log was cut to five characters. *)
Lemma shrunk_file_is_not_read_witness :
  Realtime.read_new_lines "[2025" (String.length old_log) = ([], String.length old_log)
  /\ Realtime.process_new_lines Parser.Strptime.strptime unit analyze embed vs_add
       db_refuses db_ids shrunk_files clock "data/logs/chat.log" moderator
     = moderator.
Proof.
  apply (RealtimeMore.shrunk_file_is_not_read Parser.Strptime.strptime unit analyze embed
           vs_add db_refuses db_ids shrunk_files clock "data/logs/chat.log" "[2025"
           (String.length old_log) moderator).
  - reflexivity.
  - reflexivity.
  - vm_compute. lia.
Defined.

(** X14 on the sample: the user name of the first line in capitals
    and between blanks. *)
Lemma id_ignores_case_and_padding_witness :
  Utils.generate_message_id (clock 0) (<["username" := PStr (" " +:+ ("ALICE" +:+ "  "))]> hello)
  = Utils.generate_message_id (clock 0) (<["username" := PStr "alice"]> hello).
Proof.
  apply (UsernameFacts.id_ignores_case_and_padding (clock 0) hello "alice" "ALICE" " " "  ");
    reflexivity.
Defined.


(** X16 on the sample: the log of two lines. *)
Lemma parse_file_statistics_witness :
  let st' := snd parse_sample in
  Parser.parsed_lines st' = length parsed
  /\ Parser.parsed_lines st' <= Parser.total_lines st'
  /\ Parser.total_lines st' <= length (readlines chat_log)
  /\ length (Parser.unknown_format_lines st') <= 10
  /\ (false = false -> Parser.unknown_format_lines st' = [])
  /\ (exists nums, Shapes.line_numbers parsed = (fun n => PInt (Z.of_nat n)) <$> nums
                   /\ Sorted lt nums
                   /\ Forall (fun n => 1 <= n <= length (readlines chat_log)) nums).
Proof.
  intros st'.
  apply (ParserMore.parse_file_statistics Parser.Strptime.strptime files clock
           "data/logs/chat.log" chat_log false Parser.fresh_debug_stats st' parsed).
  - reflexivity.
  - exact parse_sample_eq.
Defined.

(** X17 on the sample: the messages of the log. *)
Lemma parsed_file_is_enriched_witness :
  exists enriched,
    Dedup.enrich_all parse_date clock 0 parsed = (enriched, Ok tt)
    /\ Forall2 (fun m e => e !! "timestamp" = m !! "timestamp" /\ e !! "text" = m !! "text")
         parsed enriched.
Proof.
  apply (ParserMore.parsed_file_is_enriched Parser.Strptime.strptime parse_date files clock
           clock "data/logs/chat.log" false Parser.fresh_debug_stats (snd parse_sample)
           parsed).
  exact parse_sample_eq.
Defined.

Lemma empty_store_consistent : Stores.consistent empty_store.
Proof.
  split_and!; [constructor | constructor | ]. intros id p H. inversion H.
Qed.

(** X19 on the sample: the log on empty stores, with clients that do
    not fail. *)
Lemma stores_stay_consistent_witness :
  let w' :=
    snd (fst (Stores._process_single_batch parse_date no_fault uuid4 unit analyze embed
                clock 0 parsed ∅ (tt, empty_store))) in
  Stores.consistent (snd w')
  /\ Stores.points empty_store `prefix_of` Stores.points (snd w')
  /\ Stores.rows empty_store `prefix_of` Stores.rows (snd w').
Proof.
  apply (StoresFacts.stores_stay_consistent no_fault uuid4 parse_date unit analyze embed
           clock 0 parsed ∅ (tt, empty_store)).
  exact empty_store_consistent.
Defined.

(** X20 on the sample: the first line of the log, on stores that hold
    it. *)
Lemma stored_message_is_left_alone_witness :
  let w' :=
    snd (fst (Stores.process_message parse_date no_fault uuid4 unit analyze embed (clock 0)
                hello ∅ (tt, hello_store))) in
  Stores.points (snd w') = Stores.points hello_store
  /\ Stores.rows (snd w') = Stores.rows hello_store.
Proof.
  apply (StoresFacts.stored_message_is_left_alone no_fault uuid4 parse_date unit analyze
           embed (clock 0) hello hello_enriched ∅ (tt, hello_store) (PStr hello_id)).
  - exact enrich_hello.
  - vm_compute. reflexivity.
  - vm_compute. constructor.
Defined.

(** X21 on the sample: the first line of the log, on stores that hold
    it. *)
Lemma queries_report_stored_ids_witness :
  let w := hello_store in
  let messages := [hello_enriched] in
  let ids := [hello_id] in
  let ids' := [hello_id] in
  exists pg q,
    Stores.db_get_existing_message_ids false w clock 0 messages = Ok pg
    /\ Stores.vs_get_existing_message_ids no_fault w clock 0 messages = Ok q
    /\ (forall s, s ∈ pg -> s ∈ ids /\ PStr s ∈ Stores.row_message_ids w)
    /\ (forall s, s ∈ q -> s ∈ ids' /\ PStr s ∈ Stores.point_message_ids w)
    /\ (false = false -> forall s, s ∈ ids -> PStr s ∈ Stores.row_message_ids w -> s ∈ pg)
    /\ (false = true -> pg = ∅)
    /\ ((forall j, no_fault j = false) -> NoDup (Stores.point_message_ids w) ->
        forall s, s ∈ ids' -> PStr s ∈ Stores.point_message_ids w -> s ∈ q)
    /\ ((forall j, no_fault j = true) -> q = ∅).
Proof.
  intros w messages ids ids'.
  apply (QueriesFacts.queries_report_stored_ids false no_fault w clock clock 0 0 messages
           ids ids').
  - vm_compute. reflexivity.
  - vm_compute. reflexivity.
Defined.

(** X22 on the sample: the log on stores that hold its first line. *)
Lemma filter_returns_what_is_in_neither_witness :
  exists unique,
    fst (Dedup._remove_internal_duplicates enriched) = Ok unique
    /\ fst (Dedup.filter_new_messages parse_date
              (Stores.db_get_existing_message_ids false hello_store clock 0)
              (Stores.vs_get_existing_message_ids no_fault hello_store clock 0)
              false clock parsed)
       = Ok (filter (Stores.in_neither hello_store) unique).
Proof.
  apply (QueriesFacts.filter_returns_what_is_in_neither false no_fault parse_date hello_store
           clock clock clock parsed enriched).
  - exact enrich_all_sample.
  - reflexivity.
  - reflexivity.
  - vm_compute. repeat constructor. intros H. inversion H.
Defined.

(** X23 on the sample: the same stores, out of reach. *)
Lemma outage_makes_everything_new_witness :
  exists unique,
    fst (Dedup._remove_internal_duplicates enriched) = Ok unique
    /\ Dedup.filter_new_messages parse_date
         (Stores.db_get_existing_message_ids true hello_store clock 0)
         (Stores.vs_get_existing_message_ids always_fault hello_store clock 0)
         false clock parsed
       = (Ok unique,
          [Dedup.LogChecking (length parsed);
           Dedup.LogInternalDuplicates (length enriched - length unique);
           Dedup.LogExternalDetails ∅]).
Proof.
  apply (QueriesFacts.outage_makes_everything_new true always_fault parse_date hello_store
           clock clock clock parsed enriched).
  - exact enrich_all_sample.
  - reflexivity.
  - reflexivity.
Defined.


Abbreviation finalize_sample :=
  (Analyzer._finalize_analysis float_of_str float_of_int (Analyzer.JStr "llama3")
     (clock 0) (clock 1) raw_analysis hello).

Lemma finalize_sample_eq : finalize_sample = Ok finalized.
Proof. apply (ok_of_true finalize_sample ∅). vm_compute. reflexivity. Qed.


Abbreviation analyze_sample :=
  (Analyzer.analyze_message float_of_str float_of_int (Analyzer.JStr "llama3") unit
     no_response prompt no_candidate exception_text (clock 0) (clock 1) hello tt).

(** X25 on the sample: the first line of the log, and a classifier
    that gives no response. *)
Lemma analyze_message_returns_witness :
  exists a id,
    fst analyze_sample = Ok a
    /\ Analyzer.well_formed a
    /\ Utils.generate_message_id (clock 0) hello = Ok id
    /\ a !! "message_id" = Some (Analyzer.JStr id)
    /\ (strip "hello world" = "" -> snd analyze_sample = tt)
    /\ (strip "hello world" = ""
        \/ fst (no_response
                  (prompt (default (PStr "unknown") (hello !! "username")) "hello world") tt)
           = None ->
        a !! "requires_action" = Some (Analyzer.JBool false)).
Proof.
  apply (AnalyzerFacts.analyze_message_returns float_of_str float_of_int
           (Analyzer.JStr "llama3") unit no_response prompt no_candidate exception_text
           (clock 0) (clock 1) hello "hello world" tt).
  vm_compute. reflexivity.
Defined.

Lemma sample_alerts_severities :
  Forall (fun al => Processor.alert_severity al ∈ ["CRITICAL"; "HIGH"; "MEDIUM"; "LOW"])
    sample_alerts.
Proof. vm_compute. repeat constructor. Qed.

(** X26 on the sample: the alerts of two lines. *)
Lemma alerts_are_grouped_witness :
  match Alerts.save_alerts (clock 0) (clock 1) sample_alerts "data/logs/chat.log" with
  | (None, summary) => sample_alerts = [] /\ summary = []
  | (Some (_, data), summary) =>
      sample_alerts <> []
      /\ Alerts.all_alerts data = sample_alerts
      /\ Alerts.total_alerts (Alerts.output_metadata data) = length sample_alerts
      /\ (forall s, Alerts.alerts_by_severity data !! s
                    = match filter (fun al : Processor.alert => Processor.alert_severity al = s)
                              sample_alerts with
                      | [] => None
                      | l => Some l
                      end)
      /\ (forall s, Alerts.severity_breakdown (Alerts.output_metadata data) !! s
                    = length <$> Alerts.alerts_by_severity data !! s)
      /\ sum_list (snd <$> summary) = length sample_alerts
      /\ Forall (fun line => 0 < snd line) summary
  end.
Proof.
  apply (AlertsFacts.alerts_are_grouped (clock 0) (clock 1) sample_alerts
           "data/logs/chat.log").
  exact sample_alerts_severities.
Defined.

(** On the sample: the file that is written and the summary. *)
Lemma save_alerts_sample :
  fst <$> fst (Alerts.save_alerts (clock 0) (clock 1) sample_alerts "data/logs/chat.log")
  = Some "alertas_chat_20260101_120000.json"
  /\ snd (Alerts.save_alerts (clock 0) (clock 1) sample_alerts "data/logs/chat.log")
     = [("CRITICAL", 2)].
Proof. split; vm_compute; reflexivity. Qed.

Abbreviation tail_sample st :=
  (Realtime.process_new_lines Parser.Strptime.strptime unit analyze embed vs_add db_refuses
     db_ids grown_files clock "data/logs/chat.log" st).

(** X28 on the sample: three lines appended to a log of one line that
    was read to its end. *)
Lemma event_hands_over_appended_lines_witness :
  let content := old_log +:+ Realtime.join_lines appended in
  let name := path_name "data/logs/chat.log" in
  let messages := Tailing.messages_of_lines Parser.Strptime.strptime clock 0 name appended in
  let st' := tail_sample moderator in
  Realtime.read_new_lines content (String.length old_log)
  = (Realtime.with_line_feed <$> appended, String.length content)
  /\ (exists d,
        let st2 :=
          Realtime.set_parser_stats d
            (Realtime.emit [Realtime.LogNewLines (length appended) name]
               (Realtime.set_positions
                  (<["data/logs/chat.log" := String.length content]>
                     (Realtime.file_positions moderator))
                  moderator)) in
        st' = match messages with
              | [] => st2
              | _ =>
                  match Realtime._process_message_batch_optimized unit analyze embed vs_add
                          db_refuses db_ids clock (length appended) messages st2 with
                  | (Ok _, st4) => st4
                  | (Raise e, st4) => Realtime.emit [Realtime.LogNewLinesError e] st4
                  end
              end)
  /\ Realtime.file_positions st' !! "data/logs/chat.log" = Some (String.length content)
  /\ tail_sample st' = st'.
Proof.
  apply (TailingFacts.event_hands_over_appended_lines Parser.Strptime.strptime
           ParserFacts.model_strptime_raises unit analyze embed vs_add db_refuses db_ids
           grown_files clock clock "data/logs/chat.log" old_log appended moderator).
  - repeat constructor.
  - discriminate.
  - reflexivity.
  - reflexivity.
Defined.

(** On the sample: the third line, which holds no colon, gives no
    message; the two others are handed on and processed. *)
Lemma appended_lines_sample :
  (fun m : gmap string pyval => m !! "username")
    <$> Tailing.messages_of_lines Parser.Strptime.strptime clock 0 "chat.log" appended
  = [Some (PStr "bob"); Some (PStr "carol")]
  /\ Realtime.messages_processed (tail_sample moderator) = 2.
Proof. split; vm_compute; reflexivity. Qed.

End MoreChecks.
